(** * IBM Cloud account session

    A shallow embedding of [src/cloud-account.ts] (class [CloudAccount]) and
    of [cloud-account-store.ts] (class [CloudAccountStore], in its later
    form over a [SecureStore]; the earlier one calls keytar directly and has
    the same methods), with the properties of the token life cycle proved
    over it.

    The TypeScript is asynchronous code that talks to four collaborators:
    the VS Code [Memento] (account id and email), a secure store (refresh
    token), the IBM Cloud HTTP endpoints, and the callbacks of the host.  An
    [async] method is embedded as a function from the state of the world to
    an outcome and a new state; every [await] of a collaborator is one step
    that is recorded in a trace and answered by the environment, which may
    answer differently each time.  One call is followed from its start to
    its end, also one run of the timer of the constructor: calls that
    interleave are not part of the model. *)

From Stdlib Require Import ZArith List Ascii String Decimal DecimalString Lia.
From stdpp Require Import base strings gmap.
Import ListNotations.

Local Open Scope string_scope.
Local Open Scope list_scope.
Local Open Scope Z_scope.

(** ** JavaScript values *)

(** A [string | undefined] (or [string | null]) is an [option string]. *)
Definition JsString : Type := option string.

(** [!!v]: [undefined], [null] and the empty string are falsy. *)
Definition truthy (v : JsString) : bool :=
  match v with
  | Some (String _ _) => true
  | _ => false
  end.

(** [a || b] on two optional strings. *)
Definition js_or (a b : JsString) : JsString := if truthy a then a else b.

(** [`${v}`]: a template literal prints [undefined] by name. *)
Definition js_template (v : JsString) : string :=
  match v with Some s => s | None => "undefined" end.

(** ['' + n] for a non-negative integer [n]. *)
Definition js_number_string (n : N) : string :=
  NilEmpty.string_of_uint (N.to_uint n).

(** [/^2/.test(s)] *)
Definition starts_with_2 (s : string) : bool :=
  match s with
  | String "2"%char _ => true
  | _ => false
  end.

(** [Math.round(ms / 1000)] for an integer number of milliseconds: the
    nearest integer, a half rounded up. *)
Definition Math_round_div_1000 (ms : Z) : Z := (ms + 500) / 1000.

(** ** Data *)

(** The form of a token request, an object literal: its fields in source
    order, each a string or [undefined]. *)
Definition Form : Type := list (string * JsString).

Fixpoint form_get (key : string) (form : Form) : option JsString :=
  match form with
  | [] => None
  | (k, v) :: rest => if String.eqb k key then Some v else form_get key rest
  end.

(** The body of the OpenID configuration document, as far as it is read. *)
Record OpenIDConfiguration : Type := {
  token_endpoint : string;
  passcode_endpoint : string
}.

(** The response of the token endpoint ([resolveWithFullResponse]).  With
    [json: true] the body is the parsed document; an answer without content
    has no body, and [response.body] is then [undefined]. *)
Module Response.
Record Body : Type := {
  errorCode : JsString;
  errorDetails : JsString;
  errorMessage : JsString;
  access_token : JsString;
  expiration : Z;
  refresh_token : string
}.
Record t : Type := {
  statusCode : N;
  body : option Body
}.
End Response.

(** One entry of the account listing. *)
Module Resource.
Record Metadata : Type := { guid : string }.
Record Entity : Type := { name : string; owner_userid : string }.
Record t : Type := { metadata : Metadata; entity : Entity }.
End Resource.

(** One page of the account listing. *)
Module Page.
Record t : Type := {
  resources : list Resource.t;
  next_url : JsString
}.
End Page.

(** The account objects handed to the chooser callback. *)
Record Account : Type := {
  guid : string;
  name : string;
  email : string
}.

(** ** Interactions with the outside *)

(** The asynchronous operations of the two stores. *)
Inductive StoreOp : Type :=
| MementoUpdate (key : string) (value : JsString)
| GetPassword (service account : string)
| SetPassword (service account password : string)
| DeletePassword (service account : string).

(** What the session does that the outside can see, one event per awaited
    call or emitted notification. *)
Inductive Event : Type :=
| EvStore (op : StoreOp)
| EvGetConfiguration (url : string)
| EvPost (url : string) (form : Form)
| EvGetAccounts (url : string) (bearer : JsString)
| EvPasscode (passcodeEndpoint : string)
| EvChoose (accounts : list Account)
| EvEmit (event : string).

(** A settled promise of a collaborator. *)
Inductive Reply (A : Type) : Type :=
| Resolve (a : A)
| Reject (e : string).
Arguments Resolve {A} a.
Arguments Reject {A} e.

(** The environment: how the collaborators answer, each answer a function of
    everything that happened before (the trace, newest event first).
    [new_URL] is the WHATWG URL constructor, which rejects an invalid
    string; [store_fault] lets any asynchronous store operation fail;
    [TypeError_undefined property] is the message of the [TypeError] the
    engine throws when [property] is read of [undefined], whose wording
    differs between versions of V8. *)
Class Env : Type := {
  clock : list Event -> Z;
  new_URL : string -> Reply string;
  TypeError_undefined : string -> string;
  store_fault : list Event -> StoreOp -> option string;
  http_get_configuration : list Event -> string -> Reply OpenIDConfiguration;
  http_post : list Event -> string -> Form -> Reply Response.t;
  http_get_accounts : list Event -> string -> JsString -> Reply Page.t
}.

(** No store operation ever fails. *)
Definition reliable (E : Env) : Prop :=
  forall tr op, store_fault tr op = None.

(** ** The state of the world *)

(** The two fields of a [CloudAccount], the contents of the two stores
    behind its [CloudAccountStore], and the trace. *)
Record World : Type := {
  accessToken : JsString;
  expiration : Z;
  globalState : gmap string string;
  secureStore : gmap (string * string) string;
  trace : list Event
}.

Definition set_accessToken (v : JsString) (w : World) : World :=
  {| accessToken := v; expiration := expiration w;
     globalState := globalState w; secureStore := secureStore w;
     trace := trace w |}.

Definition set_expiration (v : Z) (w : World) : World :=
  {| accessToken := accessToken w; expiration := v;
     globalState := globalState w; secureStore := secureStore w;
     trace := trace w |}.

Definition set_globalState (g : gmap string string) (w : World) : World :=
  {| accessToken := accessToken w; expiration := expiration w;
     globalState := g; secureStore := secureStore w;
     trace := trace w |}.

Definition set_secureStore (s : gmap (string * string) string) (w : World)
  : World :=
  {| accessToken := accessToken w; expiration := expiration w;
     globalState := globalState w; secureStore := s;
     trace := trace w |}.

Definition log (ev : Event) (w : World) : World :=
  {| accessToken := accessToken w; expiration := expiration w;
     globalState := globalState w; secureStore := secureStore w;
     trace := ev :: trace w |}.

(** ** Asynchronous computations *)

(** How a call ends: it returns, it throws an [Error] (its message), or it
    never settles (the pagination loop out of fuel). *)
Inductive Outcome (A : Type) : Type :=
| Return (a : A)
| Throw (e : string)
| Diverge.
Arguments Return {A} a.
Arguments Throw {A} e.
Arguments Diverge {A}.

Definition M (A : Type) : Type := World -> Outcome A * World.

Definition ret {A} (a : A) : M A := fun w => (Return a, w).

Definition throw {A} (e : string) : M A := fun w => (Throw e, w).

Definition diverge {A} : M A := fun w => (Diverge, w).

Definition bind {A B} (m : M A) (k : A -> M B) : M B :=
  fun w =>
    match m w with
    | (Return a, w1) => k a w1
    | (Throw e, w1) => (Throw e, w1)
    | (Diverge, w1) => (Diverge, w1)
    end.

Declare Scope async_scope.
Delimit Scope async_scope with async.
Notation "x <- m ;; k" := (bind m (fun x => k))
  (at level 100, m at next level, right associativity) : async_scope.
Notation "m ;;; k" := (bind m (fun _ => k))
  (at level 100, right associativity) : async_scope.

(** [try { m } finally { f }]: [f] runs however [m] settles, and the outcome
    of [m] stands unless [f] itself throws. *)
Definition try_finally {A} (m : M A) (f : M unit) : M A :=
  fun w =>
    match m w with
    | (Diverge, w1) => (Diverge, w1)
    | (r, w1) =>
        match f w1 with
        | (Return _, w2) => (r, w2)
        | (Throw e, w2) => (Throw e, w2)
        | (Diverge, w2) => (Diverge, w2)
        end
    end.

(** [try { m } catch { h }]: the handler does not look at the error. *)
Definition try_catch {A} (m : M A) (h : M A) : M A :=
  fun w =>
    match m w with
    | (Throw _, w1) => h w1
    | r => r
    end.

(** [if (b) { m }] *)
Definition when (b : bool) (m : M unit) : M unit :=
  if b then m else ret tt.

(** Read and write the fields of [this]. *)
Definition gets {A} (f : World -> A) : M A := fun w => (Return (f w), w).

Definition modify (f : World -> World) : M unit := fun w => (Return tt, f w).

(** [await] of a collaborator: the call is recorded, and the reply the
    environment gave settles it. *)
Definition await {A} (ev : Event) (reply : Reply A) : M A :=
  fun w =>
    match reply with
    | Resolve a => (Return a, log ev w)
    | Reject e => (Throw e, log ev w)
    end.

(** An asynchronous store operation: it fails and changes nothing, or it
    takes effect. *)
Definition await_store {A} {E : Env} (op : StoreOp) (run : World -> A * World)
  : M A :=
  fun w =>
    match store_fault (trace w) op with
    | Some e => (Throw e, log (EvStore op) w)
    | None => let (a, w1) := run w in (Return a, log (EvStore op) w1)
    end.

(** [this.emit(event)] of the [EventEmitter]. *)
Definition emit (event : string) : M unit := modify (log (EvEmit event)).

(** [new URL(s)] *)
Definition URL {E : Env} (s : string) : M string :=
  fun w =>
    match new_URL s with
    | Resolve u => (Return u, w)
    | Reject e => (Throw e, w)
    end.

(** [rp.get] and [rp.post] of request-promise-native. *)
Definition rp_get_configuration {E : Env} (url : string)
  : M OpenIDConfiguration :=
  fun w => await (EvGetConfiguration url) (http_get_configuration (trace w) url) w.

Definition rp_post {E : Env} (url : string) (form : Form) : M Response.t :=
  fun w => await (EvPost url form) (http_post (trace w) url form) w.

Definition rp_get_accounts {E : Env} (url : string) (bearer : JsString)
  : M Page.t :=
  fun w =>
    await (EvGetAccounts url bearer) (http_get_accounts (trace w) url bearer) w.

(** [(new Date()).getTime()] *)
Definition Date_getTime {E : Env} : M Z := fun w => (Return (clock (trace w)), w).

Local Open Scope async_scope.

(** ** [vscode.Memento] *)

Module Memento.
(** [globalState.get(key, undefined)], synchronous. *)
Definition get (key : string) : M JsString :=
  gets (fun w => globalState w !! key).

(** [globalState.update(key, value)]; [undefined] removes the key. *)
Definition update {E : Env} (key : string) (value : JsString) : M unit :=
  await_store (MementoUpdate key value)
    (fun w =>
       (tt, set_globalState
              (match value with
               | Some v => <[key := v]> (globalState w)
               | None => delete key (globalState w)
               end) w)).
End Memento.

(** ** [SecureStore] *)

(** The implementations of the [SecureStore] interface
    ([keytar-secure-store.ts], [file-system-secure-store.ts]) are not among
    the sources; the three operations follow the specification: get, set
    and delete of a secret named by (service, key). *)

Module SecureStore.
(** Modelled from the spec: [getSecret(service, key)] of the missing
    [SecureStore] implementations, returning an optional string. *)
Definition getPassword {E : Env} (service account : string) : M JsString :=
  await_store (GetPassword service account)
    (fun w => (secureStore w !! (service, account), w)).

(** Modelled from the spec: [setSecret(service, key, value)] of the missing
    [SecureStore] implementations. *)
Definition setPassword {E : Env} (service account password : string)
  : M unit :=
  await_store (SetPassword service account password)
    (fun w =>
       (tt, set_secureStore (<[(service, account) := password]> (secureStore w)) w)).

(** Modelled from the spec: [deleteSecret(service, key)] of the missing
    [SecureStore] implementations; a delete of a missing key succeeds
    silently. *)
Definition deletePassword {E : Env} (service account : string) : M unit :=
  await_store (DeletePassword service account)
    (fun w =>
       (tt, set_secureStore (delete (service, account) (secureStore w)) w)).
End SecureStore.

(** ** [CloudAccountStore] *)

Definition ACCOUNT_KEY : string := "ibmcloud-account-guid".
Definition EMAIL_KEY : string := "ibmcloud-account-email".
Definition SERVICE : string := "VS Code IBM Cloud Account".
Definition REFRESH_TOKEN_ACCOUNT : string := "Refresh Token".

Module CloudAccountStore.
Definition getAccount : M JsString := Memento.get ACCOUNT_KEY.

Definition setAccount {E : Env} (account : string) : M unit :=
  Memento.update ACCOUNT_KEY (Some account).

Definition deleteAccount {E : Env} : M unit :=
  Memento.update ACCOUNT_KEY None.

Definition getEmail : M JsString := Memento.get EMAIL_KEY.

Definition setEmail {E : Env} (email : string) : M unit :=
  Memento.update EMAIL_KEY (Some email).

Definition deleteEmail {E : Env} : M unit :=
  Memento.update EMAIL_KEY None.

Definition getRefreshToken {E : Env} : M JsString :=
  SecureStore.getPassword SERVICE REFRESH_TOKEN_ACCOUNT.

Definition setRefreshToken {E : Env} (refreshToken : string) : M unit :=
  SecureStore.setPassword SERVICE REFRESH_TOKEN_ACCOUNT refreshToken.

Definition deleteRefreshToken {E : Env} : M unit :=
  SecureStore.deletePassword SERVICE REFRESH_TOKEN_ACCOUNT.
End CloudAccountStore.

(** ** [CloudAccount] *)

Definition ACCOUNT_MANAGEMENT_URL : string :=
  "https://accountmanagement.ng.bluemix.net".
Definition IAM_URL : string := "https://iam.cloud.ibm.com".

(** [new URL(path, base)] for an absolute path and a base that is an origin. *)
Definition URL_at (path base : string) : string := base +:+ path.

Definition NOT_LOGGED_IN : string := "You are not logged into IBM Cloud".
Definition NO_ACCOUNT_SELECTED : string :=
  "You have not selected an IBM Cloud account to use".

Module CloudAccount.

Definition getOpenIDConfiguration {E : Env} : M OpenIDConfiguration :=
  let url := URL_at "/identity/.well-known/openid-configuration" IAM_URL in
  rp_get_configuration url.

Definition getTokenEndpoint {E : Env} : M string :=
  openIDConfiguration <- getOpenIDConfiguration ;;
  URL (token_endpoint openIDConfiguration).

Definition getPasscodeEndpoint {E : Env} : M string :=
  openIDConfiguration <- getOpenIDConfiguration ;;
  URL (passcode_endpoint openIDConfiguration).

(** [response.body.property]: the body whose property is read.  Reading a
    property of [undefined] throws a [TypeError]. *)
Definition body_of {E : Env} (response : Response.t) (property : string)
  : M Response.Body :=
  match Response.body response with
  | Some body => ret body
  | None => throw (TypeError_undefined property)
  end.

(** The message of the error made from a response that is not 2xx. *)
Definition response_error (statusCode : N) (body : Response.Body) : string :=
  if truthy (Response.errorCode body)
  then js_template (Response.errorCode body) +:+ ": " +:+
       js_template (js_or (Response.errorDetails body) (Response.errorMessage body))
  else "IBM Cloud IAM token endpoint returned HTTP " +:+
       js_number_string statusCode.

Definition loginCommon {E : Env} (form : Form) (refresh : bool) : M unit :=
  tokenEndpoint <- getTokenEndpoint ;;
  response <- rp_post tokenEndpoint form ;;
  when (negb (starts_with_2 (js_number_string (Response.statusCode response))))
    (body <- body_of response "errorCode" ;;
     throw (response_error (Response.statusCode response) body)) ;;;
  body <- body_of response "access_token" ;;
  modify (set_accessToken (Response.access_token body)) ;;;
  modify (set_expiration (Response.expiration body)) ;;;
  let refreshToken := Response.refresh_token body in
  when (negb refresh)
    (CloudAccountStore.deleteAccount ;;;
     CloudAccountStore.deleteEmail) ;;;
  CloudAccountStore.setRefreshToken refreshToken.

Definition loginWithUsernameAndPassword {E : Env} (username password : string)
  : M bool :=
  try_finally
    (loginCommon [("grant_type", Some "password");
                  ("username", Some username);
                  ("password", Some password)] false ;;;
     ret true)
    (emit "changed").

Definition loginWithApiKey {E : Env} (apikey : string) : M bool :=
  try_finally
    (loginCommon [("grant_type", Some "urn:ibm:params:oauth:grant-type:apikey");
                  ("apikey", Some apikey)] false ;;;
     ret true)
    (emit "changed").

Definition loginWithSSO {E : Env} (cb : string -> Reply JsString) : M bool :=
  try_finally
    (passcodeEndpoint <- getPasscodeEndpoint ;;
     passcode <- await (EvPasscode passcodeEndpoint) (cb passcodeEndpoint) ;;
     if negb (truthy passcode) then ret false
     else
       loginCommon [("grant_type", Some "urn:ibm:params:oauth:grant-type:passcode");
                    ("passcode", passcode)] false ;;;
       ret true)
    (emit "changed").

Definition logout {E : Env} : M unit :=
  try_finally
    (modify (set_accessToken None) ;;;
     modify (set_expiration 0) ;;;
     CloudAccountStore.deleteAccount ;;;
     CloudAccountStore.deleteEmail ;;;
     CloudAccountStore.deleteRefreshToken)
    (emit "changed").

Definition loggedIn {E : Env} : M bool :=
  refreshToken <- CloudAccountStore.getRefreshToken ;;
  ret (truthy refreshToken).

Definition accountSelected : M bool :=
  account <- CloudAccountStore.getAccount ;;
  ret (truthy account).

Definition refreshTokens {E : Env} : M unit :=
  try_catch
    (refreshToken <- CloudAccountStore.getRefreshToken ;;
     when (negb (truthy refreshToken)) (throw "") ;;;
     account <- CloudAccountStore.getAccount ;;
     loginCommon [("account", account);
                  ("grant_type", Some "refresh_token");
                  ("refresh_token", refreshToken)] true)
    (logout ;;;
     throw NOT_LOGGED_IN).

Definition checkTokens {E : Env} : M unit :=
  ms <- Date_getTime ;;
  let now := Math_round_div_1000 ms in
  delta <- gets (fun w => expiration w - now) ;;
  when (delta <? 60)%Z refreshTokens.

Definition getAccessToken {E : Env} (accountRequired : bool) : M JsString :=
  try_finally
    (loggedIn' <- loggedIn ;;
     when (negb loggedIn') (throw NOT_LOGGED_IN) ;;;
     accountSelected' <- accountSelected ;;
     when (accountRequired && negb accountSelected')
       (throw NO_ACCOUNT_SELECTED) ;;;
     checkTokens ;;;
     gets accessToken)
    (emit "changed").

Definition getRefreshToken {E : Env} (accountRequired : bool) : M JsString :=
  try_finally
    (loggedIn' <- loggedIn ;;
     when (negb loggedIn') (throw NOT_LOGGED_IN) ;;;
     accountSelected' <- accountSelected ;;
     when (accountRequired && negb accountSelected')
       (throw NO_ACCOUNT_SELECTED) ;;;
     checkTokens ;;;
     CloudAccountStore.getRefreshToken)
    (emit "changed").

Definition getAccount : M JsString := CloudAccountStore.getAccount.

Definition getEmail : M JsString := CloudAccountStore.getEmail.

(** The [while (url)] loop of [selectAccount]: a [URL] object is always
    truthy, so the loop ends at the [break] only; [fuel] bounds the number
    of pages requested. *)
Fixpoint selectAccount_pages {E : Env} (fuel : nat) (accessToken : JsString)
  (url : string) (resources : list Resource.t) : M (list Resource.t) :=
  match fuel with
  | O => diverge
  | S fuel' =>
      response <- rp_get_accounts url accessToken ;;
      let resources := resources ++ Page.resources response in
      if truthy (Page.next_url response) then
        url' <- URL (js_template (Page.next_url response)) ;;
        selectAccount_pages fuel' accessToken url' resources
      else ret resources
  end.

(** The callback of [resources.map]. *)
Definition account_of (resource : Resource.t) : Account :=
  {| guid := Resource.guid (Resource.metadata resource);
     name := Resource.name (Resource.entity resource);
     email := Resource.owner_userid (Resource.entity resource) |}.

Definition selectAccount {E : Env} (fuel : nat)
  (cb : list Account -> Reply (option Account)) : M bool :=
  try_finally
    (accessToken <- getAccessToken false ;;
     let url := URL_at "/coe/v2/accounts" ACCOUNT_MANAGEMENT_URL in
     resources <- selectAccount_pages fuel accessToken url [] ;;
     let accounts := map account_of resources in
     let select (selectedAccount : Account) : M bool :=
       CloudAccountStore.setAccount (guid selectedAccount) ;;;
       CloudAccountStore.setEmail (email selectedAccount) ;;;
       refreshTokens ;;;
       ret true in
     match accounts with
     | [selectedAccount] => select selectedAccount
     | _ =>
         selectedAccount <- await (EvChoose accounts) (cb accounts) ;;
         match selectedAccount with
         | None => ret false
         | Some selectedAccount => select selectedAccount
         end
     end)
    (emit "changed").

End CloudAccount.

(** ** What a caller can observe of the session *)

Definition stored_refreshToken (w : World) : JsString :=
  secureStore w !! (SERVICE, REFRESH_TOKEN_ACCOUNT).

Definition stored_account (w : World) : JsString :=
  globalState w !! ACCOUNT_KEY.

Definition stored_email (w : World) : JsString :=
  globalState w !! EMAIL_KEY.

(** The session aggregate: refresh token, account id, email, access token
    and expiry. *)
Definition session (w : World)
  : JsString * JsString * JsString * JsString * Z :=
  (stored_refreshToken w, stored_account w, stored_email w,
   accessToken w, expiration w).

(** The empty, logged-out session. *)
Definition logged_out (w : World) : Prop :=
  session w = (None, None, None, None, 0).

(** The epoch second [checkTokens] computes when it runs in [w]. *)
Definition now {E : Env} (w : World) : Z :=
  Math_round_div_1000 (clock (trace w)).

(** The number of ['changed'] notifications in a trace. *)
Fixpoint changed_count (tr : list Event) : nat :=
  match tr with
  | [] => O
  | EvEmit "changed" :: rest => S (changed_count rest)
  | _ :: rest => changed_count rest
  end.

(** ** Concrete environments and sessions

    Small worlds on which the operations are run: a provider that accepts
    or rejects grants, a paginated or a single-account listing, a store
    that works or fails.  The clock stands at epoch second 1000000. *)

Module Scenario.

Definition configuration : OpenIDConfiguration :=
  {| token_endpoint := "https://iam.cloud.ibm.com/identity/token";
     passcode_endpoint := "https://iam.cloud.ibm.com/identity/passcode" |}.

(** A 200 response that grants tokens. *)
Definition granted (access : string) (expires : Z) (refresh : string)
  : Response.t :=
  {| Response.statusCode := 200%N;
     Response.body :=
       Some {| Response.errorCode := None; Response.errorDetails := None;
               Response.errorMessage := None;
               Response.access_token := Some access;
               Response.expiration := expires;
               Response.refresh_token := refresh |} |}.

(** A 400 response with a provider error body. *)
Definition rejected : Response.t :=
  {| Response.statusCode := 400%N;
     Response.body :=
       Some {| Response.errorCode := Some "BXNIM0408E";
               Response.errorDetails := None;
               Response.errorMessage := Some "Provided refresh_token is expired";
               Response.access_token := None;
               Response.expiration := 0;
               Response.refresh_token := "" |} |}.

Definition resource (id : string) : Resource.t :=
  {| Resource.metadata := {| Resource.guid := "guid-" +:+ id |};
     Resource.entity :=
       {| Resource.name := "name-" +:+ id;
          Resource.owner_userid := id +:+ "@example.com" |} |}.

Definition account (id : string) : Account :=
  {| guid := "guid-" +:+ id; name := "name-" +:+ id;
     email := id +:+ "@example.com" |}.

Definition first_page_url : string :=
  "https://accountmanagement.ng.bluemix.net/coe/v2/accounts".
Definition second_page_url : string :=
  "https://accountmanagement.ng.bluemix.net/coe/v2/accounts?page=2".
Definition third_page_url : string :=
  "https://accountmanagement.ng.bluemix.net/coe/v2/accounts?page=3".

Definition page1 : Page.t :=
  {| Page.resources := [resource "a"; resource "b"];
     Page.next_url := Some second_page_url |}.
Definition page2 : Page.t :=
  {| Page.resources := [resource "c"; resource "d"];
     Page.next_url := Some third_page_url |}.
Definition page3 : Page.t :=
  {| Page.resources := [resource "e"; resource "f"];
     Page.next_url := None |}.

(** Three pages of two accounts, linked by their next pointers. *)
Definition three_pages (url : string) : Reply Page.t :=
  if String.eqb url first_page_url then Resolve page1
  else if String.eqb url second_page_url then Resolve page2
  else if String.eqb url third_page_url then Resolve page3
  else Reject "404".

Definition only_page : Page.t :=
  {| Page.resources := [resource "a"]; Page.next_url := None |}.

(** A listing of exactly one account. *)
Definition one_account (url : string) : Reply Page.t :=
  if String.eqb url first_page_url then Resolve only_page else Reject "404".

Definition no_fault (tr : list Event) (op : StoreOp) : option string := None.

(** The Memento refuses to remove the account id. *)
Definition account_delete_fault (tr : list Event) (op : StoreOp)
  : option string :=
  match op with
  | MementoUpdate "ibmcloud-account-guid" None => Some "EIO"
  | _ => None
  end.

Definition environment (post : Form -> Reply Response.t)
  (listing : string -> Reply Page.t)
  (fault : list Event -> StoreOp -> option string) : Env :=
  {| clock := fun _ => 1000000000;
     new_URL := Resolve;
     TypeError_undefined :=
       fun property => "Cannot read property '" +:+ property +:+ "' of undefined";
     store_fault := fault;
     http_get_configuration := fun _ _ => Resolve configuration;
     http_post := fun _ _ form => post form;
     http_get_accounts := fun _ url _ => listing url |}.

(** The provider grants every request and rotates the refresh token. *)
Definition accepting (listing : string -> Reply Page.t) : Env :=
  environment (fun _ => Resolve (granted "a1" 1003600 "r1")) listing no_fault.

(** The provider grants tokens that expire ten seconds from now on the local
    clock, as when that clock runs ahead of the provider's. *)
Definition skewed : Env :=
  environment (fun _ => Resolve (granted "a1" 1000010 "r1")) three_pages
    no_fault.

(** The provider rejects every request. *)
Definition rejecting (listing : string -> Reply Page.t) : Env :=
  environment (fun _ => Resolve rejected) listing no_fault.

(** The provider grants, the Memento fails. *)
Definition faulty : Env :=
  environment (fun _ => Resolve (granted "a1" 1003600 "r1")) three_pages
    account_delete_fault.

(** A session with an account selected whose access token expires at
    [expires]. *)
Definition signed_in (expires : Z) : World :=
  {| accessToken := Some "a0"; expiration := expires;
     globalState := <[ACCOUNT_KEY := "guid-z"]>
                      (<[EMAIL_KEY := "z@example.com"]> ∅);
     secureStore := <[(SERVICE, REFRESH_TOKEN_ACCOUNT) := "r0"]> ∅;
     trace := [] |}.

(** The same session before an account was selected. *)
Definition signed_in_no_account (expires : Z) : World :=
  {| accessToken := Some "a0"; expiration := expires;
     globalState := ∅;
     secureStore := <[(SERVICE, REFRESH_TOKEN_ACCOUNT) := "r0"]> ∅;
     trace := [] |}.

Definition signed_out : World :=
  {| accessToken := None; expiration := 0; globalState := ∅;
     secureStore := ∅; trace := [] |}.

(** The chooser is cancelled. *)
Definition cancel (accounts : list Account) : Reply (option Account) :=
  Resolve None.

(** The chooser picks the second entry. *)
Definition pick_second (accounts : list Account) : Reply (option Account) :=
  Resolve (nth_error accounts 1).

End Scenario.

(** ** Traces *)

(** Anything but a notification. *)
Definition silent (ev : Event) : Prop :=
  match ev with
  | EvEmit _ => False
  | _ => True
  end.

(** A request of a page of the account listing. *)
Definition is_page_request (ev : Event) : Prop :=
  match ev with
  | EvGetAccounts _ _ => True
  | _ => False
  end.

(** Anything but a call of the account chooser. *)
Definition not_choose (ev : Event) : Prop :=
  match ev with
  | EvChoose _ => False
  | _ => True
  end.

(** [w'] is [w] after some more events, each of them in [P]. *)
Definition advances (P : Event -> Prop) (w w' : World) : Prop :=
  exists evs, trace w' = evs ++ trace w /\ Forall P evs.

(** However [m] settles, it only adds events in [P] to the trace. *)
Definition Advances (P : Event -> Prop) {A} (m : M A) : Prop :=
  forall w r w', m w = (r, w') -> advances P w w'.

(** A request of the token endpoint with grant type [refresh_token] on
    behalf of [account]. *)
Definition refresh_exchange (account : JsString) (ev : Event) : Prop :=
  exists url form,
    ev = EvPost url form /\
    form_get "grant_type" form = Some (Some "refresh_token") /\
    form_get "account" form = Some account.

(** The three deletes of [logout], the first two also those of a primary
    login. *)
Definition Delete1 : Event := EvStore (MementoUpdate ACCOUNT_KEY None).
Definition Delete2 : Event := EvStore (MementoUpdate EMAIL_KEY None).
Definition Delete3 : Event :=
  EvStore (DeletePassword SERVICE REFRESH_TOKEN_ACCOUNT).

(** The look-up of the refresh token in the secure store. *)
Definition GetRefreshToken : Event :=
  EvStore (GetPassword SERVICE REFRESH_TOKEN_ACCOUNT).

(** The address of the OpenID configuration document. *)
Definition CONFIGURATION_URL : string :=
  URL_at "/identity/.well-known/openid-configuration" IAM_URL.

(** The form of the refresh exchange for the session in [w]. *)
Definition refresh_form (w : World) : Form :=
  [("account", stored_account w);
   ("grant_type", Some "refresh_token");
   ("refresh_token", stored_refreshToken w)].

(** What a primary login leaves behind: no account id and no email, a
    refresh token that was stored after the two deletes, and then the
    notification. *)
Definition replaced_session (w w' : World) : Prop :=
  stored_account w' = None /\ stored_email w' = None /\
  exists refreshToken evs,
    stored_refreshToken w' = Some refreshToken /\
    trace w' =
      EvEmit "changed"
      :: EvStore (SetPassword SERVICE REFRESH_TOKEN_ACCOUNT refreshToken)
      :: Delete2 :: Delete1 :: evs ++ trace w.

(** The address of the first page of the account listing. *)
Definition ACCOUNTS_URL : string :=
  URL_at "/coe/v2/accounts" ACCOUNT_MANAGEMENT_URL.

(** The rest of [selectAccount] once an account is selected. *)
Definition persist {E : Env} (selectedAccount : Account) : M bool :=
  CloudAccountStore.setAccount (guid selectedAccount) ;;;
  CloudAccountStore.setEmail (email selectedAccount) ;;;
  CloudAccount.refreshTokens ;;;
  ret true.

(** The selection step of [selectAccount] on the fetched accounts. *)
Definition choose {E : Env} (cb : list Account -> Reply (option Account))
  (accounts : list Account) : M bool :=
  match accounts with
  | [selectedAccount] => persist selectedAccount
  | _ =>
      selectedAccount <- await (EvChoose accounts) (cb accounts) ;;
      match selectedAccount with
      | None => ret false
      | Some selectedAccount => persist selectedAccount
      end
  end.

(** The request of one page of the listing. *)
Definition page_request (bearer : JsString) (served : string * Page.t)
  : Event :=
  EvGetAccounts (fst served) bearer.

(** All the resources of a listing, in page order. *)
Definition listed (listing : list (string * Page.t)) : list Resource.t :=
  concat (map (fun served => Page.resources (snd served)) listing).

(** The provider serves [listing], a chain of pages each with the address
    it is served at: every page but the last names the address of the next
    one in its [next_url], the last one names none. *)
Fixpoint paginated {E : Env} (bearer : JsString) (tr : list Event)
  (listing : list (string * Page.t)) : Prop :=
  match listing with
  | [] => False
  | (url, page) :: rest =>
      http_get_accounts tr url bearer = Resolve page /\
      match rest with
      | [] => truthy (Page.next_url page) = false
      | (next, _) :: _ =>
          truthy (Page.next_url page) = true /\
          new_URL (js_template (Page.next_url page)) = Resolve next /\
          paginated bearer (EvGetAccounts url bearer :: tr) rest
      end
  end.

(** The [finally { this.emit('changed') }] of a settled call. *)
Definition notified {A} (settled : Outcome A * World) : Outcome A * World :=
  match settled with
  | (Diverge, w) => (Diverge, w)
  | (r, w) => (r, log (EvEmit "changed") w)
  end.

(** On every path on which [m] settles, its last event is a ['changed']
    notification, and the number [n] of such notifications it adds
    satisfies [count]. *)
Definition notifies {A} (m : M A) (count : Outcome A -> nat -> Prop) : Prop :=
  forall w r w',
    m w = (r, w') -> r <> Diverge ->
    (exists tr, trace w' = EvEmit "changed" :: tr) /\
    exists n,
      changed_count (trace w') = (n + changed_count (trace w))%nat /\
      count r n.

(** Exactly one notification. *)
Definition once {A} (r : Outcome A) (n : nat) : Prop := n = 1%nat.

(** [m] returns or throws, from any state. *)
Definition Settles {A} (m : M A) : Prop := forall w, fst (m w) <> Diverge.

(** ** The timer of the constructor *)

(** The callback the constructor of [CloudAccount] hands to [setInterval]:
    one run of it.  The empty [catch] swallows whatever is thrown. *)
Definition constructor_interval {E : Env} : M unit :=
  try_catch
    (loggedIn' <- CloudAccount.loggedIn ;;
     when loggedIn' CloudAccount.checkTokens)
    (ret tt).

(** An HTTP request. *)
Definition is_request (ev : Event) : Prop :=
  match ev with
  | EvGetConfiguration _ | EvPost _ _ | EvGetAccounts _ _ => True
  | _ => False
  end.

(** Anything but an HTTP request. *)
Definition offline (ev : Event) : Prop := ~ is_request ev.

(** ** Loading keytar *)

(** The host of the extension as the loading code sees it: the root of the
    application, what [require] finds at a path ([None] when it throws),
    the environment variable, the home directory, and [path.join]. *)
Record Host (Keytar : Type) : Type := {
  appRoot : string;
  require : string -> option Keytar;
  CHE_PROJECTS_ROOT : JsString;
  homeDir : string;
  path_join : string -> string -> string
}.
Arguments appRoot {Keytar} h.
Arguments require {Keytar} h path.
Arguments CHE_PROJECTS_ROOT {Keytar} h.
Arguments homeDir {Keytar} h.
Arguments path_join {Keytar} h dir file.

(** The two places keytar is looked for, in this order. *)
Definition keytarPaths {Keytar} (host : Host Keytar) : list string :=
  [appRoot host +:+ "/node_modules.asar/keytar";
   appRoot host +:+ "/node_modules/keytar"].

(** The [for] loop over the paths, a [require] that throws being ignored:
    the first module that loads. *)
Fixpoint first_loaded {Keytar} (host : Host Keytar) (paths : list string)
  : option Keytar :=
  match paths with
  | [] => None
  | keytarPath :: rest =>
      match require host keytarPath with
      | Some keytar => Some keytar
      | None => first_loaded host rest
      end
  end.

(** The constructor of the earlier [CloudAccountStore]
    ([src/cloud-account-store.ts]): the keytar module it keeps, or the
    message of the error it throws. *)
Definition CloudAccountStore_constructor {Keytar} (host : Host Keytar)
  : Keytar + string :=
  match first_loaded host (keytarPaths host) with
  | Some keytar => inl keytar
  | None => inr "Failed to load keytar module"
  end.

(** The two kinds of secure store the factory makes. *)
Inductive SecureStoreKind (Keytar : Type) : Type :=
| KeytarSecureStore (keytar : Keytar)
| FileSystemSecureStore (storePath : string).
Arguments KeytarSecureStore {Keytar} keytar.
Arguments FileSystemSecureStore {Keytar} storePath.

Module SecureStoreFactory.

Definition getKeytar {Keytar} (host : Host Keytar) : option Keytar :=
  first_loaded host (keytarPaths host).

(** A module that loaded is an object, hence truthy. *)
Definition getSecureStore {Keytar} (host : Host Keytar)
  : SecureStoreKind Keytar :=
  match getKeytar host with
  | Some keytar => KeytarSecureStore keytar
  | None =>
      let storeDirectory :=
        if truthy (CHE_PROJECTS_ROOT host)
        then js_template (CHE_PROJECTS_ROOT host)
        else homeDir host in
      let storePath :=
        path_join host storeDirectory ".vscode-ibmcloud-account.store" in
      FileSystemSecureStore storePath
  end.

End SecureStoreFactory.

(** ** The extension *)

Module Extension.

(** An item of the account quick pick. *)
Record QuickPickItem : Type := {
  description : string;
  label : string;
  index : nat
}.


(** The callback [selectAccountCommon] passes to [selectAccount];
    [showQuickPick] is the quick pick of VS Code, which resolves to one item
    or to [undefined].  [accounts[item.index]] is [undefined] out of
    range. *)
Definition selectAccountCommon_cb
  (showQuickPick : list QuickPickItem -> Reply (option QuickPickItem))
  (accounts : list Account) : Reply (option Account) :=
  let items :=
    imap (fun index' account' =>
            {| description := guid account'; label := email account';
               index := index' |}) accounts in
  match showQuickPick items with
  | Resolve None => Resolve None
  | Resolve (Some item) => Resolve (nth_error accounts (index item))
  | Reject e => Reject e
  end.

End Extension.

(** ** What the provider advertises *)

(** [url] is the token endpoint of a configuration document the provider
    served. *)
Definition discovered_token_endpoint {E : Env} (url : string) : Prop :=
  exists tr configuration,
    http_get_configuration tr CONFIGURATION_URL = Resolve configuration /\
    new_URL (token_endpoint configuration) = Resolve url.

(** [url] is the passcode endpoint of a configuration document the provider
    served. *)
Definition discovered_passcode_endpoint {E : Env} (url : string) : Prop :=
  exists tr configuration,
    http_get_configuration tr CONFIGURATION_URL = Resolve configuration /\
    new_URL (passcode_endpoint configuration) = Resolve url.

(** What a login with the form [form] may do: post that form to a
    discovered token endpoint, fetch the configuration, use the stores and
    notify; it asks no callback and lists no accounts. *)
Definition login_event {E : Env} (form : Form) (ev : Event) : Prop :=
  match ev with
  | EvPost url form' => form' = form /\ discovered_token_endpoint url
  | EvGetAccounts _ _ | EvPasscode _ | EvChoose _ => False
  | _ => True
  end.

(** What a login by single sign-on with the callback [cb] may do: ask the
    callback at a discovered passcode endpoint, and post the passcode it
    gave to a discovered token endpoint. *)
Definition sso_event {E : Env} (cb : string -> Reply JsString) (ev : Event)
  : Prop :=
  match ev with
  | EvPost url form =>
      discovered_token_endpoint url /\
      exists passcodeEndpoint passcode,
        cb passcodeEndpoint = Resolve (Some passcode) /\
        form = [("grant_type",
                 Some "urn:ibm:params:oauth:grant-type:passcode");
                ("passcode", Some passcode)]
  | EvPasscode passcodeEndpoint =>
      discovered_passcode_endpoint passcodeEndpoint
  | EvGetAccounts _ _ | EvChoose _ => False
  | _ => True
  end.

(** The fields of the session are the same in [w] and [w'], whatever was
    added to the trace. *)
Definition same_state (w w' : World) : Prop :=
  accessToken w' = accessToken w /\ expiration w' = expiration w /\
  globalState w' = globalState w /\ secureStore w' = secureStore w.

(** One of the three primary logins returned true and left [w']. *)
Definition logged_in_by {E : Env} (w w' : World) : Prop :=
  (exists username password,
      CloudAccount.loginWithUsernameAndPassword username password w
        = (Return true, w')) \/
  (exists apikey, CloudAccount.loginWithApiKey apikey w = (Return true, w')) \/
  (exists cb, CloudAccount.loginWithSSO cb w = (Return true, w')).

(** ** What the environment does to a refresh *)

(** The environment lets the token exchange with [form] that [refreshTokens]
    begins after the trace [tr] go through: the configuration document is
    served and names a valid token endpoint, that endpoint answers the form
    with a 2xx status and a body, and the secure store takes the refresh
    token granted. *)
Definition exchange_accepted {E : Env} (tr : list Event) (form : Form) : bool :=
  match http_get_configuration tr CONFIGURATION_URL with
  | Resolve configuration =>
      match new_URL (token_endpoint configuration) with
      | Resolve url =>
          let requested := EvGetConfiguration CONFIGURATION_URL :: tr in
          match http_post requested url form with
          | Resolve response =>
              starts_with_2 (js_number_string (Response.statusCode response))
              && match Response.body response with
                 | Some body =>
                     bool_decide
                       (store_fault (EvPost url form :: requested)
                          (SetPassword SERVICE REFRESH_TOKEN_ACCOUNT
                             (Response.refresh_token body)) = None)
                 | None => false
                 end
          | Reject _ => false
          end
      | Reject _ => false
      end
  | Reject _ => false
  end.

(** The environment lets a refresh of the session in [w] succeed: the
    refresh token can be read and is there, and the exchange that sends it
    with the stored account id goes through.  When this is false the refresh
    fails, for whichever of these reasons. *)
Definition refresh_succeeds {E : Env} (w : World) : bool :=
  bool_decide
    (store_fault (trace w) (GetPassword SERVICE REFRESH_TOKEN_ACCOUNT) = None)
  && truthy (stored_refreshToken w)
  && exchange_accepted (GetRefreshToken :: trace w) (refresh_form w).

(** One of the three deletes of [logout]. *)
Definition is_delete (op : StoreOp) : Prop :=
  op = MementoUpdate ACCOUNT_KEY None \/
  op = MementoUpdate EMAIL_KEY None \/
  op = DeletePassword SERVICE REFRESH_TOKEN_ACCOUNT.

(** What [loggedIn] says in [w], provided the secure store can be read. *)
Definition loggedIn_says {E : Env} (w : World) (answer : bool) : Prop :=
  store_fault (trace w) (GetPassword SERVICE REFRESH_TOKEN_ACCOUNT) = None ->
  fst (CloudAccount.loggedIn w) = Return answer.

(** How a call begun in [w] has ended when a failed refresh forced the
    logout.  The token and the expiry in memory are cleared.  Either the
    logout went through: the error is "not logged in", the session is the
    empty one and [loggedIn] says false.  Or one of the deletes of the
    logout failed: the error is the error of that delete, nothing but
    notifications came after it, the refresh token is still the one that
    was stored in [w], and [loggedIn] says what it said before. *)
Definition forced_out {E : Env} {A} (w : World) (settled : Outcome A * World)
  : Prop :=
  let (r, w') := settled in
  accessToken w' = None /\ expiration w' = 0 /\
  ((r = Throw NOT_LOGGED_IN /\ logged_out w' /\ loggedIn_says w' false) \/
   (exists e tr op notifications,
       r = Throw e /\ is_delete op /\ store_fault tr op = Some e /\
       trace w' = notifications ++ EvStore op :: tr /\
       Forall (fun ev => ev = EvEmit "changed") notifications /\
       stored_refreshToken w' = stored_refreshToken w /\
       loggedIn_says w' (truthy (stored_refreshToken w)))).

(** A call of a token getter in [w] gets as far as the refresh (the refresh
    token is read and there, the account precondition holds, fewer than
    sixty seconds are left), and the environment makes that refresh fail. *)
Definition refresh_fails_in {E : Env} (accountRequired : bool) (w : World)
  : bool :=
  bool_decide
    (store_fault (trace w) (GetPassword SERVICE REFRESH_TOKEN_ACCOUNT) = None)
  && truthy (stored_refreshToken w)
  && negb (accountRequired && negb (truthy (stored_account w)))
  && (expiration w - now (log GetRefreshToken w) <? 60)%Z
  && negb (refresh_succeeds (log GetRefreshToken w)).

(** The session once the id and the email of [selectedAccount] were written
    in [w]. *)
Definition persisted (selectedAccount : Account) (w : World) : World :=
  {| accessToken := accessToken w; expiration := expiration w;
     globalState :=
       <[EMAIL_KEY := email selectedAccount]>
         (<[ACCOUNT_KEY := guid selectedAccount]> (globalState w));
     secureStore := secureStore w;
     trace :=
       EvStore (MementoUpdate EMAIL_KEY (Some (email selectedAccount)))
       :: EvStore (MementoUpdate ACCOUNT_KEY (Some (guid selectedAccount)))
       :: trace w |}.

(** The account [selectAccount] goes on with among [accounts], and the
    session it does so in: the only account, unasked, or the one the chooser
    gave. *)
Definition selection (cb : list Account -> Reply (option Account))
  (accounts : list Account) (w : World) : option (Account * World) :=
  match accounts with
  | [selectedAccount] => Some (selectedAccount, w)
  | _ =>
      match cb accounts with
      | Resolve (Some selectedAccount) =>
          Some (selectedAccount, log (EvChoose accounts) w)
      | _ => None
      end
  end.

(** [selectAccount], begun in [w], gets as far as the refresh it forces
    after the selection, and that refresh begins in [ws]: a token was
    obtained, the listing fetched, an account selected, and its id and its
    email were written. *)
Definition forces_refresh {E : Env} (fuel : nat)
  (cb : list Account -> Reply (option Account)) (w ws : World) : Prop :=
  exists token w1 resources w2 selectedAccount w3,
    CloudAccount.getAccessToken false w = (Return token, w1) /\
    CloudAccount.selectAccount_pages fuel token ACCOUNTS_URL [] w1
      = (Return resources, w2) /\
    selection cb (map CloudAccount.account_of resources) w2
      = Some (selectedAccount, w3) /\
    store_fault (trace w3)
      (MementoUpdate ACCOUNT_KEY (Some (guid selectedAccount))) = None /\
    store_fault
      (EvStore (MementoUpdate ACCOUNT_KEY (Some (guid selectedAccount)))
       :: trace w3)
      (MementoUpdate EMAIL_KEY (Some (email selectedAccount))) = None /\
    ws = persisted selectedAccount w3.

(** During [selectAccount], begun in [w], the environment makes a refresh
    fail: the one of the [getAccessToken] it starts with, or the one it
    forces after the selection. *)
Definition refresh_fails_in_selectAccount {E : Env} (fuel : nat)
  (cb : list Account -> Reply (option Account)) (w : World) : Prop :=
  refresh_fails_in false w = true \/
  exists ws, forces_refresh fuel cb w ws /\ refresh_succeeds ws = false.

(** On every path on which [m] settles, its last event is a ['changed']
    notification, and it has added exactly [count w] of them when begun in
    [w]. *)
Definition notifies_exactly {A} (m : M A) (count : World -> nat) : Prop :=
  forall w r w',
    m w = (r, w') -> r <> Diverge ->
    (exists tr, trace w' = EvEmit "changed" :: tr) /\
    changed_count (trace w') = (count w + changed_count (trace w))%nat.

(** ** More concrete situations *)

Module Fixture.

(** A host on which keytar loads nowhere, inside Eclipse Che. *)
Definition no_keytar : Host unit :=
  {| appRoot := "/opt/code";
     require := fun _ => None;
     CHE_PROJECTS_ROOT := Some "/projects";
     homeDir := "/home/user";
     path_join := fun dir file => dir +:+ "/" +:+ file |}.

(** The provider rejects every request and the Memento refuses to remove
    the account id. *)
Definition rejecting_faulty : Env :=
  Scenario.environment (fun _ => Resolve Scenario.rejected)
    Scenario.three_pages Scenario.account_delete_fault.

(** A gateway in front of the provider answers 502 without a body. *)
Definition bad_gateway : Env :=
  Scenario.environment
    (fun _ => Resolve {| Response.statusCode := 502%N;
                         Response.body := None |})
    Scenario.three_pages Scenario.no_fault.

(** The user picks the third item of the quick pick. *)
Definition pick_third (items : list Extension.QuickPickItem)
  : Reply (option Extension.QuickPickItem) :=
  Resolve (nth_error items 2).

End Fixture.

(** * Properties *)

(** ** Proof automation *)

Create HintDb async discriminated.
#[local] Hint Unfold bind ret throw diverge try_finally try_catch when gets
  modify await await_store emit URL rp_get_configuration rp_post
  rp_get_accounts Date_getTime : async.
#[local] Hint Unfold Memento.get Memento.update SecureStore.getPassword
  SecureStore.setPassword SecureStore.deletePassword
  CloudAccountStore.getAccount CloudAccountStore.setAccount
  CloudAccountStore.deleteAccount CloudAccountStore.getEmail
  CloudAccountStore.setEmail CloudAccountStore.deleteEmail
  CloudAccountStore.getRefreshToken CloudAccountStore.setRefreshToken
  CloudAccountStore.deleteRefreshToken : async.

(** Unfold the primitive steps of a computation. *)
Ltac run := autounfold with async; cbn.

(** Use that the store is reliable wherever a fault is looked up. *)
Ltac trust HR := repeat (rewrite HR; cbn).

(** ** Traces only grow *)

Section Advances.
Context (P : Event -> Prop).

Lemma advances_refl w : advances P w w.
Proof. exists []. split; [reflexivity | constructor]. Qed.

Lemma advances_trans w1 w2 w3 :
  advances P w1 w2 -> advances P w2 w3 -> advances P w1 w3.
Proof.
  intros (e1 & H1 & F1) (e2 & H2 & F2). exists (e2 ++ e1).
  split; [rewrite H2, H1; apply app_assoc | apply Forall_app; auto].
Qed.

Lemma advances_log w w' ev :
  P ev -> advances P w w' -> advances P w (log ev w').
Proof.
  intros HP (evs & H & F). exists (ev :: evs).
  split; [cbn; rewrite H; reflexivity | constructor; auto].
Qed.

Lemma advances_same_trace w w' w'' :
  trace w'' = trace w' -> advances P w w' -> advances P w w''.
Proof. intros Heq (evs & H & F). exists evs. rewrite Heq. auto. Qed.

Lemma Advances_ret {A} (a : A) : Advances P (ret a).
Proof. intros w r w' [= <- <-]. apply advances_refl. Qed.

Lemma Advances_throw {A} e : Advances P (@throw A e).
Proof. intros w r w' [= <- <-]. apply advances_refl. Qed.

Lemma Advances_diverge {A} : Advances P (@diverge A).
Proof. intros w r w' [= <- <-]. apply advances_refl. Qed.

Lemma Advances_gets {A} (f : World -> A) : Advances P (gets f).
Proof. intros w r w' [= <- <-]. apply advances_refl. Qed.

Lemma Advances_modify (f : World -> World) :
  (forall w, trace (f w) = trace w) -> Advances P (modify f).
Proof.
  intros Hf w r w' [= <- <-].
  apply advances_same_trace with w; [apply Hf | apply advances_refl].
Qed.

Lemma Advances_bind {A B} (m : M A) (k : A -> M B) :
  Advances P m -> (forall a, Advances P (k a)) -> Advances P (bind m k).
Proof.
  intros Hm Hk w r w'. unfold bind.
  destruct (m w) as [[a|e|] w1] eqn:Em; intros H.
  - eapply advances_trans; [eapply Hm, Em | eapply Hk, H].
  - injection H as <- <-. eapply Hm, Em.
  - injection H as <- <-. eapply Hm, Em.
Qed.

Lemma Advances_try_finally {A} (m : M A) (f : M unit) :
  Advances P m -> Advances P f -> Advances P (try_finally m f).
Proof.
  intros Hm Hf w r w'. unfold try_finally.
  destruct (m w) as [[a|e|] w1] eqn:Em;
    [destruct (f w1) as [[u|e'|] w2] eqn:Ef
    |destruct (f w1) as [[u|e'|] w2] eqn:Ef|];
    intros [= <- <-];
    solve [ eapply Hm, Em
          | eapply advances_trans; [eapply Hm, Em | eapply Hf, Ef] ].
Qed.

Lemma Advances_try_catch {A} (m h : M A) :
  Advances P m -> Advances P h -> Advances P (try_catch m h).
Proof.
  intros Hm Hh w r w'. unfold try_catch.
  destruct (m w) as [[a|e|] w1] eqn:Em; intros H.
  - injection H as <- <-. eapply Hm, Em.
  - eapply advances_trans; [eapply Hm, Em | eapply Hh, H].
  - injection H as <- <-. eapply Hm, Em.
Qed.

Lemma Advances_when (b : bool) (m : M unit) :
  Advances P m -> Advances P (when b m).
Proof. destruct b; [auto | intros _; apply Advances_ret]. Qed.

Lemma Advances_if {A} (b : bool) (m1 m2 : M A) :
  Advances P m1 -> Advances P m2 -> Advances P (if b then m1 else m2).
Proof. destruct b; auto. Qed.

Lemma Advances_await {A} ev (reply : Reply A) :
  P ev -> Advances P (await ev reply).
Proof.
  intros HP w r w'. unfold await.
  destruct reply; intros [= <- <-]; apply advances_log, advances_refl; auto.
Qed.

Lemma Advances_emit event : P (EvEmit event) -> Advances P (emit event).
Proof.
  intros HP w r w' [= <- <-]. apply advances_log, advances_refl; auto.
Qed.

Lemma Advances_URL {E : Env} s : Advances P (URL s).
Proof.
  intros w r w'. unfold URL.
  destruct (new_URL s); intros [= <- <-]; apply advances_refl.
Qed.

Lemma Advances_Date_getTime {E : Env} : Advances P Date_getTime.
Proof. intros w r w' [= <- <-]. apply advances_refl. Qed.

Lemma Advances_rp_get_configuration {E : Env} url :
  P (EvGetConfiguration url) -> Advances P (rp_get_configuration url).
Proof. intros HP w r w'. apply Advances_await, HP. Qed.

Lemma Advances_rp_post {E : Env} url form :
  P (EvPost url form) -> Advances P (rp_post url form).
Proof. intros HP w r w'. apply Advances_await, HP. Qed.

Lemma Advances_rp_get_accounts {E : Env} url bearer :
  P (EvGetAccounts url bearer) -> Advances P (rp_get_accounts url bearer).
Proof. intros HP w r w'. apply Advances_await, HP. Qed.

Lemma Advances_await_store {E : Env} {A} op (run : World -> A * World) :
  P (EvStore op) -> (forall w, trace (snd (run w)) = trace w) ->
  Advances P (await_store op run).
Proof.
  intros HP Hrun w r w'. unfold await_store.
  destruct (store_fault (trace w) op).
  - intros [= <- <-]. apply advances_log, advances_refl; auto.
  - specialize (Hrun w). destruct (run w) as [a w1]. intros [= <- <-].
    apply advances_log; [auto|].
    apply advances_same_trace with w; [exact Hrun | apply advances_refl].
Qed.

End Advances.

Lemma advances_weaken (P Q : Event -> Prop) w w' :
  (forall ev, P ev -> Q ev) -> advances P w w' -> advances Q w w'.
Proof.
  intros HPQ (evs & H & F). exists evs. split; [exact H|].
  eapply Forall_impl; eauto.
Qed.

Lemma changed_count_silent evs tr :
  Forall silent evs -> changed_count (evs ++ tr) = changed_count tr.
Proof.
  induction 1 as [|ev evs Hev _ IH]; [reflexivity|].
  destruct ev; cbn in *; try contradiction; exact IH.
Qed.

Lemma advances_silent_changed_count w w' :
  advances silent w w' -> changed_count (trace w') = changed_count (trace w).
Proof. intros (evs & -> & F). apply changed_count_silent, F. Qed.

Ltac head_of t :=
  lazymatch t with
  | ?f _ => head_of f
  | _ => t
  end.

(** Solve a goal [Advances P m] along the structure of [m]. *)
Ltac advance :=
  lazymatch goal with
  | |- Advances _ (bind _ _) =>
      apply Advances_bind; [advance | intros ?; advance]
  | |- Advances _ (try_finally _ _) => apply Advances_try_finally; advance
  | |- Advances _ (try_catch _ _) => apply Advances_try_catch; advance
  | |- Advances _ (when _ _) => apply Advances_when; advance
  | |- Advances _ (ret _) => apply Advances_ret
  | |- Advances _ (throw _) => apply Advances_throw
  | |- Advances _ diverge => apply Advances_diverge
  | |- Advances _ (gets _) => apply Advances_gets
  | |- Advances _ (modify _) => apply Advances_modify; reflexivity
  | |- Advances _ (emit _) => apply Advances_emit; exact I
  | |- Advances _ (URL _) => apply Advances_URL
  | |- Advances _ Date_getTime => apply Advances_Date_getTime
  | |- Advances _ (await _ _) => apply Advances_await; exact I
  | |- Advances _ (rp_get_configuration _) =>
      apply Advances_rp_get_configuration; exact I
  | |- Advances _ (rp_post _ _) => apply Advances_rp_post; exact I
  | |- Advances _ (rp_get_accounts _ _) =>
      apply Advances_rp_get_accounts; exact I
  | |- Advances _ (await_store _ _) =>
      apply Advances_await_store; [exact I | reflexivity]
  | |- Advances _ (if ?b then _ else _) => destruct b; advance
  | |- Advances _ (match ?x with _ => _ end) => destruct x; advance
  | |- Advances _ (let _ := _ in _) => cbv zeta; advance
  | |- Advances _ ?m =>
      first [ solve [auto with advances]
            | let h := head_of m in unfold h; advance ]
  end.

Create HintDb advances discriminated.

Lemma loginCommon_silent {E : Env} form refresh :
  Advances silent (CloudAccount.loginCommon form refresh).
Proof. advance. Qed.

Lemma loggedIn_silent {E : Env} : Advances silent CloudAccount.loggedIn.
Proof. advance. Qed.

Lemma accountSelected_silent : Advances silent CloudAccount.accountSelected.
Proof. advance. Qed.

Lemma selectAccount_pages_requests {E : Env} fuel bearer url resources :
  Advances is_page_request
    (CloudAccount.selectAccount_pages fuel bearer url resources).
Proof.
  revert url resources.
  induction fuel as [|fuel IH]; intros url resources;
    cbn [CloudAccount.selectAccount_pages].
  - advance.
  - apply Advances_bind; [advance|]. intros page. cbv zeta.
    destruct (truthy _); [|advance].
    apply Advances_bind; [advance|]. intros url'. apply IH.
Qed.

Lemma selectAccount_pages_silent {E : Env} fuel bearer url resources :
  Advances silent (CloudAccount.selectAccount_pages fuel bearer url resources).
Proof.
  intros w r w' H.
  eapply advances_weaken; [|eapply selectAccount_pages_requests, H].
  intros []; cbn; auto.
Qed.

#[local] Hint Resolve loginCommon_silent loggedIn_silent accountSelected_silent
  selectAccount_pages_silent : advances.

Lemma getAccessToken_not_choose {E : Env} accountRequired :
  Advances not_choose (CloudAccount.getAccessToken accountRequired).
Proof. advance. Qed.

Lemma selectAccount_pages_not_choose {E : Env} fuel bearer url resources :
  Advances not_choose
    (CloudAccount.selectAccount_pages fuel bearer url resources).
Proof.
  intros w r w' H.
  eapply advances_weaken; [|eapply selectAccount_pages_requests, H].
  intros []; cbn; auto.
Qed.

Lemma refreshTokens_not_choose {E : Env} :
  Advances not_choose CloudAccount.refreshTokens.
Proof. advance. Qed.

(** ** Calls without a loop settle *)

Lemma Settles_ret {A} (a : A) : Settles (ret a).
Proof. intros w; discriminate. Qed.

Lemma Settles_throw {A} e : Settles (@throw A e).
Proof. intros w; discriminate. Qed.

Lemma Settles_gets {A} (f : World -> A) : Settles (gets f).
Proof. intros w; discriminate. Qed.

Lemma Settles_modify f : Settles (modify f).
Proof. intros w; discriminate. Qed.

Lemma Settles_await {A} ev (reply : Reply A) : Settles (await ev reply).
Proof. intros w. unfold await. destruct reply; discriminate. Qed.

Lemma Settles_await_store {E : Env} {A} op (run : World -> A * World) :
  Settles (await_store op run).
Proof.
  intros w. unfold await_store.
  destruct (store_fault _ _); [|destruct (run w)]; discriminate.
Qed.

Lemma Settles_URL {E : Env} s : Settles (URL s).
Proof. intros w. unfold URL. destruct (new_URL s); discriminate. Qed.

Lemma Settles_bind {A B} (m : M A) (k : A -> M B) :
  Settles m -> (forall a, Settles (k a)) -> Settles (bind m k).
Proof.
  intros Hm Hk w. unfold bind. specialize (Hm w).
  destruct (m w) as [[a|e|] w1]; cbn in *;
    [apply Hk | discriminate | contradiction].
Qed.

Lemma Settles_try_finally {A} (m : M A) (f : M unit) :
  Settles m -> Settles f -> Settles (try_finally m f).
Proof.
  intros Hm Hf w. unfold try_finally. specialize (Hm w).
  destruct (m w) as [[a|e|] w1]; cbn in *; [| |contradiction];
    specialize (Hf w1); destruct (f w1) as [[u|e'|] w2]; cbn in *;
    solve [discriminate | contradiction].
Qed.

Lemma Settles_try_catch {A} (m h : M A) :
  Settles m -> Settles h -> Settles (try_catch m h).
Proof.
  intros Hm Hh w. unfold try_catch. specialize (Hm w).
  destruct (m w) as [[a|e|] w1]; cbn in *;
    [discriminate | apply Hh | contradiction].
Qed.

(** Solve a goal [Settles m] along the structure of [m]. *)
Ltac settle :=
  lazymatch goal with
  | |- Settles (bind _ _) => apply Settles_bind; [settle | intros ?; settle]
  | |- Settles (try_finally _ _) => apply Settles_try_finally; settle
  | |- Settles (try_catch _ _) => apply Settles_try_catch; settle
  | |- Settles (ret _) => apply Settles_ret
  | |- Settles (throw _) => apply Settles_throw
  | |- Settles (gets _) => apply Settles_gets
  | |- Settles (modify _) => apply Settles_modify
  | |- Settles (await _ _) => apply Settles_await
  | |- Settles (await_store _ _) => apply Settles_await_store
  | |- Settles (URL _) => apply Settles_URL
  | |- Settles Date_getTime => intros w; discriminate
  | |- Settles (if ?b then _ else _) => destruct b; settle
  | |- Settles (match ?x with _ => _ end) => destruct x; settle
  | |- Settles (let _ := _ in _) => cbv zeta; settle
  | |- Settles (fun w => await _ _ w) => intros w; apply Settles_await
  | |- Settles ?m => let h := head_of m in unfold h; settle
  end.

Lemma loginCommon_settles {E : Env} form refresh :
  Settles (CloudAccount.loginCommon form refresh).
Proof. settle. Qed.

Lemma logout_settles {E : Env} : Settles CloudAccount.logout.
Proof. settle. Qed.

Lemma refreshTokens_settles {E : Env} : Settles CloudAccount.refreshTokens.
Proof. settle. Qed.

Lemma getAccessToken_settles {E : Env} accountRequired :
  Settles (CloudAccount.getAccessToken accountRequired).
Proof. settle. Qed.

Lemma getRefreshToken_settles {E : Env} accountRequired :
  Settles (CloudAccount.getRefreshToken accountRequired).
Proof. settle. Qed.

(** ** The token exchange *)

Arguments starts_with_2 : simpl never.
Arguments js_number_string : simpl never.
Arguments truthy : simpl never.
Arguments stored_refreshToken : simpl never.
Arguments stored_account : simpl never.
Arguments stored_email : simpl never.
Arguments CloudAccount.response_error : simpl never.


(** A token exchange that returns got a 2xx response; what it leaves behind
    is fixed by that response. *)
Lemma loginCommon_Return {E : Env} form refresh w w' :
  CloudAccount.loginCommon form refresh w = (Return tt, w') ->
  exists url response body,
    http_post (EvGetConfiguration CONFIGURATION_URL :: trace w) url form
      = Resolve response /\
    starts_with_2 (js_number_string (Response.statusCode response)) = true /\
    Response.body response = Some body /\
    accessToken w' = Response.access_token body /\
    expiration w' = Response.expiration body /\
    globalState w' =
      (if refresh then globalState w
       else delete EMAIL_KEY (delete ACCOUNT_KEY (globalState w))) /\
    secureStore w' =
      <[(SERVICE, REFRESH_TOKEN_ACCOUNT) :=
          Response.refresh_token body]> (secureStore w) /\
    trace w' =
      EvStore (SetPassword SERVICE REFRESH_TOKEN_ACCOUNT
                 (Response.refresh_token body))
      :: (if refresh then [] else [Delete2; Delete1])
      ++ EvPost url form :: EvGetConfiguration CONFIGURATION_URL :: trace w.
Proof.
  unfold CloudAccount.loginCommon, CloudAccount.getTokenEndpoint,
    CloudAccount.getOpenIDConfiguration, CloudAccount.body_of.
  run. intros H.
  destruct (http_get_configuration _ _) as [cfg|]; [|discriminate]. cbn in H.
  destruct (new_URL _) as [url|]; [|discriminate].
  destruct (http_post _ _ _) as [response|] eqn:Hpost; [|discriminate].
  cbn in H.
  destruct (starts_with_2 _) eqn:H2; cbn in H.
  2:{ destruct (Response.body response); discriminate. }
  destruct (Response.body response) as [body|] eqn:Hbody; [|discriminate].
  cbn in H. exists url, response, body.
  destruct refresh; cbn in H; repeat case_match; simplify_eq; cbn; auto 10.
Qed.

(** A refresh exchange never touches the Memento, however it ends. *)
Lemma loginCommon_refresh_globalState {E : Env} form w r w' :
  CloudAccount.loginCommon form true w = (r, w') ->
  globalState w' = globalState w.
Proof.
  unfold CloudAccount.loginCommon, CloudAccount.getTokenEndpoint,
    CloudAccount.getOpenIDConfiguration, CloudAccount.body_of.
  run. intros H.
  destruct (http_get_configuration _ _) as [cfg|]; cbn in H;
    [|by simplify_eq].
  destruct (new_URL _) as [url|]; [|by simplify_eq].
  destruct (http_post _ _ _) as [response|]; cbn in H; [|by simplify_eq].
  destruct (starts_with_2 _), (Response.body response); cbn in H;
    try by simplify_eq.
  destruct (store_fault _ _); by simplify_eq.
Qed.

Arguments CloudAccount.loginCommon : simpl never.
Arguments CloudAccount.logout : simpl never.
Arguments CloudAccount.loggedIn : simpl never.
Arguments CloudAccount.refreshTokens : simpl never.
Arguments CloudAccount.checkTokens : simpl never.
Arguments CloudAccount.getAccessToken : simpl never.
Arguments CloudAccount.getRefreshToken : simpl never.

(** ** Logging out *)

Lemma cleared_logged_out g s tr :
  logged_out
    {| accessToken := None; expiration := 0;
       globalState := delete EMAIL_KEY (delete ACCOUNT_KEY g);
       secureStore := delete (SERVICE, REFRESH_TOKEN_ACCOUNT) s;
       trace := tr |}.
Proof.
  unfold logged_out, session, stored_refreshToken, stored_account,
    stored_email; cbn.
  rewrite !lookup_delete_eq, lookup_delete_ne, lookup_delete_eq by done.
  reflexivity.
Qed.

Lemma logout_reliable {E : Env} (w : World) :
  reliable E ->
  CloudAccount.logout w =
    (Return tt,
     {| accessToken := None; expiration := 0;
        globalState := delete EMAIL_KEY (delete ACCOUNT_KEY (globalState w));
        secureStore := delete (SERVICE, REFRESH_TOKEN_ACCOUNT) (secureStore w);
        trace := EvEmit "changed" :: Delete3 :: Delete2 :: Delete1
                 :: trace w |}).
Proof.
  intros HR. unfold CloudAccount.logout. run. trust HR. reflexivity.
Qed.

(** [logout] settles, with one notification of its own. *)
Lemma logout_changed {E : Env} w r w' :
  CloudAccount.logout w = (r, w') ->
  r <> Diverge /\ changed_count (trace w') = S (changed_count (trace w)).
Proof.
  unfold CloudAccount.logout. run. intros H.
  repeat case_match; simplify_eq; cbn; auto.
Qed.

(** ** Refreshing *)

Lemma loggedIn_eq {E : Env} w :
  CloudAccount.loggedIn w =
    match store_fault (trace w) (GetPassword SERVICE REFRESH_TOKEN_ACCOUNT) with
    | Some e => (Throw e, log (EvStore (GetPassword SERVICE REFRESH_TOKEN_ACCOUNT)) w)
    | None => (Return (truthy (stored_refreshToken w)),
               log (EvStore (GetPassword SERVICE REFRESH_TOKEN_ACCOUNT)) w)
    end.
Proof.
  unfold CloudAccount.loggedIn. run. destruct (store_fault _ _); reflexivity.
Qed.

Lemma loggedIn_Return {E : Env} w b w1 :
  CloudAccount.loggedIn w = (Return b, w1) ->
  b = truthy (stored_refreshToken w) /\
  w1 = log (EvStore (GetPassword SERVICE REFRESH_TOKEN_ACCOUNT)) w.
Proof.
  rewrite loggedIn_eq. destruct (store_fault _ _); intros [= <- <-]; auto.
Qed.

Lemma checkTokens_eq {E : Env} w :
  CloudAccount.checkTokens w =
    if expiration w - now w <? 60 then CloudAccount.refreshTokens w
    else (Return tt, w).
Proof.
  unfold CloudAccount.checkTokens, now. run.
  destruct (_ <? 60); reflexivity.
Qed.


Lemma refreshTokens_Return {E : Env} w w' :
  CloudAccount.refreshTokens w = (Return tt, w') ->
  truthy (stored_refreshToken w) = true /\
  CloudAccount.loginCommon (refresh_form w) true
    (log (EvStore (GetPassword SERVICE REFRESH_TOKEN_ACCOUNT)) w)
    = (Return tt, w').
Proof.
  unfold CloudAccount.refreshTokens, refresh_form. run.
  destruct (store_fault _ _); cbn.
  { destruct (CloudAccount.logout _) as [[[]|e|] w1]; discriminate. }
  fold (stored_refreshToken w). fold (stored_account w).
  destruct (truthy (stored_refreshToken w)); cbn.
  2:{ destruct (CloudAccount.logout _) as [[[]|e|] w1]; discriminate. }
  destruct (CloudAccount.loginCommon _ _ _) as [[[]|e|] w1]; intros H.
  - by simplify_eq.
  - destruct (CloudAccount.logout _) as [[[]|e'|] w2]; discriminate.
  - discriminate.
Qed.

(** With a store that works, a refresh that does not return has logged the
    session out and says so. *)
Lemma refreshTokens_failure {E : Env} w r w' :
  reliable E ->
  CloudAccount.refreshTokens w = (r, w') ->
  r <> Return tt ->
  r = Throw NOT_LOGGED_IN /\ logged_out w' /\
  changed_count (trace w') = S (changed_count (trace w)).
Proof.
  intros HR. unfold CloudAccount.refreshTokens. run. trust HR.
  destruct (truthy _); cbn.
  2:{ rewrite logout_reliable by exact HR. intros [= <- <-] _.
      split; [reflexivity|]. split; [apply cleared_logged_out | reflexivity]. }
  destruct (CloudAccount.loginCommon _ _ _) as [[[]|e|] w1] eqn:Hl.
  - intros [= <- <-] Hr. contradiction.
  - rewrite logout_reliable by exact HR. intros [= <- <-] _.
    split; [reflexivity|]. split; [apply cleared_logged_out|]. cbn.
    f_equal. rewrite (advances_silent_changed_count _ _ (loginCommon_silent _ _ _ _ _ Hl)).
    reflexivity.
  - exfalso. eapply (loginCommon_settles _ _ _). rewrite Hl. reflexivity.
Qed.

(** ** Refreshing, whatever the environment does *)

Lemma exchange_accepted_Return {E : Env} form w :
  exchange_accepted (trace w) form = true ->
  exists w', CloudAccount.loginCommon form true w = (Return tt, w').
Proof.
  unfold exchange_accepted, CloudAccount.loginCommon,
    CloudAccount.getTokenEndpoint, CloudAccount.getOpenIDConfiguration,
    CloudAccount.body_of.
  fold CONFIGURATION_URL. run.
  destruct (http_get_configuration _ _) as [cfg|]; [|discriminate]. cbn.
  destruct (new_URL _) as [url|]; [|discriminate]. cbn.
  destruct (http_post _ _ _) as [response|]; [|discriminate]. cbn.
  intros [H2 Hbody]%andb_true_iff. rewrite H2. cbn.
  destruct (Response.body response) as [body|]; [|discriminate]. cbn.
  apply bool_decide_eq_true in Hbody. rewrite Hbody. eauto.
Qed.

Lemma exchange_accepted_Throw {E : Env} form w :
  exchange_accepted (trace w) form = false ->
  exists e w',
    CloudAccount.loginCommon form true w = (Throw e, w') /\
    globalState w' = globalState w /\ secureStore w' = secureStore w.
Proof.
  unfold exchange_accepted, CloudAccount.loginCommon,
    CloudAccount.getTokenEndpoint, CloudAccount.getOpenIDConfiguration,
    CloudAccount.body_of.
  fold CONFIGURATION_URL. run.
  destruct (http_get_configuration _ _) as [cfg|]; [|eauto]. cbn.
  destruct (new_URL _) as [url|]; [|eauto]. cbn.
  destruct (http_post _ _ _) as [response|]; [|eauto]. cbn.
  destruct (starts_with_2 _); cbn;
    [|destruct (Response.body response); cbn; eauto].
  destruct (Response.body response) as [body|]; cbn; [|eauto].
  intros Hf%bool_decide_eq_false.
  destruct (store_fault _ _); [eauto | contradiction].
Qed.

Lemma logout_outcome {E : Env} w r w' :
  CloudAccount.logout w = (r, w') ->
  accessToken w' = None /\ expiration w' = 0 /\
  changed_count (trace w') = S (changed_count (trace w)) /\
  ((r = Return tt /\ logged_out w') \/
   (exists e tr op,
       r = Throw e /\ is_delete op /\ store_fault tr op = Some e /\
       trace w' = EvEmit "changed" :: EvStore op :: tr /\
       secureStore w' = secureStore w)).
Proof.
  unfold CloudAccount.logout. run.
  destruct (store_fault (trace w) (MementoUpdate ACCOUNT_KEY None))
    as [e1|] eqn:F1; cbn.
  { intros [= <- <-]. repeat split. right. eexists e1, _, _.
    split; [reflexivity|]. split; [left; reflexivity|]. eauto. }
  destruct (store_fault _ (MementoUpdate EMAIL_KEY None)) as [e2|] eqn:F2; cbn.
  { intros [= <- <-]. repeat split. right. eexists e2, _, _.
    split; [reflexivity|]. split; [right; left; reflexivity|]. eauto. }
  destruct (store_fault _ (DeletePassword _ _)) as [e3|] eqn:F3; cbn.
  { intros [= <- <-]. repeat split. right. eexists e3, _, _.
    split; [reflexivity|]. split; [right; right; reflexivity|]. eauto. }
  intros [= <- <-]. repeat split. left. split; [reflexivity|].
  apply cleared_logged_out.
Qed.

(** A refresh the environment lets succeed returns. *)
Lemma refreshTokens_succeeds {E : Env} w :
  refresh_succeeds w = true ->
  exists w', CloudAccount.refreshTokens w = (Return tt, w').
Proof.
  unfold refresh_succeeds.
  intros [[Hf%bool_decide_eq_true Ht]%andb_true_iff Hx]%andb_true_iff.
  change (GetRefreshToken :: trace w)
    with (trace (log GetRefreshToken w)) in Hx.
  apply exchange_accepted_Return in Hx as (w' & Hx).
  exists w'. unfold CloudAccount.refreshTokens. run. rewrite Hf. cbn.
  fold (stored_refreshToken w). rewrite Ht. cbn.
  change (CloudAccount.loginCommon _ true _)
    with (CloudAccount.loginCommon (refresh_form w) true
            (log GetRefreshToken w)).
  rewrite Hx. reflexivity.
Qed.

(** A refresh the environment makes fail ends in the forced logout, begun
    with both stores as the refresh found them. *)
Lemma refreshTokens_fails {E : Env} w :
  refresh_succeeds w = false ->
  exists w1,
    globalState w1 = globalState w /\ secureStore w1 = secureStore w /\
    changed_count (trace w1) = changed_count (trace w) /\
    CloudAccount.refreshTokens w =
      (let (r, w2) := CloudAccount.logout w1 in
       (match r with
        | Return _ => Throw NOT_LOGGED_IN
        | Throw e => Throw e
        | Diverge => Diverge
        end, w2)).
Proof.
  unfold refresh_succeeds. intros H.
  unfold CloudAccount.refreshTokens. run.
  destruct (store_fault (trace w) _) eqn:Hf; cbn.
  { exists (log GetRefreshToken w). repeat split.
    unfold log, GetRefreshToken; cbn.
    destruct (CloudAccount.logout _) as [[[]|e|] w2]; reflexivity. }
  rewrite bool_decide_eq_true_2 in H by reflexivity. cbn in H.
  fold (stored_refreshToken w) in *. fold (stored_account w).
  destruct (truthy (stored_refreshToken w)); cbn in *.
  2:{ exists (log GetRefreshToken w). repeat split.
    unfold log, GetRefreshToken; cbn.
    destruct (CloudAccount.logout _) as [[[]|e|] w2]; reflexivity. }
  change (GetRefreshToken :: trace w) with (trace (log GetRefreshToken w)) in H.
  pose proof (exchange_accepted_Throw _ _ H) as (e & w1 & Hx & Hg & Hs).
  pose proof (loginCommon_silent _ _ _ _ _ Hx) as Hc.
  apply advances_silent_changed_count in Hc.
  change (CloudAccount.loginCommon _ true _)
    with (CloudAccount.loginCommon (refresh_form w) true
            (log GetRefreshToken w)).
  rewrite Hx. exists w1. split; [exact Hg|]. split; [exact Hs|].
  split; [exact Hc|].
  destruct (CloudAccount.logout _) as [[[]|e'|] w2]; reflexivity.
Qed.

Lemma logged_out_loggedIn_says {E : Env} w :
  logged_out w -> loggedIn_says w false.
Proof.
  intros Hout Hf. rewrite loggedIn_eq, Hf.
  unfold logged_out, session in Hout.
  assert (Hrt : stored_refreshToken w = None) by congruence.
  rewrite Hrt. reflexivity.
Qed.

(** A refresh the environment makes fail throws after the forced logout,
    which has notified once. *)
Lemma refreshTokens_forced_out {E : Env} w :
  refresh_succeeds w = false ->
  exists e w',
    CloudAccount.refreshTokens w = (Throw e, w') /\
    forced_out w (@Throw unit e, w') /\
    changed_count (trace w') = S (changed_count (trace w)).
Proof.
  intros H. destruct (refreshTokens_fails _ H) as (w1 & Hg & Hs & Hc & ->).
  destruct (CloudAccount.logout w1) as [r w2] eqn:Hl.
  destruct (logout_outcome _ _ _ Hl)
    as (Ha & He & Hc2
        & [[-> Hout]|(e & tr & op & -> & Hop & Hf & Htr & Hs2)]).
  - eexists _, w2. split; [reflexivity|]. split; [|congruence].
    split; [exact Ha|]. split; [exact He|]. left.
    split; [reflexivity|]. split; [exact Hout|].
    apply logged_out_loggedIn_says, Hout.
  - eexists _, w2. split; [reflexivity|]. split; [|congruence].
    split; [exact Ha|]. split; [exact He|]. right.
    assert (Hrt : stored_refreshToken w2 = stored_refreshToken w).
    { unfold stored_refreshToken. rewrite Hs2, Hs. reflexivity. }
    exists e, tr, op, [EvEmit "changed"].
    repeat (split; [assumption || reflexivity|]).
    split; [repeat constructor|]. split; [exact Hrt|].
    intros Hf2. rewrite loggedIn_eq, Hf2, Hrt. reflexivity.
Qed.

Lemma forced_out_notified {E : Env} {A B} w0 w e w' :
  stored_refreshToken w0 = stored_refreshToken w ->
  forced_out w (@Throw A e, w') ->
  forced_out w0 (@Throw B e, log (EvEmit "changed") w').
Proof.
  intros Hrt (Ha & He & Hcases).
  destruct Hcases
    as [(Hr & Hout & Hsay)
       |(e' & tr & op & evs & Hr & Hop & Hf & Htr & Hevs & Hs & Hsay)].
  - split; [exact Ha|]. split; [exact He|]. left.
    split; [congruence|]. split; [exact Hout|].
    apply logged_out_loggedIn_says, Hout.
  - split; [exact Ha|]. split; [exact He|]. right.
    exists e', tr, op, (EvEmit "changed" :: evs).
    split; [congruence|]. split; [exact Hop|]. split; [exact Hf|].
    split; [cbn; rewrite Htr; reflexivity|].
    split; [constructor; [reflexivity | exact Hevs]|].
    assert (Hrt' : stored_refreshToken (log (EvEmit "changed") w')
                   = stored_refreshToken w0)
      by (rewrite Hrt; exact Hs).
    split; [exact Hrt'|].
    intros Hf2. rewrite loggedIn_eq, Hf2, Hrt'. reflexivity.
Qed.

(** ** Logging out, whatever the store does *)

(** C5, as amended.  From any state [logout] clears the access token and the
    expiry in memory and ends with the notification.  When the store works
    it returns, having removed account id, email and refresh token, in that
    order.  When a delete fails, [logout] throws the error of that delete:
    the deletes before it have taken effect, the ones after it are not
    attempted, and the refresh token is still in the secure store. *)
Theorem logout_clears {E : Env} (w : World) :
  let (r, w') := CloudAccount.logout w in
  accessToken w' = None /\ expiration w' = 0 /\
  (reliable E -> r = Return tt) /\
  ((r = Return tt /\ logged_out w' /\
    trace w' = EvEmit "changed" :: Delete3 :: Delete2 :: Delete1 :: trace w) \/
   (exists e, r = Throw e /\
      store_fault (trace w) (MementoUpdate ACCOUNT_KEY None) = Some e /\
      trace w' = EvEmit "changed" :: Delete1 :: trace w /\
      globalState w' = globalState w /\ secureStore w' = secureStore w) \/
   (exists e, r = Throw e /\
      store_fault (Delete1 :: trace w) (MementoUpdate EMAIL_KEY None) = Some e /\
      trace w' = EvEmit "changed" :: Delete2 :: Delete1 :: trace w /\
      globalState w' = delete ACCOUNT_KEY (globalState w) /\
      secureStore w' = secureStore w) \/
   (exists e, r = Throw e /\
      store_fault (Delete2 :: Delete1 :: trace w)
        (DeletePassword SERVICE REFRESH_TOKEN_ACCOUNT) = Some e /\
      trace w' = EvEmit "changed" :: Delete3 :: Delete2 :: Delete1 :: trace w /\
      globalState w' = delete EMAIL_KEY (delete ACCOUNT_KEY (globalState w)) /\
      secureStore w' = secureStore w)).
Proof.
  unfold CloudAccount.logout. run.
  destruct (store_fault (trace w) (MementoUpdate ACCOUNT_KEY None))
    as [e1|] eqn:F1; cbn.
  { repeat split; [intros HR; rewrite HR in F1; discriminate|].
    right; left. eauto 10. }
  destruct (store_fault _ (MementoUpdate EMAIL_KEY None)) as [e2|] eqn:F2; cbn.
  { repeat split; [intros HR; rewrite HR in F2; discriminate|].
    right; right; left. eauto 10. }
  destruct (store_fault _ (DeletePassword _ _)) as [e3|] eqn:F3; cbn.
  { repeat split; [intros HR; rewrite HR in F3; discriminate|].
    right; right; right. eauto 10. }
  repeat split. left. repeat split. apply cleared_logged_out.
Qed.

(** The counterexample to C5 as stated.  The Memento refuses to remove the
    account id: [logout] fails with that error, and the email and the
    refresh token are still there, their deletes never attempted. *)
Lemma logout_stops_at_failed_delete :
  exists w',
    CloudAccount.logout (E := Scenario.faulty) (Scenario.signed_in 1003600)
      = (Throw "EIO", w') /\
    stored_refreshToken w' = Some "r0" /\
    stored_account w' = Some "guid-z" /\
    stored_email w' = Some "z@example.com" /\
    trace w' = [EvEmit "changed"; Delete1].
Proof.
  eexists. split; [vm_compute; reflexivity|]. repeat split.
Qed.

Lemma logout_clears_witness :
  fst (CloudAccount.logout (E := Scenario.accepting Scenario.three_pages)
         (Scenario.signed_in 1003600)) = Return tt /\
  accessToken
    (snd (CloudAccount.logout (E := Scenario.accepting Scenario.three_pages)
            (Scenario.signed_in 1003600))) = None.
Proof.
  pose proof (logout_clears (E := Scenario.accepting Scenario.three_pages)
                (Scenario.signed_in 1003600)) as H.
  destruct (CloudAccount.logout _) as [r w'].
  destruct H as (Ha & _ & Hr & _).
  split; [apply Hr; intros tr op; reflexivity | exact Ha].
Defined.



(** ** The two token getters *)


(** [getAccessToken] by cases on its three steps. *)
Lemma getAccessToken_eq {E : Env} accountRequired w :
  CloudAccount.getAccessToken accountRequired w =
    match CloudAccount.loggedIn w with
    | (Return true, w1) =>
        if accountRequired && negb (truthy (stored_account w1))
        then (Throw NO_ACCOUNT_SELECTED, log (EvEmit "changed") w1)
        else
          match CloudAccount.checkTokens w1 with
          | (Return _, w2) =>
              (Return (accessToken w2), log (EvEmit "changed") w2)
          | (Throw e, w2) => (Throw e, log (EvEmit "changed") w2)
          | (Diverge, w2) => (Diverge, w2)
          end
    | (Return false, w1) => (Throw NOT_LOGGED_IN, log (EvEmit "changed") w1)
    | (Throw e, w1) => (Throw e, log (EvEmit "changed") w1)
    | (Diverge, w1) => (Diverge, w1)
    end.
Proof.
  unfold CloudAccount.getAccessToken, CloudAccount.accountSelected. run.
  destruct (CloudAccount.loggedIn w) as [[[]|e|] w1]; cbn; try reflexivity.
  destruct (accountRequired && negb _); cbn; [reflexivity|].
  destruct (CloudAccount.checkTokens w1) as [[[]|e|] w2]; reflexivity.
Qed.

Lemma getRefreshToken_eq {E : Env} accountRequired w :
  CloudAccount.getRefreshToken accountRequired w =
    match CloudAccount.loggedIn w with
    | (Return true, w1) =>
        if accountRequired && negb (truthy (stored_account w1))
        then (Throw NO_ACCOUNT_SELECTED, log (EvEmit "changed") w1)
        else
          match CloudAccount.checkTokens w1 with
          | (Return _, w2) =>
              match store_fault (trace w2)
                      (GetPassword SERVICE REFRESH_TOKEN_ACCOUNT) with
              | Some e =>
                  (Throw e, log (EvEmit "changed") (log GetRefreshToken w2))
              | None =>
                  (Return (stored_refreshToken w2),
                   log (EvEmit "changed") (log GetRefreshToken w2))
              end
          | (Throw e, w2) => (Throw e, log (EvEmit "changed") w2)
          | (Diverge, w2) => (Diverge, w2)
          end
    | (Return false, w1) => (Throw NOT_LOGGED_IN, log (EvEmit "changed") w1)
    | (Throw e, w1) => (Throw e, log (EvEmit "changed") w1)
    | (Diverge, w1) => (Diverge, w1)
    end.
Proof.
  unfold CloudAccount.getRefreshToken, CloudAccount.accountSelected. run.
  destruct (CloudAccount.loggedIn w) as [[[]|e|] w1]; cbn; try reflexivity.
  destruct (accountRequired && negb _); cbn; [reflexivity|].
  destruct (CloudAccount.checkTokens w1) as [[[]|e|] w2]; cbn;
    try reflexivity.
  destruct (store_fault _ _); reflexivity.
Qed.

Lemma precondition_passes accountRequired account :
  (accountRequired = true -> truthy account = true) ->
  accountRequired && negb (truthy account) = false.
Proof. destruct accountRequired, (truthy account); cbn; auto. intros H. discriminate H; reflexivity. Qed.

(** C1, as amended.  A call of [getAccessToken] or of [getRefreshToken]
    triggers a refresh when the refresh token is read and there, the account
    precondition holds and fewer than sixty seconds are left at the
    freshness check.  When the environment then makes that refresh fail, for
    whichever reason (the refresh token cannot be read again, the
    configuration document is not served or names no valid endpoint, the
    token endpoint does not answer, answers with a status that is not 2xx or
    without a body, or the secure store does not take the token granted),
    the logout is forced and both calls end alike.  The token and the expiry
    in memory are cleared.  Either the three deletes of the logout went
    through: the call throws the "not logged in" error, the session is the
    empty one (refresh token, account id, email, access token and expiry all
    cleared) and [loggedIn] called next returns false.  Or one of the
    deletes failed: the call throws the error of that delete, the refresh
    token is still stored, and [loggedIn] called next still returns true.
    Over a store whose deletes never fail it is the first. *)
Theorem refresh_failure_forces_logout {E : Env} accountRequired w :
  store_fault (trace w) (GetPassword SERVICE REFRESH_TOKEN_ACCOUNT) = None ->
  truthy (stored_refreshToken w) = true ->
  (accountRequired = true -> truthy (stored_account w) = true) ->
  expiration w - now (log GetRefreshToken w) < 60 ->
  refresh_succeeds (log GetRefreshToken w) = false ->
  forced_out w (CloudAccount.getAccessToken accountRequired w) /\
  forced_out w (CloudAccount.getRefreshToken accountRequired w) /\
  ((forall tr op, is_delete op -> store_fault tr op = None) ->
   forall r w',
     CloudAccount.getAccessToken accountRequired w = (r, w') \/
     CloudAccount.getRefreshToken accountRequired w = (r, w') ->
     r = Throw NOT_LOGGED_IN /\ logged_out w' /\ loggedIn_says w' false).
Proof.
  intros Hf Ht Hacc Hdelta Hfail.
  rewrite getAccessToken_eq, getRefreshToken_eq, loggedIn_eq, Hf, Ht.
  change (stored_account (log _ w)) with (stored_account w).
  rewrite (precondition_passes _ _ Hacc), checkTokens_eq.
  change (expiration (log _ w)) with (expiration w).
  apply Z.ltb_lt in Hdelta. unfold GetRefreshToken in Hdelta. rewrite Hdelta.
  destruct (refreshTokens_forced_out _ Hfail) as (e & w' & Href & Hout & _).
  unfold GetRefreshToken in Href. rewrite Href.
  assert (Hboth : forall A : Type,
            forced_out w (@Throw A e, log (EvEmit "changed") w'))
    by (intros A; eapply forced_out_notified; [reflexivity | exact Hout]).
  split; [apply Hboth|]. split; [apply Hboth|].
  intros Hdel r w'' Hrun.
  assert (Hr : r = Throw e /\ w'' = log (EvEmit "changed") w')
    by (destruct Hrun as [[= <- <-]|[= <- <-]]; auto).
  destruct Hr as [-> ->].
  destruct (Hboth JsString)
    as (_ & _ & [Hfirst|(e' & tr & op & evs & _ & Hop & Hfault & _)]).
  - exact Hfirst.
  - rewrite (Hdel _ _ Hop) in Hfault. discriminate.
Qed.

(** The counterexample to C1 as stated.  The token has thirty seconds
    left, the provider rejects the refresh exchange, and the Memento refuses
    to remove the account id: the forced logout stops at its first delete,
    [getAccessToken] throws the error of the Memento and not "not logged
    in", the refresh token, the account id and the email are still stored,
    and [loggedIn] returns true. *)
Lemma forced_logout_stops_at_failed_delete :
  exists w',
    CloudAccount.getAccessToken (E := Fixture.rejecting_faulty) true
      (Scenario.signed_in 1000030) = (Throw "EIO", w') /\
    stored_refreshToken w' = Some "r0" /\
    stored_account w' = Some "guid-z" /\
    stored_email w' = Some "z@example.com" /\
    fst (CloudAccount.loggedIn (E := Fixture.rejecting_faulty) w')
      = Return true.
Proof.
  eexists. split; [vm_compute; reflexivity|]. repeat split.
Qed.

Lemma refresh_failure_forces_logout_witness :
  fst (CloudAccount.getAccessToken
         (E := Scenario.rejecting Scenario.three_pages) true
         (Scenario.signed_in 1000030)) = Throw NOT_LOGGED_IN /\
  logged_out
    (snd (CloudAccount.getAccessToken
            (E := Scenario.rejecting Scenario.three_pages) true
            (Scenario.signed_in 1000030))) /\
  fst (CloudAccount.getRefreshToken
         (E := Scenario.rejecting Scenario.three_pages) true
         (Scenario.signed_in 1000030)) = Throw NOT_LOGGED_IN.
Proof.
  destruct (refresh_failure_forces_logout
              (E := Scenario.rejecting Scenario.three_pages) true
              (Scenario.signed_in 1000030))
    as (_ & _ & Hthrows).
  - reflexivity.
  - reflexivity.
  - intros _. reflexivity.
  - reflexivity.
  - vm_compute. reflexivity.
  - assert (Hdel : forall tr op,
              is_delete op ->
              store_fault (Env := Scenario.rejecting Scenario.three_pages)
                tr op = None)
      by (intros tr op _; reflexivity).
    destruct (Hthrows Hdel _ _ (or_introl (surjective_pairing _)))
      as (Ha & Hout & _).
    destruct (Hthrows Hdel _ _ (or_intror (surjective_pairing _)))
      as (Hr & _).
    split; [exact Ha|]. split; [exact Hout | exact Hr].
Defined.

Lemma refresh_form_is_exchange w url :
  refresh_exchange (stored_account w) (EvPost url (refresh_form w)).
Proof. exists url, (refresh_form w). repeat split. Qed.

(** C2, as amended.  Whenever [getAccessToken] returns a token, one of two
    things happened.  Either sixty seconds or more were left at the
    freshness check, and the token in memory is returned as it was, nothing
    done but the look-up of the refresh token and the notification.  Or
    fewer were left, a refresh exchange for the stored account was performed
    first and answered 2xx, and the token returned and its expiry are those
    of that answer; the expiry of a granted token is not checked again.  So
    the refresh is performed exactly when [delta < 60], and no token short
    of the margin is returned without a refresh before. *)
Theorem getAccessToken_fresh_or_refreshed {E : Env} accountRequired w token w' :
  CloudAccount.getAccessToken accountRequired w = (Return token, w') ->
  exists w1,
    CloudAccount.loggedIn w = (Return true, w1) /\
    let delta := expiration w1 - now w1 in
    (60 <= delta /\
     token = accessToken w /\ expiration w' = expiration w /\
     w' = log (EvEmit "changed") w1) \/
    (delta < 60 /\
     exists w2 tr url response body,
       CloudAccount.refreshTokens w1 = (Return tt, w2) /\
       w' = log (EvEmit "changed") w2 /\
       http_post tr url (refresh_form w) = Resolve response /\
       starts_with_2 (js_number_string (Response.statusCode response))
         = true /\
       Response.body response = Some body /\
       token = Response.access_token body /\
       expiration w' = Response.expiration body /\
       exists evs,
         trace w' = evs ++ trace w /\
         Exists (refresh_exchange (stored_account w)) evs).
Proof.
  rewrite getAccessToken_eq.
  destruct (CloudAccount.loggedIn w) as [[[]|e|] w1] eqn:Hin;
    try discriminate.
  destruct (accountRequired && negb _); [discriminate|].
  rewrite checkTokens_eq. intros H. exists w1. split; [reflexivity|]. cbv zeta.
  apply loggedIn_Return in Hin as [_ ->].
  destruct (_ <? 60) eqn:Hdelta.
  - apply Z.ltb_lt in Hdelta. right. split; [exact Hdelta|].
    destruct (CloudAccount.refreshTokens _) as [[[]|e|] w2] eqn:Href;
      try discriminate.
    injection H as <- <-.
    destruct (refreshTokens_Return _ _ Href) as [_ Hlogin].
    destruct (loginCommon_Return _ _ _ _ Hlogin)
      as (url & response & body & Hpost & H2 & Hbody & Htok & Hexp & _ & _
          & Htr).
    change (refresh_form (log _ w)) with (refresh_form w) in *.
    eexists w2, _, url, response, body.
    split; [reflexivity|]. split; [reflexivity|].
    split; [exact Hpost|]. split; [exact H2|]. split; [exact Hbody|].
    split; [exact Htok|]. split; [exact Hexp|].
    cbn. rewrite Htr. cbn.
    exists [EvEmit "changed";
            EvStore (SetPassword SERVICE REFRESH_TOKEN_ACCOUNT
                       (Response.refresh_token body));
            EvPost url (refresh_form w);
            EvGetConfiguration CONFIGURATION_URL;
            GetRefreshToken; GetRefreshToken].
    split; [reflexivity|].
    apply Exists_cons_tl, Exists_cons_tl, Exists_cons_hd.
    apply refresh_form_is_exchange.
  - apply Z.ltb_ge in Hdelta. left. injection H as <- <-. auto.
Qed.

(** The counterexample to C2 as stated.  The session holds a token with
    thirty seconds left, so [getAccessToken] refreshes; the provider grants
    a token that, on the local clock, expires in ten seconds; that token is
    returned, with less than the one-minute margin. *)
Lemma refreshed_token_without_margin :
  exists w',
    CloudAccount.getAccessToken (E := Scenario.skewed) true
      (Scenario.signed_in 1000030) = (Return (Some "a1"), w') /\
    accessToken w' = Some "a1" /\
    expiration w' = 1000010 /\
    now (E := Scenario.skewed)
      (log GetRefreshToken (Scenario.signed_in 1000030)) = 1000000 /\
    expiration w'
      - now (E := Scenario.skewed)
          (log GetRefreshToken (Scenario.signed_in 1000030)) < 60.
Proof.
  eexists. split; [vm_compute; reflexivity|]. repeat split.
Qed.

Lemma getAccessToken_fresh_or_refreshed_witness :
  CloudAccount.getAccessToken
    (E := Scenario.accepting Scenario.three_pages) true
    (Scenario.signed_in 1000030)
  = (Return (Some "a1"),
     snd (CloudAccount.getAccessToken
            (E := Scenario.accepting Scenario.three_pages) true
            (Scenario.signed_in 1000030))) /\
  exists w1,
    CloudAccount.loggedIn (E := Scenario.accepting Scenario.three_pages)
      (Scenario.signed_in 1000030) = (Return true, w1).
Proof.
  assert (H : CloudAccount.getAccessToken
                (E := Scenario.accepting Scenario.three_pages) true
                (Scenario.signed_in 1000030)
              = (Return (Some "a1"),
                 snd (CloudAccount.getAccessToken
                        (E := Scenario.accepting Scenario.three_pages) true
                        (Scenario.signed_in 1000030))))
    by (vm_compute; reflexivity).
  split; [exact H|].
  destruct (getAccessToken_fresh_or_refreshed
              (E := Scenario.accepting Scenario.three_pages) true
              (Scenario.signed_in 1000030) _ _ H)
    as (w1 & Hin & _).
  exists w1. exact Hin.
Defined.



(** The refresh token [getRefreshToken] returns is the rotated one: the
    session held ["r0"], the exchange sent it and stored ["r1"]. *)
Example getRefreshToken_returns_rotated :
  stored_refreshToken (Scenario.signed_in 1000030) = Some "r0" /\
  fst (CloudAccount.getRefreshToken
         (E := Scenario.accepting Scenario.three_pages) true
         (Scenario.signed_in 1000030)) = Return (Some "r1").
Proof. split; reflexivity. Qed.

(** ** Primary logins *)

Lemma loginCommon_primary {E : Env} form w w' :
  CloudAccount.loginCommon form false w = (Return tt, w') ->
  replaced_session w (log (EvEmit "changed") w').
Proof.
  intros H.
  destruct (loginCommon_Return _ _ _ _ H)
    as (url & response & body & _ & _ & _ & _ & _ & Hg & Hs & Htr).
  unfold replaced_session, stored_account, stored_email, stored_refreshToken.
  cbn. rewrite Hg, Hs, Htr.
  split; [rewrite lookup_delete_ne by done; apply lookup_delete_eq|].
  split; [apply lookup_delete_eq|].
  eexists _, [_; _]. split; [apply lookup_insert_eq | reflexivity].
Qed.

Lemma replaced_session_later w w0 w' :
  advances (fun _ => True) w w0 -> replaced_session w0 w' ->
  replaced_session w w'.
Proof.
  intros (evs0 & Htr0 & _) (Ha & He & rt & evs & Hrt & Htr).
  split; [exact Ha|]. split; [exact He|].
  exists rt, (evs ++ evs0). split; [exact Hrt|].
  rewrite Htr, Htr0, app_assoc. reflexivity.
Qed.

(** C4.  From any session, each primary login that returns true
    ([loginWithUsernameAndPassword], [loginWithApiKey], [loginWithSSO]) has
    deleted the stored account id and email and only then stored the new
    refresh token; a token exchange with [refresh] set leaves the stored
    account id and email as they were however it ends, and so does a
    [refreshTokens] that returns. *)
Theorem primary_login_clears_account {E : Env} :
  (forall username password w w',
      CloudAccount.loginWithUsernameAndPassword username password w
        = (Return true, w') ->
      replaced_session w w') /\
  (forall apikey w w',
      CloudAccount.loginWithApiKey apikey w = (Return true, w') ->
      replaced_session w w') /\
  (forall cb w w',
      CloudAccount.loginWithSSO cb w = (Return true, w') ->
      replaced_session w w') /\
  (forall form w r w',
      CloudAccount.loginCommon form true w = (r, w') ->
      stored_account w' = stored_account w /\
      stored_email w' = stored_email w) /\
  (forall w w',
      CloudAccount.refreshTokens w = (Return tt, w') ->
      stored_account w' = stored_account w /\
      stored_email w' = stored_email w).
Proof.
  split; [|split; [|split; [|split]]].
  - intros username password w w'.
    unfold CloudAccount.loginWithUsernameAndPassword. run.
    destruct (CloudAccount.loginCommon _ _ _) as [[[]|e|] w1] eqn:H;
      intros [= <-]. 
    exact (loginCommon_primary _ _ _ H).
  - intros apikey w w'. unfold CloudAccount.loginWithApiKey. run.
    destruct (CloudAccount.loginCommon _ _ _) as [[[]|e|] w1] eqn:H;
      intros [= <-].
    exact (loginCommon_primary _ _ _ H).
  - intros cb w w'.
    unfold CloudAccount.loginWithSSO, CloudAccount.getPasscodeEndpoint,
      CloudAccount.getOpenIDConfiguration. run.
    destruct (http_get_configuration _ _) as [cfg|]; cbn; [|discriminate].
    destruct (new_URL _) as [endpoint|]; [|discriminate].
    destruct (cb endpoint) as [passcode|]; [|discriminate].
    destruct (truthy passcode); cbn; [|discriminate].
    destruct (CloudAccount.loginCommon _ _ _) as [[[]|e|] w1] eqn:H;
      intros [= <-].
    eapply replaced_session_later; [|exact (loginCommon_primary _ _ _ H)].
    eexists [_; _]. split; [reflexivity | repeat constructor].
  - intros form w r w' H. unfold stored_account, stored_email.
    by rewrite (loginCommon_refresh_globalState _ _ _ _ H).
  - intros w w' H. apply refreshTokens_Return in H as [_ H].
    unfold stored_account, stored_email.
    by rewrite (loginCommon_refresh_globalState _ _ _ _ H).
Qed.

Lemma primary_login_clears_account_witness :
  stored_account (Scenario.signed_in 1003600) = Some "guid-z" /\
  replaced_session (Scenario.signed_in 1003600)
    (snd (CloudAccount.loginWithApiKey
            (E := Scenario.accepting Scenario.three_pages) "k1"
            (Scenario.signed_in 1003600))).
Proof.
  split; [reflexivity|].
  apply (proj1 (proj2 (primary_login_clears_account
                         (E := Scenario.accepting Scenario.three_pages)))
           "k1" (Scenario.signed_in 1003600)).
  vm_compute. reflexivity.
Defined.

(** ** Selecting an account *)

(** A successful [getAccessToken] leaves the Memento alone and notifies
    once. *)
Lemma getAccessToken_Return {E : Env} accountRequired w token w' :
  CloudAccount.getAccessToken accountRequired w = (Return token, w') ->
  globalState w' = globalState w /\
  changed_count (trace w') = S (changed_count (trace w)).
Proof.
  rewrite getAccessToken_eq.
  destruct (CloudAccount.loggedIn w) as [[[]|e|] w1] eqn:Hin;
    try discriminate.
  apply loggedIn_Return in Hin as [Hrt ->].
  destruct (accountRequired && negb _); [discriminate|].
  rewrite checkTokens_eq.
  destruct (_ <? 60).
  - destruct (CloudAccount.refreshTokens _) as [[[]|e|] w2] eqn:Href;
      try discriminate.
    intros [= <- <-].
    destruct (refreshTokens_Return _ _ Href) as [_ Hlogin]. cbn.
    rewrite (advances_silent_changed_count _ _ (loginCommon_silent _ _ _ _ _ Hlogin)).
    split; [apply (loginCommon_refresh_globalState _ _ _ _ Hlogin)|].
    reflexivity.
  - intros [= <- <-]. auto.
Qed.

(** The pagination loop changes nothing but the trace. *)
Lemma selectAccount_pages_frame {E : Env} fuel bearer url resources w r w' :
  CloudAccount.selectAccount_pages fuel bearer url resources w = (r, w') ->
  accessToken w' = accessToken w /\ expiration w' = expiration w /\
  globalState w' = globalState w /\ secureStore w' = secureStore w.
Proof.
  revert url resources w.
  induction fuel as [|fuel IH]; intros url resources w;
    cbn [CloudAccount.selectAccount_pages]; run.
  - intros [= <- <-]. auto.
  - destruct (http_get_accounts _ _ _) as [page|]; cbn;
      [|intros [= <- <-]; auto].
    destruct (truthy _); [|intros [= <- <-]; auto].
    destruct (new_URL _) as [url'|]; [|intros [= <- <-]; auto].
    intros H. apply IH in H. exact H.
Qed.

Lemma try_finally_emit {A} (m : M A) w :
  try_finally m (emit "changed") w = notified (m w).
Proof.
  unfold try_finally, notified. destruct (m w) as [[a|e|] w1]; reflexivity.
Qed.

(** [selectAccount] by cases on its three steps. *)
Lemma selectAccount_eq {E : Env} fuel cb w :
  CloudAccount.selectAccount fuel cb w =
    match CloudAccount.getAccessToken false w with
    | (Return token, w1) =>
        match CloudAccount.selectAccount_pages fuel token ACCOUNTS_URL [] w1
        with
        | (Return resources, w2) =>
            notified (choose cb (map CloudAccount.account_of resources) w2)
        | (Throw e, w2) => (Throw e, log (EvEmit "changed") w2)
        | (Diverge, w2) => (Diverge, w2)
        end
    | (Throw e, w1) => (Throw e, log (EvEmit "changed") w1)
    | (Diverge, w1) => (Diverge, w1)
    end.
Proof.
  unfold CloudAccount.selectAccount. rewrite try_finally_emit.
  unfold bind at 1.
  destruct (CloudAccount.getAccessToken false w) as [[token|e|] w1];
    try reflexivity.
  unfold bind at 1.
  change (URL_at "/coe/v2/accounts" ACCOUNT_MANAGEMENT_URL) with ACCOUNTS_URL.
  destruct (CloudAccount.selectAccount_pages _ _ _ _ _)
    as [[resources|e|] w2]; reflexivity.
Qed.

(** The session a [getAccessToken] that returns leaves: the one it found
    when the token had its margin, the one the refresh exchange granted
    otherwise. *)
Lemma getAccessToken_Return_session {E : Env} accountRequired w token w1 :
  CloudAccount.getAccessToken accountRequired w = (Return token, w1) ->
  (60 <= expiration w - now (log GetRefreshToken w) -> same_state w w1) /\
  (expiration w - now (log GetRefreshToken w) < 60 ->
   exists tr url response body,
     http_post tr url (refresh_form w) = Resolve response /\
     starts_with_2 (js_number_string (Response.statusCode response)) = true /\
     Response.body response = Some body /\
     accessToken w1 = Response.access_token body /\
     expiration w1 = Response.expiration body /\
     stored_refreshToken w1 = Some (Response.refresh_token body)).
Proof.
  rewrite getAccessToken_eq.
  destruct (CloudAccount.loggedIn w) as [[[]|e|] w0] eqn:Hin;
    try discriminate.
  apply loggedIn_Return in Hin as [_ ->].
  destruct (accountRequired && negb _); [discriminate|].
  rewrite checkTokens_eq. change (expiration (log _ w)) with (expiration w).
  fold GetRefreshToken.
  destruct (_ <? 60) eqn:Hdelta.
  - apply Z.ltb_lt in Hdelta.
    destruct (CloudAccount.refreshTokens _) as [[[]|e|] w2] eqn:Href;
      try discriminate.
    intros [= <- <-]. split; [lia|]. intros _.
    destruct (refreshTokens_Return _ _ Href) as [_ Hlogin].
    destruct (loginCommon_Return _ _ _ _ Hlogin)
      as (url & response & body & Hpost & H2 & Hbody & Htok & Hexp & _ & Hs
          & _).
    change (refresh_form (log _ w)) with (refresh_form w) in *.
    eexists _, url, response, body.
    split; [exact Hpost|]. split; [exact H2|]. split; [exact Hbody|].
    split; [exact Htok|]. split; [exact Hexp|].
    unfold stored_refreshToken. cbn [secureStore log]. rewrite Hs.
    apply lookup_insert_eq.
  - apply Z.ltb_ge in Hdelta. intros [= <- <-].
    split; [intros _; repeat split | lia].
Qed.

(** C6, as amended.  A cancelled interactive step throws nothing and writes
    nothing of its own.  When the passcode callback of [loginWithSSO] yields
    no passcode ([undefined] or the empty string), the call returns false
    with access token, expiry, Memento and secure store as before.  When the
    chooser of [selectAccount] (asked because the listing does not have
    exactly one account) yields no account, the call returns false with the
    stored account id and email as before and with the session as the
    [getAccessToken] at its start left it.  That is the session as it was
    before the call when sixty seconds or more were left on the access
    token; when fewer were left, the session was refreshed first, and the
    access token, the expiry and the refresh token are those the refresh
    exchange granted. *)
Theorem cancellation_is_a_no_op {E : Env} :
  (forall cb w endpoint w1 passcode,
      CloudAccount.getPasscodeEndpoint w = (Return endpoint, w1) ->
      cb endpoint = Resolve passcode ->
      truthy passcode = false ->
      exists w',
        CloudAccount.loginWithSSO cb w = (Return false, w') /\
        accessToken w' = accessToken w /\ expiration w' = expiration w /\
        globalState w' = globalState w /\ secureStore w' = secureStore w) /\
  (forall fuel cb w token w1 resources w2,
      CloudAccount.getAccessToken false w = (Return token, w1) ->
      CloudAccount.selectAccount_pages fuel token ACCOUNTS_URL [] w1
        = (Return resources, w2) ->
      length resources <> 1%nat ->
      cb (map CloudAccount.account_of resources) = Resolve None ->
      exists w',
        CloudAccount.selectAccount fuel cb w = (Return false, w') /\
        stored_account w' = stored_account w /\
        stored_email w' = stored_email w /\
        same_state w1 w' /\
        (60 <= expiration w - now (log GetRefreshToken w) ->
         same_state w w') /\
        (expiration w - now (log GetRefreshToken w) < 60 ->
         exists tr url response body,
           http_post tr url (refresh_form w) = Resolve response /\
           starts_with_2 (js_number_string (Response.statusCode response))
             = true /\
           Response.body response = Some body /\
           accessToken w' = Response.access_token body /\
           expiration w' = Response.expiration body /\
           stored_refreshToken w' = Some (Response.refresh_token body))).
Proof.
  split.
  - intros cb w endpoint w1 passcode Hend Hcb Hfalsy.
    unfold CloudAccount.loginWithSSO. unfold try_finally, bind at 1.
    rewrite Hend. unfold bind, await. rewrite Hcb, Hfalsy. cbn.
    eexists. split; [reflexivity|].
    revert Hend.
    unfold CloudAccount.getPasscodeEndpoint,
      CloudAccount.getOpenIDConfiguration. run.
    destruct (http_get_configuration _ _); cbn; [|discriminate].
    destruct (new_URL _); intros [= <- <-]. auto.
  - intros fuel cb w token w1 resources w2 Htok Hpages Hlen Hcb.
    rewrite selectAccount_eq, Htok, Hpages.
    assert (Hcancel :
      choose cb (map CloudAccount.account_of resources) w2
        = (Return false,
           log (EvChoose (map CloudAccount.account_of resources)) w2)).
    { unfold choose.
      destruct (map CloudAccount.account_of resources) as [|a [|b l]] eqn:Hm;
        try (unfold bind, await; rewrite Hcb; reflexivity).
      apply (f_equal (@length _)) in Hm. rewrite length_map in Hm.
      cbn in Hm. congruence. }
    rewrite Hcancel. cbn. eexists. split; [reflexivity|].
    destruct (getAccessToken_Return _ _ _ _ Htok) as [Hg1 _].
    destruct (getAccessToken_Return_session _ _ _ _ Htok) as [Hfresh Hstale].
    destruct (selectAccount_pages_frame _ _ _ _ _ _ _ Hpages)
      as (Ha2 & He2 & Hg2 & Hs2).
    split; [unfold stored_account; cbn; rewrite Hg2, Hg1; reflexivity|].
    split; [unfold stored_email; cbn; rewrite Hg2, Hg1; reflexivity|].
    split; [repeat split; assumption|].
    split.
    + intros Hd. destruct (Hfresh Hd) as (Ha1 & He1 & Hg1' & Hs1).
      repeat split; cbn; congruence.
    + intros Hd.
      destruct (Hstale Hd)
        as (tr & url & response & body & Hpost & H2 & Hbody & Ha1 & He1 & Hr1).
      exists tr, url, response, body.
      split; [exact Hpost|]. split; [exact H2|]. split; [exact Hbody|].
      cbn. unfold stored_refreshToken in *. cbn. rewrite Ha2, He2, Hs2. auto.
Qed.

(** The counterexample to C6 as stated.  The access token has thirty
    seconds left when [selectAccount] is called and the user cancels the
    chooser: the call returns false, and the refresh token, the access token
    and the expiry are no longer those from before the call but those the
    refresh exchange of the nested [getAccessToken] granted. *)
Lemma cancelled_selection_after_refresh :
  exists w',
    CloudAccount.selectAccount
      (E := Scenario.accepting Scenario.three_pages) 3 Scenario.cancel
      (Scenario.signed_in 1000030) = (Return false, w') /\
    session (Scenario.signed_in 1000030)
      = (Some "r0", Some "guid-z", Some "z@example.com", Some "a0", 1000030) /\
    session w'
      = (Some "r1", Some "guid-z", Some "z@example.com", Some "a1", 1003600).
Proof.
  eexists. split; [vm_compute; reflexivity|]. split; reflexivity.
Qed.

Lemma cancellation_is_a_no_op_witness :
  exists w',
    CloudAccount.selectAccount
      (E := Scenario.accepting Scenario.three_pages) 3 Scenario.cancel
      (Scenario.signed_in 1003600) = (Return false, w') /\
    same_state (Scenario.signed_in 1003600) w'.
Proof.
  destruct (proj2 (cancellation_is_a_no_op
                     (E := Scenario.accepting Scenario.three_pages))
              3%nat Scenario.cancel (Scenario.signed_in 1003600)
              (Some "a0")
              (log (EvEmit "changed")
                 (log GetRefreshToken (Scenario.signed_in 1003600)))
              (Page.resources Scenario.page1 ++ Page.resources Scenario.page2
               ++ Page.resources Scenario.page3)
              (snd (CloudAccount.selectAccount_pages
                      (E := Scenario.accepting Scenario.three_pages) 3
                      (Some "a0") ACCOUNTS_URL []
                      (log (EvEmit "changed")
                         (log GetRefreshToken (Scenario.signed_in 1003600))))))
    as (w' & Hrun & _ & _ & _ & Hfresh & _).
  - vm_compute. reflexivity.
  - vm_compute. reflexivity.
  - cbn. lia.
  - reflexivity.
  - exists w'. split; [exact Hrun|]. apply Hfresh. vm_compute. discriminate.
Defined.

Lemma persist_not_choose {E : Env} selected :
  Advances not_choose (persist selected).
Proof. advance. Qed.

(** A refresh either returns in silence or throws after the notification
    of the forced logout. *)
Lemma refreshTokens_changed {E : Env} w r w' :
  CloudAccount.refreshTokens w = (r, w') ->
  (r = Return tt /\ changed_count (trace w') = changed_count (trace w)) \/
  ((exists e, r = Throw e) /\
   changed_count (trace w') = S (changed_count (trace w))).
Proof.
  unfold CloudAccount.refreshTokens, try_catch.
  match goal with
  | |- context [match ?m w with _ => _ end] =>
      assert (Hs : Advances silent m) by advance;
      destruct (m w) as [[[]|e|] w1] eqn:Hb
  end.
  - intros [= <- <-]. left. split; [reflexivity|].
    apply advances_silent_changed_count. eapply Hs, Hb.
  - unfold bind, throw.
    destruct (CloudAccount.logout w1) as [[[]|e'|] w2] eqn:Hl;
      intros [= <- <-]; destruct (logout_changed _ _ _ Hl) as [Hd Hc].
    + right. split; [eauto|]. rewrite Hc. f_equal.
      apply advances_silent_changed_count. eapply Hs, Hb.
    + right. split; [eauto|]. rewrite Hc. f_equal.
      apply advances_silent_changed_count. eapply Hs, Hb.
    + contradiction.
  - exfalso. eapply (refreshTokens_settles w).
    unfold CloudAccount.refreshTokens, try_catch. rewrite Hb. reflexivity.
Qed.

(** How [persist] can end. *)
Lemma persist_outcome {E : Env} selected w r w' :
  persist selected w = (r, w') ->
  (r = Return true /\
   globalState w' =
     <[EMAIL_KEY := email selected]>
       (<[ACCOUNT_KEY := guid selected]> (globalState w)) /\
   changed_count (trace w') = changed_count (trace w) /\
   exists evs,
     trace w' = evs ++ trace w /\
     Exists (refresh_exchange (Some (guid selected))) evs) \/
  ((exists e, r = Throw e) /\
   (changed_count (trace w') = changed_count (trace w) \/
    changed_count (trace w') = S (changed_count (trace w))) /\
   (reliable E -> r = Throw NOT_LOGGED_IN /\ logged_out w')).
Proof.
  unfold persist, CloudAccountStore.setAccount, CloudAccountStore.setEmail,
    Memento.update.
  unfold bind at 1. unfold await_store at 1.
  destruct (store_fault _ _) eqn:F1.
  { intros [= <- <-]. right. split; [eauto|]. split; [left; reflexivity|].
    intros HR. rewrite HR in F1. discriminate. }
  cbn. unfold bind at 1. unfold await_store at 1.
  destruct (store_fault _ (MementoUpdate EMAIL_KEY _)) eqn:F2.
  { intros [= <- <-]. right. split; [eauto|]. split; [left; reflexivity|].
    intros HR. rewrite HR in F2. discriminate. }
  cbn. unfold bind, ret.
  match goal with
  | |- context [CloudAccount.refreshTokens ?w2] => set (ws := w2)
  end.
  destruct (CloudAccount.refreshTokens ws) as [[[]|e|] w3] eqn:Href;
    intros [= <- <-].
  - left. split; [reflexivity|].
    destruct (refreshTokens_changed _ _ _ Href) as [[_ Hc]|[[e He] _]];
      [|discriminate].
    destruct (refreshTokens_Return _ _ Href) as [_ Hlogin].
    split; [exact (loginCommon_refresh_globalState _ _ _ _ Hlogin)|].
    split; [exact Hc|].
    destruct (loginCommon_Return _ _ _ _ Hlogin)
      as (url & response & body & _ & _ & _ & _ & _ & _ & _ & Htr).
    rewrite Htr. cbn.
    eexists [_; _; _; _; _; _]. split; [reflexivity|].
    apply Exists_cons_tl, Exists_cons_hd.
    exists url, (refresh_form ws). split; [reflexivity|].
    split; [reflexivity|]. cbn. unfold stored_account. cbn.
    rewrite lookup_insert_ne by done. rewrite lookup_insert_eq. reflexivity.
  - right. split; [eauto|].
    destruct (refreshTokens_changed _ _ _ Href) as [[He _]|[_ Hc]];
      [discriminate|].
    split; [right; exact Hc|].
    intros HR.
    assert (Hno : Throw e <> Return tt) by discriminate.
    destruct (refreshTokens_failure _ _ _ HR Href Hno) as (He & Hout & _).
    injection He as ->. split; [reflexivity | exact Hout].
  - exfalso. eapply (refreshTokens_settles ws). rewrite Href. reflexivity.
Qed.

Lemma truthy_nonempty s : s <> "" -> truthy (Some s) = true.
Proof. destruct s; [congruence | reflexivity]. Qed.

Lemma persist_settles {E : Env} selected : Settles (persist selected).
Proof. settle. Qed.

Lemma accountSelected_eq w :
  CloudAccount.accountSelected w = (Return (truthy (stored_account w)), w).
Proof. reflexivity. Qed.

(** [persist] by cases on its two writes. *)
Lemma persist_cases {E : Env} a w :
  match store_fault (trace w) (MementoUpdate ACCOUNT_KEY (Some (guid a))) with
  | Some e =>
      exists w', persist a w = (Throw e, w') /\
                 changed_count (trace w') = changed_count (trace w)
  | None =>
      match store_fault
              (EvStore (MementoUpdate ACCOUNT_KEY (Some (guid a))) :: trace w)
              (MementoUpdate EMAIL_KEY (Some (email a))) with
      | Some e =>
          exists w', persist a w = (Throw e, w') /\
                     changed_count (trace w') = changed_count (trace w)
      | None =>
          persist a w =
            match CloudAccount.refreshTokens (persisted a w) with
            | (Return _, w') => (Return true, w')
            | (Throw e, w') => (Throw e, w')
            | (Diverge, w') => (Diverge, w')
            end
      end
  end.
Proof.
  destruct (store_fault (trace w) _) eqn:F1.
  { unfold persist, CloudAccountStore.setAccount, Memento.update.
    unfold bind at 1. unfold await_store. rewrite F1.
    eexists; split; reflexivity. }
  destruct (store_fault (_ :: trace w) _) eqn:F2.
  { unfold persist, CloudAccountStore.setAccount, CloudAccountStore.setEmail,
      Memento.update.
    unfold bind at 1. unfold await_store at 1. rewrite F1. cbn.
    unfold bind at 1. unfold await_store at 1. cbn [trace log set_globalState].
    rewrite F2. eexists; split; reflexivity. }
  unfold persist, CloudAccountStore.setAccount, CloudAccountStore.setEmail,
    Memento.update.
  unfold bind at 1. unfold await_store at 1. rewrite F1. cbn.
  unfold bind at 1. unfold await_store at 1. cbn [trace log set_globalState].
  rewrite F2. cbn. unfold bind, ret.
  change (CloudAccount.refreshTokens _)
    with (CloudAccount.refreshTokens (persisted a w)).
  destruct (CloudAccount.refreshTokens (persisted a w)) as [[[]|e|] w'];
    reflexivity.
Qed.

(** The first thing [persist] does is to write the account id. *)
Lemma persist_writes_account {E : Env} a w r w' :
  persist a w = (r, w') ->
  exists evs,
    trace w' =
      evs ++ EvStore (MementoUpdate ACCOUNT_KEY (Some (guid a))) :: trace w.
Proof.
  unfold persist. unfold bind at 1.
  destruct (CloudAccountStore.setAccount (guid a) w) as [r1 w1] eqn:H1.
  assert (Htr : trace w1
                = EvStore (MementoUpdate ACCOUNT_KEY (Some (guid a)))
                  :: trace w).
  { revert H1. unfold CloudAccountStore.setAccount, Memento.update, await_store.
    destruct (store_fault _ _); intros [= <- <-]; reflexivity. }
  destruct r1 as [[]|e|]; try (intros [= <- <-]; exists []; exact Htr).
  match goal with
  | |- ?m w1 = _ -> _ =>
      assert (Hm : Advances (fun _ => True) m) by advance
  end.
  intros H. destruct (Hm _ _ _ H) as (evs & Hevs & _).
  exists evs. rewrite Hevs, Htr. reflexivity.
Qed.

(** C7, as amended.  When the fetched listing has exactly one account,
    [selectAccount] never calls the chooser and never returns false: the
    first thing it does after the listing is to write the id of that
    account.  When it returns true, the id and email of that account are in
    the Memento, a refresh exchange bound to that id was performed after the
    listing, and [accountSelected] returns true provided the id is not the
    empty string.  Over a store that works, id and email are both written
    and the refresh is forced in the session so persisted: when the
    environment lets that refresh succeed, [selectAccount] returns true with
    id and email persisted and [accountSelected] returns true; when it makes
    the refresh fail, the forced logout undoes the selection, the error is
    "not logged in", the session is the empty one and [accountSelected]
    returns false. *)
Theorem single_account_is_selected {E : Env} fuel cb w token w1 resource w2
  r w' :
  CloudAccount.getAccessToken false w = (Return token, w1) ->
  CloudAccount.selectAccount_pages fuel token ACCOUNTS_URL [] w1
    = (Return [resource], w2) ->
  CloudAccount.selectAccount fuel cb w = (r, w') ->
  let selected := CloudAccount.account_of resource in
  advances not_choose w w' /\
  r <> Return false /\
  (exists evs,
      trace w' =
        evs ++ EvStore (MementoUpdate ACCOUNT_KEY (Some (guid selected)))
            :: trace w2) /\
  (r = Return true ->
   stored_account w' = Some (guid selected) /\
   stored_email w' = Some (email selected) /\
   (exists evs,
       trace w' = evs ++ trace w2 /\
       Exists (refresh_exchange (Some (guid selected))) evs) /\
   (guid selected <> "" ->
    fst (CloudAccount.accountSelected w') = Return true)) /\
  (reliable E ->
   (exists evs, trace w' = evs ++ trace (persisted selected w2)) /\
   (refresh_succeeds (persisted selected w2) = true ->
    r = Return true /\
    stored_account w' = Some (guid selected) /\
    stored_email w' = Some (email selected) /\
    (guid selected <> "" ->
     fst (CloudAccount.accountSelected w') = Return true)) /\
   (refresh_succeeds (persisted selected w2) = false ->
    r = Throw NOT_LOGGED_IN /\ logged_out w' /\
    fst (CloudAccount.accountSelected w') = Return false)).
Proof.
  intros Htok Hpages Hsel selected.
  rewrite selectAccount_eq, Htok, Hpages in Hsel. cbn [map choose] in Hsel.
  fold selected in Hsel.
  destruct (persist selected w2) as [r0 w3] eqn:Hp.
  assert (Hadv : advances not_choose w w3).
  { eapply advances_trans; [eapply getAccessToken_not_choose, Htok|].
    eapply advances_trans; [eapply selectAccount_pages_not_choose, Hpages|].
    eapply persist_not_choose, Hp. }
  assert (Hr : r = r0 /\ w' = log (EvEmit "changed") w3).
  { destruct r0; cbn in Hsel; [by simplify_eq | by simplify_eq |].
    exfalso. eapply (persist_settles selected w2). rewrite Hp. reflexivity. }
  destruct Hr as [-> ->]. clear Hsel.
  split; [apply advances_log; [exact I | exact Hadv]|].
  assert (Hok : r0 = Return true ->
    stored_account (log (EvEmit "changed") w3) = Some (guid selected) /\
    stored_email (log (EvEmit "changed") w3) = Some (email selected) /\
    (exists evs,
        trace (log (EvEmit "changed") w3) = evs ++ trace w2 /\
        Exists (refresh_exchange (Some (guid selected))) evs) /\
    (guid selected <> "" ->
     fst (CloudAccount.accountSelected (log (EvEmit "changed") w3))
       = Return true)).
  { intros ->.
    destruct (persist_outcome _ _ _ _ Hp)
      as [(_ & Hg & _ & evs & Htr & Hex)|((e & He) & _)]; [|discriminate].
    assert (Ha : stored_account (log (EvEmit "changed") w3)
                 = Some (guid selected)).
    { unfold stored_account. cbn [globalState log]. rewrite Hg.
      rewrite lookup_insert_ne by done. apply lookup_insert_eq. }
    split; [exact Ha|].
    split; [unfold stored_email; cbn [globalState log]; rewrite Hg;
            apply lookup_insert_eq|].
    split.
    - exists (EvEmit "changed" :: evs). cbn. rewrite Htr.
      split; [reflexivity | apply Exists_cons_tl, Hex].
    - intros Hne.
      rewrite accountSelected_eq, Ha, (truthy_nonempty _ Hne). reflexivity. }
  split.
  { destruct (persist_outcome _ _ _ _ Hp) as [(-> & _)|((e & ->) & _)];
      discriminate. }
  split.
  { destruct (persist_writes_account _ _ _ _ Hp) as (evs & Htr).
    exists (EvEmit "changed" :: evs). cbn. rewrite Htr. reflexivity. }
  split; [exact Hok|].
  intros HR. pose proof (persist_cases selected w2) as Hcases.
  rewrite !HR in Hcases. rewrite Hcases in Hp.
  destruct (refresh_succeeds (persisted selected w2)) eqn:Hs.
  - destruct (refreshTokens_succeeds _ Hs) as (w4 & Href).
    rewrite Href in Hp. injection Hp as <- <-.
    destruct (refreshTokens_not_choose _ _ _ Href) as (evs & Htr & _).
    split; [exists (EvEmit "changed" :: evs); cbn; rewrite Htr; reflexivity|].
    split; [|discriminate]. intros _.
    destruct (Hok eq_refl) as (Ha & He & _ & Hsel). auto.
  - destruct (refreshTokens_forced_out _ Hs) as (e & w4 & Href & Hout & _).
    rewrite Href in Hp. injection Hp as <- <-.
    destruct (refreshTokens_not_choose _ _ _ Href) as (evs & Htr & _).
    split; [exists (EvEmit "changed" :: evs); cbn; rewrite Htr; reflexivity|].
    split; [discriminate|]. intros _.
    destruct Hout
      as (_ & _ & [(He & Hout & _)|(e' & tr & op & ns & _ & _ & Hf & _)]).
    2:{ rewrite HR in Hf. discriminate. }
    injection He as ->. split; [reflexivity|]. split; [exact Hout|].
    rewrite accountSelected_eq.
    unfold logged_out, session in Hout.
    assert (Hacc : stored_account w4 = None) by congruence.
    change (stored_account (log (EvEmit "changed") w4))
      with (stored_account w4).
    rewrite Hacc. reflexivity.
Qed.

(** The counterexample to C7 as stated.  The listing has exactly one
    account; it is selected and persisted, and then the provider rejects the
    forced refresh exchange: the session is logged out, [selectAccount]
    throws and [accountSelected] returns false. *)
Lemma single_account_refresh_rejected :
  exists w1 w2 w',
    CloudAccount.getAccessToken
      (E := Scenario.rejecting Scenario.one_account) false
      (Scenario.signed_in_no_account 1003600) = (Return (Some "a0"), w1) /\
    CloudAccount.selectAccount_pages
      (E := Scenario.rejecting Scenario.one_account) 3 (Some "a0")
      ACCOUNTS_URL [] w1 = (Return [Scenario.resource "a"], w2) /\
    CloudAccount.selectAccount
      (E := Scenario.rejecting Scenario.one_account) 3 Scenario.cancel
      (Scenario.signed_in_no_account 1003600) = (Throw NOT_LOGGED_IN, w') /\
    fst (CloudAccount.accountSelected w') = Return false.
Proof.
  eexists _, _, _.
  split; [vm_compute; reflexivity|].
  split; [vm_compute; reflexivity|].
  split; [vm_compute; reflexivity|].
  reflexivity.
Qed.

Lemma single_account_is_selected_witness :
  fst (CloudAccount.selectAccount
         (E := Scenario.accepting Scenario.one_account) 3 Scenario.cancel
         (Scenario.signed_in_no_account 1003600)) = Return true /\
  stored_account
    (snd (CloudAccount.selectAccount
            (E := Scenario.accepting Scenario.one_account) 3 Scenario.cancel
            (Scenario.signed_in_no_account 1003600))) = Some "guid-a" /\
  fst (CloudAccount.accountSelected
         (snd (CloudAccount.selectAccount
                 (E := Scenario.accepting Scenario.one_account) 3
                 Scenario.cancel (Scenario.signed_in_no_account 1003600))))
    = Return true.
Proof.
  destruct (single_account_is_selected
              (E := Scenario.accepting Scenario.one_account) 3
              Scenario.cancel (Scenario.signed_in_no_account 1003600)
              (Some "a0")
              (log (EvEmit "changed")
                 (log GetRefreshToken (Scenario.signed_in_no_account 1003600)))
              (Scenario.resource "a")
              (log (EvGetAccounts ACCOUNTS_URL (Some "a0"))
                 (log (EvEmit "changed")
                    (log GetRefreshToken
                       (Scenario.signed_in_no_account 1003600))))
              _ _
              ltac:(vm_compute; reflexivity) ltac:(vm_compute; reflexivity)
              (surjective_pairing _))
    as (_ & _ & _ & _ & Hrel).
  destruct Hrel as (_ & Hok & _); [intros tr op; reflexivity|].
  destruct Hok as (Hr & Ha & _ & Hsel); [vm_compute; reflexivity|].
  split; [exact Hr|]. split; [exact Ha|]. apply Hsel. discriminate.
Defined.

(** ** Pagination *)

(** Given enough fuel for its pages, a paginated listing is fetched whole:
    one request per page, the resources appended in page order. *)
Lemma selectAccount_pages_complete {E : Env} bearer listing :
  forall fuel url page rest resources w,
    listing = (url, page) :: rest ->
    paginated bearer (trace w) listing ->
    (length listing <= fuel)%nat ->
    exists w',
      CloudAccount.selectAccount_pages fuel bearer url resources w
        = (Return (resources ++ listed listing), w') /\
      trace w' = rev (map (page_request bearer) listing) ++ trace w.
Proof.
  induction listing as [|[url0 page0] rest0 IH];
    intros fuel url page rest resources w Heq Hpag Hfuel; [discriminate|].
  injection Heq as -> -> ->.
  destruct fuel as [|fuel]; [cbn in Hfuel; lia|].
  cbn [paginated] in Hpag. destruct Hpag as [Hget Hnext].
  cbn [CloudAccount.selectAccount_pages]. unfold bind at 1.
  unfold rp_get_accounts, await. rewrite Hget. cbv zeta.
  destruct rest as [|[next page'] rest'].
  - rewrite Hnext. eexists. split.
    + unfold ret, listed. cbn. rewrite app_nil_r. reflexivity.
    + reflexivity.
  - destruct Hnext as (Htruthy & Hurl & Hrest). rewrite Htruthy.
    unfold bind, URL. rewrite Hurl.
    destruct (IH fuel next page' rest' (resources ++ Page.resources page)
                (log (EvGetAccounts url bearer) w) eq_refl Hrest)
      as (w' & Hrun & Htr).
    { cbn in Hfuel |- *. lia. }
    exists w'. split.
    + rewrite Hrun. unfold listed. cbn. rewrite <- app_assoc. reflexivity.
    + rewrite Htr. cbn. rewrite <- !app_assoc. reflexivity.
Qed.

Lemma choose_invokes {E : Env} cb accounts w r w' :
  length accounts <> 1%nat ->
  choose cb accounts w = (r, w') ->
  exists evs, trace w' = evs ++ trace w /\ In (EvChoose accounts) evs.
Proof.
  intros Hlen.
  assert (Hrun :
    choose cb accounts w =
      (selectedAccount <- await (EvChoose accounts) (cb accounts) ;;
       match selectedAccount with
       | None => ret false
       | Some selectedAccount => persist selectedAccount
       end)%async w).
  { destruct accounts as [|a [|b l]]; try reflexivity. cbn in Hlen. lia. }
  rewrite Hrun. unfold bind, await.
  destruct (cb accounts) as [[selected|]|e].
  - intros Hp. destruct (persist_not_choose _ _ _ _ Hp) as (evs & Htr & _).
    exists (evs ++ [EvChoose accounts]). rewrite Htr. cbn.
    rewrite <- app_assoc. split; [reflexivity|].
    apply in_or_app. right. left. reflexivity.
  - intros [= <- <-]. exists [EvChoose accounts]. split; [reflexivity|].
    left. reflexivity.
  - intros [= <- <-]. exists [EvChoose accounts]. split; [reflexivity|].
    left. reflexivity.
Qed.

Lemma notified_trace {A} (settled : Outcome A * World) r w' :
  notified settled = (r, w') ->
  exists evs, trace w' = evs ++ trace (snd settled).
Proof.
  destruct settled as [[a|e|] w]; intros [= <- <-];
    solve [exists [EvEmit "changed"]; reflexivity | exists []; reflexivity].
Qed.

(** C8.  When the provider serves a chain of pages, the first at the
    accounts address and each next one at the address the page before names
    in [next_url], the last naming none, then, given fuel for that many
    requests, the loop of [selectAccount] requests exactly these pages in
    order and returns their resources appended in page order; and when that
    is not exactly one account, the chooser is called with all of them, in
    that order. *)
Theorem pagination_is_complete {E : Env} fuel cb w token w1 first rest :
  let listing := (ACCOUNTS_URL, first) :: rest in
  CloudAccount.getAccessToken false w = (Return token, w1) ->
  paginated token (trace w1) listing ->
  (length listing <= fuel)%nat ->
  (exists w2,
      CloudAccount.selectAccount_pages fuel token ACCOUNTS_URL [] w1
        = (Return (listed listing), w2) /\
      trace w2 = rev (map (page_request token) listing) ++ trace w1) /\
  (length (listed listing) <> 1%nat ->
   forall r w',
     CloudAccount.selectAccount fuel cb w = (r, w') ->
     exists evs,
       trace w' = evs ++ trace w /\
       In (EvChoose (map CloudAccount.account_of (listed listing))) evs).
Proof.
  intros listing Htok Hpag Hfuel.
  destruct (selectAccount_pages_complete token listing fuel ACCOUNTS_URL
              first rest [] w1 eq_refl Hpag Hfuel) as (w2 & Hrun & Htr).
  cbn [app] in Hrun.
  split; [exists w2; auto|].
  intros Hlen r w'. rewrite selectAccount_eq, Htok, Hrun.
  destruct (choose cb _ w2) as [r0 w3] eqn:Hch. intros Hn.
  apply notified_trace in Hn as (evs3 & Htr3). cbn [snd] in Htr3.
  apply choose_invokes in Hch as (evs2 & Htr2 & Hin);
    [|rewrite length_map; exact Hlen].
  destruct (getAccessToken_not_choose _ _ _ _ Htok) as (evs1 & Htr1 & _).
  exists (evs3 ++ evs2 ++ rev (map (page_request token) listing) ++ evs1).
  split.
  - rewrite Htr3, Htr2, Htr, Htr1, <- !app_assoc. reflexivity.
  - apply in_or_app. right. apply in_or_app. left. exact Hin.
Qed.

Lemma pagination_is_complete_witness :
  exists evs,
    trace (snd (CloudAccount.selectAccount
                  (E := Scenario.accepting Scenario.three_pages) 3
                  Scenario.pick_second (Scenario.signed_in 1003600)))
      = evs ++ trace (Scenario.signed_in 1003600) /\
    In (EvChoose
          [Scenario.account "a"; Scenario.account "b"; Scenario.account "c";
           Scenario.account "d"; Scenario.account "e"; Scenario.account "f"])
       evs.
Proof.
  refine (proj2 (pagination_is_complete
                   (E := Scenario.accepting Scenario.three_pages) 3
                   Scenario.pick_second (Scenario.signed_in 1003600)
                   (Some "a0")
                   (log (EvEmit "changed")
                      (log GetRefreshToken (Scenario.signed_in 1003600)))
                   Scenario.page1
                   [(Scenario.second_page_url, Scenario.page2);
                    (Scenario.third_page_url, Scenario.page3)]
                   _ _ _) _ _ _ (surjective_pairing _)).
  - vm_compute. reflexivity.
  - cbn. repeat split.
  - cbn. lia.
  - cbn. lia.
Defined.

(** ** Notifications *)

Lemma notifies_finally {A} (m : M A) :
  Advances silent m -> notifies (try_finally m (emit "changed")) once.
Proof.
  intros Hs w r w'. rewrite try_finally_emit.
  destruct (m w) as [r0 w1] eqn:Hm. apply Hs in Hm.
  apply advances_silent_changed_count in Hm.
  destruct r0; cbn; intros [= <- <-] Hr; try contradiction;
    (split; [eauto|]); exists 1%nat; cbn; rewrite Hm; split; reflexivity.
Qed.

Lemma checkTokens_changed {E : Env} w r w' :
  CloudAccount.checkTokens w = (r, w') ->
  (r = Return tt /\ changed_count (trace w') = changed_count (trace w)) \/
  ((exists e, r = Throw e) /\
   changed_count (trace w') = S (changed_count (trace w))).
Proof.
  rewrite checkTokens_eq. destruct (_ <? 60).
  - apply refreshTokens_changed.
  - intros [= <- <-]. auto.
Qed.

(** Close a path that ends with the one notification of the call itself. *)
Ltac counted :=
  intros [= <- <-]; cbn; split; [eauto|]; split; [reflexivity | discriminate].

(** The notifications of [getAccessToken], counted. *)
Lemma getAccessToken_changed {E : Env} accountRequired w r w' :
  CloudAccount.getAccessToken accountRequired w = (r, w') ->
  (exists tr, trace w' = EvEmit "changed" :: tr) /\
  changed_count (trace w') =
    ((if refresh_fails_in accountRequired w then 2 else 1)
     + changed_count (trace w))%nat /\
  (refresh_fails_in accountRequired w = true -> exists e, r = Throw e).
Proof.
  rewrite getAccessToken_eq, loggedIn_eq. unfold refresh_fails_in.
  destruct (store_fault (trace w) _) eqn:Hf.
  { rewrite bool_decide_eq_false_2 by discriminate. cbn.
    counted. }
  rewrite bool_decide_eq_true_2 by reflexivity. cbn [andb].
  destruct (truthy (stored_refreshToken w)); cbn [andb].
  2:{ counted. }
  change (stored_account (log _ w)) with (stored_account w).
  destruct (accountRequired && negb (truthy (stored_account w)));
    cbn [negb andb].
  { counted. }
  rewrite checkTokens_eq. change (expiration (log _ w)) with (expiration w).
  fold GetRefreshToken.
  destruct (_ <? 60); cbn [andb].
  2:{ counted. }
  destruct (refresh_succeeds (log GetRefreshToken w)) eqn:Hs; cbn [negb].
  - destruct (refreshTokens_succeeds _ Hs) as (w2 & Href). rewrite Href.
    destruct (refreshTokens_changed _ _ _ Href) as [[_ Hc]|[[e He] _]];
      [|discriminate].
    intros [= <- <-]. cbn. rewrite Hc. cbn.
    split; [eauto|]. split; [reflexivity | discriminate].
  - destruct (refreshTokens_forced_out _ Hs) as (e & w2 & Href & _ & Hc).
    rewrite Href. intros [= <- <-]. cbn. rewrite Hc. cbn.
    split; [eauto|]. split; [reflexivity | eauto].
Qed.

(** The notifications of [getRefreshToken], counted. *)
Lemma getRefreshToken_changed {E : Env} accountRequired w r w' :
  CloudAccount.getRefreshToken accountRequired w = (r, w') ->
  (exists tr, trace w' = EvEmit "changed" :: tr) /\
  changed_count (trace w') =
    ((if refresh_fails_in accountRequired w then 2 else 1)
     + changed_count (trace w))%nat /\
  (refresh_fails_in accountRequired w = true -> exists e, r = Throw e).
Proof.
  rewrite getRefreshToken_eq, loggedIn_eq. unfold refresh_fails_in.
  destruct (store_fault (trace w) _) eqn:Hf.
  { rewrite bool_decide_eq_false_2 by discriminate. cbn.
    counted. }
  rewrite bool_decide_eq_true_2 by reflexivity. cbn [andb].
  destruct (truthy (stored_refreshToken w)); cbn [andb].
  2:{ counted. }
  change (stored_account (log _ w)) with (stored_account w).
  destruct (accountRequired && negb (truthy (stored_account w)));
    cbn [negb andb].
  { counted. }
  rewrite checkTokens_eq. change (expiration (log _ w)) with (expiration w).
  fold GetRefreshToken.
  destruct (_ <? 60); cbn [andb].
  2:{ cbv iota beta.
      destruct (store_fault (trace (log _ _)) _); intros [= <- <-]; cbn;
      (split; [eauto|]; split; [reflexivity | discriminate]). }
  destruct (refresh_succeeds (log GetRefreshToken w)) eqn:Hs; cbn [negb].
  - destruct (refreshTokens_succeeds _ Hs) as (w2 & Href). rewrite Href.
    destruct (refreshTokens_changed _ _ _ Href) as [[_ Hc]|[[e He] _]];
      [|discriminate].
    destruct (store_fault (trace w2) _); intros [= <- <-]; cbn; rewrite Hc;
      cbn;
      (split; [eauto|]; split; [reflexivity | discriminate]).
  - destruct (refreshTokens_forced_out _ Hs) as (e & w2 & Href & _ & Hc).
    rewrite Href. intros [= <- <-]. cbn. rewrite Hc. cbn.
    split; [eauto|]. split; [reflexivity | eauto].
Qed.

Lemma choose_selected {E : Env} cb accounts w a w3 :
  selection cb accounts w = Some (a, w3) ->
  choose cb accounts w = persist a w3 /\
  changed_count (trace w3) = changed_count (trace w).
Proof.
  unfold selection, choose.
  destruct accounts as [|a0 [|b l]].
  - unfold bind, await. destruct (cb []) as [[s|]|e]; intros [= <- <-]; auto.
  - intros [= <- <-]. auto.
  - unfold bind, await. destruct (cb _) as [[s|]|e]; intros [= <- <-]; auto.
Qed.

Lemma choose_not_selected {E : Env} cb accounts w r w' :
  selection cb accounts w = None ->
  choose cb accounts w = (r, w') ->
  r <> Diverge /\ changed_count (trace w') = changed_count (trace w).
Proof.
  unfold selection, choose.
  destruct accounts as [|a0 [|b l]]; try discriminate;
    unfold bind, await; destruct (cb _) as [[s|]|e]; try discriminate;
    intros _ [= <- <-]; split; solve [discriminate | reflexivity].
Qed.

(** The notifications of [selectAccount], counted: three when the
    environment makes a refresh fail, and then the call throws; two
    otherwise. *)
Lemma selectAccount_changed {E : Env} fuel cb w r w' :
  CloudAccount.selectAccount fuel cb w = (r, w') -> r <> Diverge ->
  (exists tr, trace w' = EvEmit "changed" :: tr) /\
  ((refresh_fails_in_selectAccount fuel cb w /\
    changed_count (trace w') = (3 + changed_count (trace w))%nat /\
    exists e, r = Throw e) \/
   (~ refresh_fails_in_selectAccount fuel cb w /\
    changed_count (trace w') = (2 + changed_count (trace w))%nat)).
Proof.
  rewrite selectAccount_eq.
  destruct (CloudAccount.getAccessToken false w) as [r1 w1] eqn:Htok.
  destruct (getAccessToken_changed _ _ _ _ Htok) as (_ & Hc1 & Hthrow).
  destruct r1 as [token|e|].
  - (* a token was obtained *)
    destruct (refresh_fails_in false w) eqn:Hfirst.
    { destruct (Hthrow eq_refl) as [e He]. discriminate. }
    destruct (CloudAccount.selectAccount_pages _ _ _ _ _) as [r2 w2] eqn:Hpg.
    pose proof (advances_silent_changed_count _ _
                  (selectAccount_pages_silent _ _ _ _ _ _ _ Hpg)) as Hc2.
    destruct r2 as [resources|e|].
    + destruct (choose cb _ w2) as [r3 w3] eqn:Hch.
      destruct (selection cb (map CloudAccount.account_of resources) w2)
        as [[a ws0]|] eqn:Hsel.
      * destruct (choose_selected _ _ _ _ _ Hsel) as [Hp Hc3].
        rewrite Hp in Hch. pose proof (persist_cases a ws0) as Hcases.
        destruct (store_fault (trace ws0) _) as [e1|] eqn:F1.
        { destruct Hcases as (w4 & Hp4 & Hc4). rewrite Hp4 in Hch.
          injection Hch as <- <-. cbn. intros [= <- <-] _. split; [eauto|].
          right. split.
          - intros [Hf|(ws & (t & v1 & rs & v2 & a' & v3 & H1 & H2 & H3 & H4 & _) & _)];
              [congruence|].
            rewrite Htok in H1. injection H1 as <- <-.
            rewrite Hpg in H2. injection H2 as <- <-.
            rewrite Hsel in H3. injection H3 as <- <-. congruence.
          - cbn. rewrite Hc4, Hc3, Hc2, Hc1. reflexivity. }
        destruct (store_fault (_ :: trace ws0) _) as [e2|] eqn:F2.
        { destruct Hcases as (w4 & Hp4 & Hc4). rewrite Hp4 in Hch.
          injection Hch as <- <-. cbn. intros [= <- <-] _. split; [eauto|].
          right. split.
          - intros [Hf|(ws & (t & v1 & rs & v2 & a' & v3 & H1 & H2 & H3 & _ & H5 & _) & _)];
              [congruence|].
            rewrite Htok in H1. injection H1 as <- <-.
            rewrite Hpg in H2. injection H2 as <- <-.
            rewrite Hsel in H3. injection H3 as <- <-. congruence.
          - cbn. rewrite Hc4, Hc3, Hc2, Hc1. reflexivity. }
        rewrite Hcases in Hch.
        destruct (refresh_succeeds (persisted a ws0)) eqn:Hs.
        -- destruct (refreshTokens_succeeds _ Hs) as (w4 & Href).
           rewrite Href in Hch. injection Hch as <- <-.
           destruct (refreshTokens_changed _ _ _ Href) as [[_ Hc4]|[[e He] _]];
             [|discriminate].
           cbn. intros [= <- <-] _. split; [eauto|]. right. split.
           ++ intros [Hf|(ws & (t & v1 & rs & v2 & a' & v3 & H1 & H2 & H3 & _ & _ & ->) & Hno)];
                [congruence|].
              rewrite Htok in H1. injection H1 as <- <-.
              rewrite Hpg in H2. injection H2 as <- <-.
              rewrite Hsel in H3. injection H3 as <- <-. congruence.
           ++ cbn. rewrite Hc4. cbn. rewrite Hc3, Hc2, Hc1. reflexivity.
        -- destruct (refreshTokens_forced_out _ Hs) as (e & w4 & Href & _ & Hc4).
           rewrite Href in Hch. injection Hch as <- <-.
           cbn. intros [= <- <-] _. split; [eauto|]. left. split.
           ++ right. exists (persisted a ws0). split; [|exact Hs].
              exists token, w1, resources, w2, a, ws0. auto 10.
           ++ split; [|eauto]. cbn. rewrite Hc4. cbn.
              rewrite Hc3, Hc2, Hc1. reflexivity.
      * destruct (choose_not_selected _ _ _ _ _ Hsel Hch) as [Hd Hc3].
        intros Hn _. split.
        { destruct r3; cbn in Hn; injection Hn as <- <-; eauto; contradiction. }
        right. split.
        -- intros [Hf|(ws & (t & v1 & rs & v2 & a' & v3 & H1 & H2 & H3 & _) & _)];
             [congruence|].
           rewrite Htok in H1. injection H1 as <- <-.
           rewrite Hpg in H2. injection H2 as <- <-. congruence.
        -- destruct r3; cbn in Hn; injection Hn as <- <-; cbn;
             try contradiction; rewrite Hc3, Hc2, Hc1; reflexivity.
    + intros [= <- <-] _. split; [eauto|]. right. split.
      * intros [Hf|(ws & (t & v1 & rs & v2 & a' & v3 & H1 & H2 & _) & _)];
          [congruence|].
        rewrite Htok in H1. injection H1 as <- <-. congruence.
      * cbn. rewrite Hc2, Hc1. reflexivity.
    + intros [= <- <-] Hr. contradiction.
  - intros [= <- <-] _. split; [eauto|].
    destruct (refresh_fails_in false w) eqn:Hfirst.
    + left. split; [left; exact Hfirst|]. split; [|eauto].
      cbn. rewrite Hc1. reflexivity.
    + right. split.
      * intros [Hf|(ws & (t & v1 & rs & v2 & a' & v3 & H1 & _) & _)];
          congruence.
      * cbn. rewrite Hc1. reflexivity.
  - intros [= <- <-] Hr. contradiction.
Qed.

(** C10, as amended.  Every public operation with a [finally] that emits
    ends each path on which it settles with a ['changed'] notification of
    its own, and the nested public operations add theirs.  The three logins
    and [logout] always settle and emit exactly one.  [getAccessToken] and
    [getRefreshToken] always settle; they emit exactly two when the call
    gets as far as the refresh and the environment makes the refresh fail
    (the forced [logout] emits too, and the call throws), and exactly one
    otherwise.  [selectAccount] emits exactly three when the environment
    makes a refresh fail during the call, that of the [getAccessToken] it
    starts with or the one it forces after the selection, and the call then
    throws; it emits exactly two otherwise, its own and that of that
    [getAccessToken]. *)
Theorem changed_notifications {E : Env} :
  (forall username password,
      Settles (CloudAccount.loginWithUsernameAndPassword username password) /\
      notifies (CloudAccount.loginWithUsernameAndPassword username password)
        once) /\
  (forall apikey,
      Settles (CloudAccount.loginWithApiKey apikey) /\
      notifies (CloudAccount.loginWithApiKey apikey) once) /\
  (forall cb,
      Settles (CloudAccount.loginWithSSO cb) /\
      notifies (CloudAccount.loginWithSSO cb) once) /\
  (Settles CloudAccount.logout /\ notifies CloudAccount.logout once) /\
  (forall accountRequired,
      Settles (CloudAccount.getAccessToken accountRequired) /\
      notifies_exactly (CloudAccount.getAccessToken accountRequired)
        (fun w => if refresh_fails_in accountRequired w then 2 else 1)%nat /\
      forall w,
        refresh_fails_in accountRequired w = true ->
        exists e,
          fst (CloudAccount.getAccessToken accountRequired w) = Throw e) /\
  (forall accountRequired,
      Settles (CloudAccount.getRefreshToken accountRequired) /\
      notifies_exactly (CloudAccount.getRefreshToken accountRequired)
        (fun w => if refresh_fails_in accountRequired w then 2 else 1)%nat /\
      forall w,
        refresh_fails_in accountRequired w = true ->
        exists e,
          fst (CloudAccount.getRefreshToken accountRequired w) = Throw e) /\
  (forall fuel cb w r w',
      CloudAccount.selectAccount fuel cb w = (r, w') -> r <> Diverge ->
      (exists tr, trace w' = EvEmit "changed" :: tr) /\
      ((refresh_fails_in_selectAccount fuel cb w /\
        changed_count (trace w') = (3 + changed_count (trace w))%nat /\
        exists e, r = Throw e) \/
       (~ refresh_fails_in_selectAccount fuel cb w /\
        changed_count (trace w') = (2 + changed_count (trace w))%nat))).
Proof.
  split; [|split; [|split; [|split; [|split; [|split]]]]].
  - intros username password. split; [settle|].
    apply notifies_finally. advance.
  - intros apikey. split; [settle|]. apply notifies_finally. advance.
  - intros cb. split; [settle|]. apply notifies_finally. advance.
  - split; [settle|]. apply notifies_finally. advance.
  - intros accountRequired. split; [apply getAccessToken_settles|]. split.
    + intros w r w' H _.
      destruct (getAccessToken_changed _ _ _ _ H) as (Hlast & Hc & _). auto.
    + intros w Hf.
      destruct (CloudAccount.getAccessToken accountRequired w) as [r w'] eqn:H.
      destruct (getAccessToken_changed _ _ _ _ H) as (_ & _ & Hthrow). auto.
  - intros accountRequired. split; [apply getRefreshToken_settles|]. split.
    + intros w r w' H _.
      destruct (getRefreshToken_changed _ _ _ _ H) as (Hlast & Hc & _). auto.
    + intros w Hf.
      destruct (CloudAccount.getRefreshToken accountRequired w) as [r w'] eqn:H.
      destruct (getRefreshToken_changed _ _ _ _ H) as (_ & _ & Hthrow). auto.
  - apply selectAccount_changed.
Qed.

(** The counterexample to C10 as stated.  The user cancels the chooser:
    [selectAccount] returns false, the session is what it was, and two
    notifications were emitted, one by the nested [getAccessToken] and one
    by [selectAccount] itself. *)
Lemma cancelled_selection_notifies_twice :
  exists w',
    CloudAccount.selectAccount
      (E := Scenario.accepting Scenario.three_pages) 3 Scenario.cancel
      (Scenario.signed_in 1003600) = (Return false, w') /\
    session w' = session (Scenario.signed_in 1003600) /\
    changed_count (trace (Scenario.signed_in 1003600)) = 0%nat /\
    changed_count (trace w') = 2%nat.
Proof.
  eexists. split; [vm_compute; reflexivity|]. repeat split.
Qed.

Lemma changed_notifications_witness :
  changed_count
    (trace (snd (CloudAccount.getAccessToken
                   (E := Scenario.rejecting Scenario.three_pages) true
                   (Scenario.signed_in 1000030)))) = 2%nat /\
  changed_count
    (trace (snd (CloudAccount.getAccessToken
                   (E := Scenario.accepting Scenario.three_pages) true
                   (Scenario.signed_in 1000030)))) = 1%nat.
Proof.
  split.
  - refine (proj2 (proj1 (proj2 (proj1 (proj2 (proj2 (proj2 (proj2
              (changed_notifications
                 (E := Scenario.rejecting Scenario.three_pages)))))) true))
              (Scenario.signed_in 1000030) _ _ (surjective_pairing _) _)).
    vm_compute. discriminate.
  - refine (proj2 (proj1 (proj2 (proj1 (proj2 (proj2 (proj2 (proj2
              (changed_notifications
                 (E := Scenario.accepting Scenario.three_pages)))))) true))
              (Scenario.signed_in 1000030) _ _ (surjective_pairing _) _)).
    vm_compute. discriminate.
Defined.

(** * Further properties *)

(** ** The store *)

(** Over a store that works, what [setAccount], [setEmail] or
    [setRefreshToken] stored is what the matching getter returns next, and
    the other two values are as before: the three live under different
    keys. *)
Theorem set_then_get {E : Env} (w : World) :
  reliable E ->
  (forall account,
      let w' := snd (CloudAccountStore.setAccount account w) in
      fst (CloudAccountStore.setAccount account w) = Return tt /\
      fst (CloudAccountStore.getAccount w') = Return (Some account) /\
      fst (CloudAccountStore.getEmail w') = fst (CloudAccountStore.getEmail w) /\
      fst (CloudAccountStore.getRefreshToken w')
        = fst (CloudAccountStore.getRefreshToken w)) /\
  (forall email,
      let w' := snd (CloudAccountStore.setEmail email w) in
      fst (CloudAccountStore.setEmail email w) = Return tt /\
      fst (CloudAccountStore.getEmail w') = Return (Some email) /\
      fst (CloudAccountStore.getAccount w')
        = fst (CloudAccountStore.getAccount w) /\
      fst (CloudAccountStore.getRefreshToken w')
        = fst (CloudAccountStore.getRefreshToken w)) /\
  (forall refreshToken,
      let w' := snd (CloudAccountStore.setRefreshToken refreshToken w) in
      fst (CloudAccountStore.setRefreshToken refreshToken w) = Return tt /\
      fst (CloudAccountStore.getRefreshToken w') = Return (Some refreshToken) /\
      fst (CloudAccountStore.getAccount w')
        = fst (CloudAccountStore.getAccount w) /\
      fst (CloudAccountStore.getEmail w') = fst (CloudAccountStore.getEmail w)).
Proof.
  intros HR. split; [|split]; intros v; run; trust HR.
  - rewrite lookup_insert_eq, lookup_insert_ne by done. auto.
  - rewrite lookup_insert_eq, lookup_insert_ne by done. auto.
  - rewrite lookup_insert_eq. auto.
Qed.

Lemma set_then_get_witness :
  fst (CloudAccountStore.getAccount
         (snd (CloudAccountStore.setAccount
                 (E := Scenario.accepting Scenario.three_pages) "guid-a"
                 (Scenario.signed_in 1003600))))
    = Return (Some "guid-a") /\
  fst (CloudAccountStore.getEmail
         (snd (CloudAccountStore.setAccount
                 (E := Scenario.accepting Scenario.three_pages) "guid-a"
                 (Scenario.signed_in 1003600))))
    = Return (Some "z@example.com").
Proof.
  destruct (proj1 (set_then_get
                     (E := Scenario.accepting Scenario.three_pages)
                     (Scenario.signed_in 1003600)
                     ltac:(intros tr op; reflexivity)) "guid-a")
    as (_ & Hget & Hemail & _).
  split; [exact Hget | rewrite Hemail; reflexivity].
Defined.

(** Over a store that works, after [deleteAccount], [deleteEmail] or
    [deleteRefreshToken] the matching getter returns [undefined], the other
    two values are as before, and deleting what is not there changes
    nothing. *)
Theorem delete_then_get {E : Env} (w : World) :
  reliable E ->
  (let w' := snd (CloudAccountStore.deleteAccount w) in
   fst (CloudAccountStore.deleteAccount w) = Return tt /\
   fst (CloudAccountStore.getAccount w') = Return None /\
   fst (CloudAccountStore.getEmail w') = fst (CloudAccountStore.getEmail w) /\
   fst (CloudAccountStore.getRefreshToken w')
     = fst (CloudAccountStore.getRefreshToken w) /\
   (stored_account w = None -> globalState w' = globalState w)) /\
  (let w' := snd (CloudAccountStore.deleteEmail w) in
   fst (CloudAccountStore.deleteEmail w) = Return tt /\
   fst (CloudAccountStore.getEmail w') = Return None /\
   fst (CloudAccountStore.getAccount w')
     = fst (CloudAccountStore.getAccount w) /\
   fst (CloudAccountStore.getRefreshToken w')
     = fst (CloudAccountStore.getRefreshToken w) /\
   (stored_email w = None -> globalState w' = globalState w)) /\
  (let w' := snd (CloudAccountStore.deleteRefreshToken w) in
   fst (CloudAccountStore.deleteRefreshToken w) = Return tt /\
   fst (CloudAccountStore.getRefreshToken w') = Return None /\
   fst (CloudAccountStore.getAccount w')
     = fst (CloudAccountStore.getAccount w) /\
   fst (CloudAccountStore.getEmail w') = fst (CloudAccountStore.getEmail w) /\
   (stored_refreshToken w = None -> secureStore w' = secureStore w)).
Proof.
  intros HR. split; [|split]; run; trust HR.
  - rewrite lookup_delete_eq, lookup_delete_ne by done.
    repeat split. apply delete_id.
  - rewrite lookup_delete_eq, lookup_delete_ne by done.
    repeat split. apply delete_id.
  - rewrite lookup_delete_eq. repeat split. apply delete_id.
Qed.

Lemma delete_then_get_witness :
  fst (CloudAccountStore.getRefreshToken
         (E := Scenario.accepting Scenario.three_pages)
         (snd (CloudAccountStore.deleteRefreshToken
                 (E := Scenario.accepting Scenario.three_pages)
                 (Scenario.signed_in 1003600))))
    = Return None.
Proof.
  apply (proj2 (proj2 (delete_then_get
                         (E := Scenario.accepting Scenario.three_pages)
                         (Scenario.signed_in 1003600)
                         ltac:(intros tr op; reflexivity)))).
Defined.

(** ** The answer of the token endpoint *)

Lemma status_classes_checked :
  forallb
    (fun k =>
       Bool.eqb
         (starts_with_2 (js_number_string (N.of_nat k)))
         ((200 <=? k)%nat && (k <=? 299)%nat))
    (seq 100 900) = true.
Proof. vm_compute. reflexivity. Qed.

(** For a three-digit status code, the test [/^2/] of [loginCommon] accepts
    exactly the codes 200 to 299. *)
Theorem success_is_2xx (statusCode : N) :
  (100 <= statusCode <= 999)%N ->
  starts_with_2 (js_number_string statusCode) = true <->
  (200 <= statusCode <= 299)%N.
Proof.
  intros Hrange.
  pose proof status_classes_checked as H.
  rewrite forallb_forall in H.
  specialize (H (N.to_nat statusCode)).
  rewrite N2Nat.id in H.
  assert (Hin : In (N.to_nat statusCode) (seq 100 900)) by (apply in_seq; lia).
  apply H, Bool.eqb_prop in Hin. rewrite Hin.
  rewrite andb_true_iff, !Nat.leb_le. lia.
Qed.

Lemma success_is_2xx_witness :
  starts_with_2 (js_number_string 204) = true <-> (200 <= 204 <= 299)%N.
Proof. apply (success_is_2xx 204). lia. Defined.

(** ** Logins that fail *)

Lemma same_state_refl w : same_state w w.
Proof. repeat split. Qed.

Lemma same_state_log ev w w' : same_state w w' -> same_state w (log ev w').
Proof. intros H. exact H. Qed.

Lemma loginCommon_Throw {E : Env} form refresh w e w' :
  reliable E ->
  CloudAccount.loginCommon form refresh w = (Throw e, w') ->
  same_state w w'.
Proof.
  intros HR.
  unfold CloudAccount.loginCommon, CloudAccount.getTokenEndpoint,
    CloudAccount.getOpenIDConfiguration, CloudAccount.body_of.
  run.
  destruct (http_get_configuration _ _) as [cfg|]; cbn;
    [|intros [= <- <-]; repeat split].
  destruct (new_URL _) as [url|]; [|intros [= <- <-]; repeat split].
  destruct (http_post _ _ _) as [response|]; cbn;
    [|intros [= <- <-]; repeat split].
  destruct (starts_with_2 _), (Response.body response); cbn;
    try (intros [= <- <-]; repeat split).
  destruct refresh; cbn; trust HR; discriminate.
Qed.

(** When the token endpoint answers with a status that is not 2xx,
    [loginCommon] throws, having done nothing but the two requests: the
    tokens in memory and both stores are as before, and no store operation
    was attempted.  For an answer with a body the error is the one made from
    that body and the status; for an answer without a body it is the
    [TypeError] of reading [errorCode] of [undefined]. *)
Theorem rejected_grant {E : Env} form refresh w configuration url response :
  http_get_configuration (trace w) CONFIGURATION_URL = Resolve configuration ->
  new_URL (token_endpoint configuration) = Resolve url ->
  http_post (EvGetConfiguration CONFIGURATION_URL :: trace w) url form
    = Resolve response ->
  starts_with_2 (js_number_string (Response.statusCode response)) = false ->
  exists w',
    CloudAccount.loginCommon form refresh w
      = (Throw
           match Response.body response with
           | Some body =>
               CloudAccount.response_error (Response.statusCode response) body
           | None => TypeError_undefined "errorCode"
           end, w') /\
    same_state w w' /\
    trace w'
      = EvPost url form :: EvGetConfiguration CONFIGURATION_URL :: trace w.
Proof.
  intros Hcfg Hurl Hpost H2.
  unfold CloudAccount.loginCommon, CloudAccount.getTokenEndpoint,
    CloudAccount.getOpenIDConfiguration, CloudAccount.body_of.
  unfold CONFIGURATION_URL in *. run.
  rewrite Hcfg. cbn. rewrite Hurl. cbn [trace log]. rewrite Hpost. cbn.
  rewrite H2. cbn.
  destruct (Response.body response); cbn;
    (eexists; split; [reflexivity|]; split; [repeat split | reflexivity]).
Qed.

(** An answer without a body: the error is the [TypeError], not a message
    made from the answer. *)
Example rejected_grant_without_body :
  fst (CloudAccount.loginCommon (E := Fixture.bad_gateway)
         [("grant_type", Some "password"); ("username", Some "u");
          ("password", Some "p")] false Scenario.signed_out)
  = Throw "Cannot read property 'errorCode' of undefined".
Proof. vm_compute. reflexivity. Qed.

Lemma rejected_grant_witness :
  exists w',
    CloudAccount.loginCommon
      (E := Scenario.rejecting Scenario.three_pages)
      [("grant_type", Some "urn:ibm:params:oauth:grant-type:apikey");
       ("apikey", Some "k1")] false (Scenario.signed_in 1003600)
      = (Throw "BXNIM0408E: Provided refresh_token is expired", w') /\
    same_state (Scenario.signed_in 1003600) w' /\
    trace w'
      = EvPost "https://iam.cloud.ibm.com/identity/token"
          [("grant_type", Some "urn:ibm:params:oauth:grant-type:apikey");
           ("apikey", Some "k1")]
        :: EvGetConfiguration CONFIGURATION_URL
        :: trace (Scenario.signed_in 1003600).
Proof.
  apply (rejected_grant (E := Scenario.rejecting Scenario.three_pages)
           _ false (Scenario.signed_in 1003600) Scenario.configuration
           "https://iam.cloud.ibm.com/identity/token" Scenario.rejected);
    reflexivity.
Defined.

(** Over a store that works, a primary login that throws leaves the session
    it found: access token, expiry, account id, email and refresh token are
    as before, so a failed login does not log out. *)
Theorem failed_login_keeps_session {E : Env} :
  reliable E ->
  (forall username password w e w',
      CloudAccount.loginWithUsernameAndPassword username password w
        = (Throw e, w') ->
      same_state w w') /\
  (forall apikey w e w',
      CloudAccount.loginWithApiKey apikey w = (Throw e, w') ->
      same_state w w') /\
  (forall cb w e w',
      CloudAccount.loginWithSSO cb w = (Throw e, w') ->
      same_state w w').
Proof.
  intros HR. split; [|split].
  - intros username password w e w'.
    unfold CloudAccount.loginWithUsernameAndPassword.
    rewrite try_finally_emit. unfold bind.
    destruct (CloudAccount.loginCommon _ _ _) as [[[]|e0|] w1] eqn:H;
      cbn; intros [= <- <-].
    apply same_state_log, (loginCommon_Throw _ _ _ _ _ HR H).
  - intros apikey w e w'. unfold CloudAccount.loginWithApiKey.
    rewrite try_finally_emit. unfold bind.
    destruct (CloudAccount.loginCommon _ _ _) as [[[]|e0|] w1] eqn:H;
      cbn; intros [= <- <-].
    apply same_state_log, (loginCommon_Throw _ _ _ _ _ HR H).
  - intros cb w e w'.
    unfold CloudAccount.loginWithSSO, CloudAccount.getPasscodeEndpoint,
      CloudAccount.getOpenIDConfiguration.
    rewrite try_finally_emit. run.
    destruct (http_get_configuration _ _) as [cfg|]; cbn;
      [|intros [= <- <-]; repeat split].
    destruct (new_URL _) as [endpoint|]; cbn;
      [|intros [= <- <-]; repeat split].
    destruct (cb endpoint) as [passcode|]; cbn;
      [|intros [= <- <-]; repeat split].
    destruct (truthy passcode); cbn; [|discriminate].
    destruct (CloudAccount.loginCommon _ _ _) as [[[]|e0|] w1] eqn:H;
      cbn; intros [= <- <-].
    apply (loginCommon_Throw _ _ _ _ _ HR) in H. exact H.
Qed.

Lemma failed_login_keeps_session_witness :
  same_state (Scenario.signed_in 1003600)
    (snd (CloudAccount.loginWithApiKey
            (E := Scenario.rejecting Scenario.three_pages) "k1"
            (Scenario.signed_in 1003600))).
Proof.
  apply (proj1 (proj2 (failed_login_keeps_session
                         (E := Scenario.rejecting Scenario.three_pages)
                         ltac:(intros tr op; reflexivity)))
           "k1" (Scenario.signed_in 1003600)
           "BXNIM0408E: Provided refresh_token is expired").
  vm_compute. reflexivity.
Defined.

(** ** Where credentials go *)

Lemma loginCommon_login_event {E : Env} form refresh :
  Advances (login_event form) (CloudAccount.loginCommon form refresh).
Proof.
  intros w r w'.
  unfold CloudAccount.loginCommon, CloudAccount.getTokenEndpoint,
    CloudAccount.getOpenIDConfiguration.
  unfold bind at 1. unfold bind at 1. unfold rp_get_configuration, await.
  change (URL_at _ IAM_URL) with CONFIGURATION_URL.
  destruct (http_get_configuration (trace w) CONFIGURATION_URL)
    as [cfg|e] eqn:Hcfg.
  2:{ intros [= <- <-]. apply advances_log; [exact I | apply advances_refl]. }
  unfold URL. destruct (new_URL (token_endpoint cfg)) as [url|e] eqn:Hurl.
  2:{ intros [= <- <-]. apply advances_log; [exact I | apply advances_refl]. }
  intros H.
  apply advances_trans with (log (EvGetConfiguration CONFIGURATION_URL) w);
    [apply advances_log; [exact I | apply advances_refl] |].
  revert H.
  match goal with
  | |- ?m ?w0 = _ -> _ =>
      assert (Hm : Advances (login_event form) m); [|exact (Hm w0 r w')]
  end.
  apply Advances_bind.
  - apply Advances_rp_post. split; [reflexivity|]. exists (trace w), cfg. auto.
  - intros response. advance.
Qed.

(** However a primary login ends, every form it posts is the one of its
    grant (the grant type of the method with the credentials given) and goes
    to the token endpoint of a configuration document the provider served;
    the logins by password and by API key ask no callback, and the login by
    single sign-on asks its callback only at a discovered passcode endpoint
    and posts the passcode the callback gave.  No login lists accounts. *)
Theorem credentials_go_to_the_token_endpoint {E : Env} :
  (forall username password,
      Advances
        (login_event [("grant_type", Some "password");
                      ("username", Some username);
                      ("password", Some password)])
        (CloudAccount.loginWithUsernameAndPassword username password)) /\
  (forall apikey,
      Advances
        (login_event [("grant_type",
                       Some "urn:ibm:params:oauth:grant-type:apikey");
                      ("apikey", Some apikey)])
        (CloudAccount.loginWithApiKey apikey)) /\
  (forall cb, Advances (sso_event cb) (CloudAccount.loginWithSSO cb)).
Proof.
  split; [|split].
  - intros username password. unfold CloudAccount.loginWithUsernameAndPassword.
    apply Advances_try_finally; [|advance].
    apply Advances_bind; [apply loginCommon_login_event | intros; advance].
  - intros apikey. unfold CloudAccount.loginWithApiKey.
    apply Advances_try_finally; [|advance].
    apply Advances_bind; [apply loginCommon_login_event | intros; advance].
  - intros cb. unfold CloudAccount.loginWithSSO.
    apply Advances_try_finally; [|advance].
    intros w r w'.
    unfold CloudAccount.getPasscodeEndpoint,
      CloudAccount.getOpenIDConfiguration.
    unfold bind at 1. unfold bind at 1. unfold rp_get_configuration, await.
    change (URL_at _ IAM_URL) with CONFIGURATION_URL.
    destruct (http_get_configuration (trace w) CONFIGURATION_URL)
      as [cfg|e] eqn:Hcfg.
    2:{ intros [= <- <-].
        apply advances_log; [exact I | apply advances_refl]. }
    unfold URL.
    destruct (new_URL (passcode_endpoint cfg)) as [endpoint|e] eqn:Hurl.
    2:{ intros [= <- <-].
        apply advances_log; [exact I | apply advances_refl]. }
    unfold bind at 1. unfold await.
    assert (Hev : advances (sso_event cb) w
                    (log (EvPasscode endpoint)
                       (log (EvGetConfiguration CONFIGURATION_URL) w))).
    { apply advances_log; [exists (trace w), cfg; auto|].
      apply advances_log; [exact I | apply advances_refl]. }
    destruct (cb endpoint) as [passcode|e] eqn:Hcb;
      [|intros [= <- <-]; exact Hev].
    destruct passcode as [[|c s]|]; unfold truthy; cbn [negb];
      try (intros [= <- <-]; exact Hev).
    unfold bind, ret.
    destruct (CloudAccount.loginCommon _ _ _) as [r0 w1] eqn:Hlogin.
    intros H. apply loginCommon_login_event in Hlogin.
    assert (Hadv : advances (sso_event cb) w w1).
    { eapply advances_trans; [exact Hev|].
      eapply advances_weaken; [|exact Hlogin].
      intros [] Hev'; cbn in *; try contradiction; try exact I.
      destruct Hev' as [-> Hd]. split; [exact Hd|]. eauto. }
    destruct r0; injection H as <- <-; exact Hadv.
Qed.

Lemma credentials_go_to_the_token_endpoint_witness :
  advances
    (login_event (E := Scenario.accepting Scenario.three_pages)
       [("grant_type", Some "urn:ibm:params:oauth:grant-type:apikey");
        ("apikey", Some "k1")])
    Scenario.signed_out
    (snd (CloudAccount.loginWithApiKey
            (E := Scenario.accepting Scenario.three_pages) "k1"
            Scenario.signed_out)).
Proof.
  eapply (proj1 (proj2 (credentials_go_to_the_token_endpoint
                          (E := Scenario.accepting Scenario.three_pages)))
            "k1" Scenario.signed_out).
  apply surjective_pairing.
Defined.

(** ** Right after a login *)

Lemma logged_in_by_replaced {E : Env} w w' :
  logged_in_by w w' -> replaced_session w w'.
Proof.
  intros [(username & password & H)|[(apikey & H)|(cb & H)]]; revert H.
  - unfold CloudAccount.loginWithUsernameAndPassword. run.
    destruct (CloudAccount.loginCommon _ _ _) as [[[]|e|] w1] eqn:H;
      intros [= <-].
    exact (loginCommon_primary _ _ _ H).
  - unfold CloudAccount.loginWithApiKey. run.
    destruct (CloudAccount.loginCommon _ _ _) as [[[]|e|] w1] eqn:H;
      intros [= <-].
    exact (loginCommon_primary _ _ _ H).
  - unfold CloudAccount.loginWithSSO, CloudAccount.getPasscodeEndpoint,
      CloudAccount.getOpenIDConfiguration. run.
    destruct (http_get_configuration _ _) as [cfg|]; cbn; [|discriminate].
    destruct (new_URL _) as [endpoint|]; [|discriminate].
    destruct (cb endpoint) as [passcode|]; [|discriminate].
    destruct (truthy passcode); cbn; [|discriminate].
    destruct (CloudAccount.loginCommon _ _ _) as [[[]|e|] w1] eqn:H;
      intros [= <-].
    eapply replaced_session_later; [|exact (loginCommon_primary _ _ _ H)].
    eexists [_; _]. split; [reflexivity | repeat constructor].
Qed.

(** Over a store that works, right after a primary login that returned true
    with a non-empty refresh token: [loggedIn] returns true,
    [accountSelected] false, [getAccount] and [getEmail] [undefined];
    [getAccessToken] and [getRefreshToken] with an account required throw
    the "no account selected" error; and [getAccessToken(false)] returns the
    granted token without another exchange when it has the margin. *)
Theorem after_login {E : Env} w w' :
  reliable E ->
  logged_in_by w w' ->
  truthy (stored_refreshToken w') = true ->
  fst (CloudAccount.loggedIn w') = Return true /\
  fst (CloudAccount.accountSelected w') = Return false /\
  fst (CloudAccount.getAccount w') = Return None /\
  fst (CloudAccount.getEmail w') = Return None /\
  fst (CloudAccount.getAccessToken true w') = Throw NO_ACCOUNT_SELECTED /\
  fst (CloudAccount.getRefreshToken true w') = Throw NO_ACCOUNT_SELECTED /\
  (60 <= expiration w' - now (log GetRefreshToken w') ->
   CloudAccount.getAccessToken false w'
     = (Return (accessToken w'),
        log (EvEmit "changed") (log GetRefreshToken w'))).
Proof.
  intros HR Hlogin Hrt.
  apply logged_in_by_replaced in Hlogin as (Ha & He & _).
  rewrite getAccessToken_eq, getRefreshToken_eq, getAccessToken_eq.
  rewrite loggedIn_eq, HR, Hrt, accountSelected_eq, Ha.
  change (stored_account (log _ w')) with (stored_account w'). rewrite Ha.
  cbn [fst andb negb].
  change (truthy None) with false. cbn [negb fst].
  split; [reflexivity|]. split; [reflexivity|].
  split; [exact (f_equal Return Ha)|]. split; [exact (f_equal Return He)|].
  split; [reflexivity|]. split; [reflexivity|].
  intros Hfresh.
  rewrite checkTokens_eq.
  apply Z.ltb_ge in Hfresh. unfold GetRefreshToken in *.
  change (expiration (log _ w')) with (expiration w').
  rewrite Hfresh. reflexivity.
Qed.

Lemma after_login_witness :
  fst (CloudAccount.getAccessToken
         (E := Scenario.accepting Scenario.three_pages) true
         (snd (CloudAccount.loginWithApiKey
                 (E := Scenario.accepting Scenario.three_pages) "k1"
                 (Scenario.signed_in 1003600))))
    = Throw NO_ACCOUNT_SELECTED /\
  fst (CloudAccount.getAccessToken
         (E := Scenario.accepting Scenario.three_pages) false
         (snd (CloudAccount.loginWithApiKey
                 (E := Scenario.accepting Scenario.three_pages) "k1"
                 (Scenario.signed_in 1003600))))
    = Return (Some "a1").
Proof.
  destruct (after_login (E := Scenario.accepting Scenario.three_pages)
              (Scenario.signed_in 1003600)
              (snd (CloudAccount.loginWithApiKey
                      (E := Scenario.accepting Scenario.three_pages) "k1"
                      (Scenario.signed_in 1003600))))
    as (_ & _ & _ & _ & Hreq & _ & Hfresh).
  - intros tr op. reflexivity.
  - right. left. exists "k1". vm_compute. reflexivity.
  - reflexivity.
  - split; [exact Hreq|]. rewrite Hfresh; [reflexivity|].
    vm_compute. discriminate.
Defined.

(** ** The timer *)

Lemma checkTokens_settles {E : Env} : Settles CloudAccount.checkTokens.
Proof.
  intros w. rewrite checkTokens_eq.
  destruct (_ <? 60); [apply refreshTokens_settles | discriminate].
Qed.

(** One run of the timer callback never throws.  It emits no notification,
    or the one of a forced logout.  Over a store that works it does nothing
    but look up the refresh token when the session is logged out or the
    token has the margin, and when it did notify, the session is the empty
    one. *)
Theorem background_check {E : Env} w r w' :
  constructor_interval w = (r, w') ->
  r = Return tt /\
  (changed_count (trace w') = changed_count (trace w) \/
   changed_count (trace w') = S (changed_count (trace w))) /\
  (reliable E ->
   (truthy (stored_refreshToken w) = false -> w' = log GetRefreshToken w) /\
   (60 <= expiration w - now (log GetRefreshToken w) ->
    w' = log GetRefreshToken w) /\
   (changed_count (trace w') <> changed_count (trace w) -> logged_out w')).
Proof.
  unfold constructor_interval, try_catch, bind, when, ret.
  destruct (CloudAccount.loggedIn w) as [r0 w1] eqn:Hin.
  pose proof (advances_silent_changed_count _ _ (loggedIn_silent _ _ _ Hin))
    as Hc1.
  assert (Hrel : reliable E ->
                 r0 = Return (truthy (stored_refreshToken w)) /\
                 w1 = log GetRefreshToken w).
  { intros HR. rewrite loggedIn_eq, HR in Hin. by simplify_eq. }
  destruct r0 as [[]|e|].
  - destruct (CloudAccount.checkTokens w1) as [r2 w2] eqn:Hcheck.
    destruct (checkTokens_changed _ _ _ Hcheck) as [[-> Hc2]|[[e ->] Hc2]];
      intros [= <- <-]; (split; [reflexivity|]).
    + split; [left; congruence|]. intros HR.
      destruct (Hrel HR) as [Hb ->].
      split; [intros Hf; rewrite Hf in Hb; discriminate|].
      split; [|intros Hne; congruence].
      intros Hfresh. rewrite checkTokens_eq in Hcheck.
      apply Z.ltb_ge in Hfresh. unfold GetRefreshToken in *.
      change (expiration (log _ w)) with (expiration w) in Hcheck.
      rewrite Hfresh in Hcheck. by simplify_eq.
    + split; [right; congruence|]. intros HR.
      destruct (Hrel HR) as [Hb ->].
      rewrite checkTokens_eq in Hcheck.
      split; [intros Hf; rewrite Hf in Hb; discriminate|].
      split.
      * intros Hfresh. apply Z.ltb_ge in Hfresh. unfold GetRefreshToken in *.
        change (expiration (log _ w)) with (expiration w) in Hcheck.
        rewrite Hfresh in Hcheck. discriminate.
      * intros _. destruct (_ <? 60); [|discriminate].
        assert (Hno : Throw e <> Return tt) by discriminate.
        apply (refreshTokens_failure _ _ _ HR Hcheck Hno).
  - intros [= <- <-]. split; [reflexivity|]. split; [left; exact Hc1|].
    intros HR. destruct (Hrel HR) as [_ ->].
    split; [reflexivity|]. split; [reflexivity|]. intros Hne. contradiction.
  - intros [= <- <-]. split; [reflexivity|]. split; [left; exact Hc1|].
    intros HR. destruct (Hrel HR) as [? _]. discriminate.
  - exfalso. apply (f_equal fst) in Hin. cbn in Hin.
    rewrite loggedIn_eq in Hin. destruct (store_fault _ _); discriminate.
Qed.

Lemma background_check_witness :
  fst (constructor_interval (E := Scenario.rejecting Scenario.three_pages)
         (Scenario.signed_in 1000030)) = Return tt /\
  logged_out
    (snd (constructor_interval (E := Scenario.rejecting Scenario.three_pages)
            (Scenario.signed_in 1000030))).
Proof.
  destruct (constructor_interval _) as [r w'] eqn:H.
  destruct (background_check
              (E := Scenario.rejecting Scenario.three_pages) _ r w' H)
    as (Hr & _ & Hrel).
  split; [exact Hr|].
  apply (f_equal snd) in H. cbn [snd] in H. subst w'.
  apply Hrel; [intros tr op; reflexivity|].
  vm_compute. discriminate.
Defined.

(** ** A refresh without a refresh token *)

(** Over a store that works, [refreshTokens] in a session without a refresh
    token sends no request: it looks the token up, logs out, and throws the
    "not logged in" error. *)
Theorem refresh_without_token {E : Env} w :
  reliable E ->
  truthy (stored_refreshToken w) = false ->
  exists w',
    CloudAccount.refreshTokens w = (Throw NOT_LOGGED_IN, w') /\
    logged_out w' /\
    trace w'
      = EvEmit "changed" :: Delete3 :: Delete2 :: Delete1
        :: GetRefreshToken :: trace w.
Proof.
  intros HR Hrt. unfold CloudAccount.refreshTokens. run. trust HR.
  fold (stored_refreshToken w). rewrite Hrt. cbn.
  rewrite logout_reliable by exact HR. eexists.
  split; [reflexivity|]. split; [apply cleared_logged_out | reflexivity].
Qed.

Lemma refresh_without_token_witness :
  exists w',
    CloudAccount.refreshTokens (E := Scenario.accepting Scenario.three_pages)
      Scenario.signed_out = (Throw NOT_LOGGED_IN, w') /\
    logged_out w' /\
    trace w'
      = EvEmit "changed" :: Delete3 :: Delete2 :: Delete1
        :: GetRefreshToken :: trace Scenario.signed_out.
Proof.
  apply (refresh_without_token
           (E := Scenario.accepting Scenario.three_pages)
           Scenario.signed_out).
  - intros tr op. reflexivity.
  - reflexivity.
Defined.

(** ** Selecting an account: picks and failures *)

Lemma choose_Return_true {E : Env} cb accounts w w' :
  choose cb accounts w = (Return true, w') ->
  exists selected,
    (accounts = [selected] \/
     (length accounts <> 1%nat /\ cb accounts = Resolve (Some selected))) /\
    globalState w' =
      <[EMAIL_KEY := email selected]>
        (<[ACCOUNT_KEY := guid selected]> (globalState w)) /\
    exists evs,
      trace w' = evs ++ trace w /\
      Exists (refresh_exchange (Some (guid selected))) evs.
Proof.
  assert (Hp : forall selected w0,
    persist selected w0 = (Return true, w') ->
    globalState w' =
      <[EMAIL_KEY := email selected]>
        (<[ACCOUNT_KEY := guid selected]> (globalState w0)) /\
    exists evs,
      trace w' = evs ++ trace w0 /\
      Exists (refresh_exchange (Some (guid selected))) evs).
  { intros selected w0 H.
    destruct (persist_outcome _ _ _ _ H)
      as [(_ & Hg & _ & Hev)|((e & He) & _)]; [auto | discriminate]. }
  assert (Hask : length accounts <> 1%nat ->
    (selectedAccount <- await (EvChoose accounts) (cb accounts) ;;
     match selectedAccount with
     | None => ret false
     | Some selectedAccount => persist selectedAccount
     end)%async w = (Return true, w') ->
    exists selected,
      (accounts = [selected] \/
       (length accounts <> 1%nat /\ cb accounts = Resolve (Some selected))) /\
      globalState w' =
        <[EMAIL_KEY := email selected]>
          (<[ACCOUNT_KEY := guid selected]> (globalState w)) /\
      exists evs,
        trace w' = evs ++ trace w /\
        Exists (refresh_exchange (Some (guid selected))) evs).
  { intros Hlen. unfold bind, await.
    destruct (cb accounts) as [[selected|]|e] eqn:Hcb; try discriminate.
    intros H. apply Hp in H as (Hg & evs & Htr & Hex).
    exists selected. split; [right; auto|]. split; [exact Hg|].
    exists (evs ++ [EvChoose accounts]). split.
    - rewrite Htr, <- app_assoc. reflexivity.
    - apply Exists_app. left. exact Hex. }
  unfold choose. destruct accounts as [|a [|b l]].
  - apply Hask. cbn. lia.
  - intros H. exists a. split; [left; reflexivity | apply Hp, H].
  - apply Hask. cbn. lia.
Qed.

(** When [selectAccount] returns true, one account was selected, the only
    one of the listing or the one the chooser returned; [getAccount] and
    [getEmail] then return its id and its email, and a refresh exchange
    bound to its id was performed after the listing. *)
Theorem chosen_account_is_persisted {E : Env} fuel cb w token w1 resources
  w2 w' :
  CloudAccount.getAccessToken false w = (Return token, w1) ->
  CloudAccount.selectAccount_pages fuel token ACCOUNTS_URL [] w1
    = (Return resources, w2) ->
  CloudAccount.selectAccount fuel cb w = (Return true, w') ->
  let accounts := map CloudAccount.account_of resources in
  exists selected,
    (accounts = [selected] \/
     (length accounts <> 1%nat /\ cb accounts = Resolve (Some selected))) /\
    fst (CloudAccount.getAccount w') = Return (Some (guid selected)) /\
    fst (CloudAccount.getEmail w') = Return (Some (email selected)) /\
    exists evs,
      trace w' = evs ++ trace w2 /\
      Exists (refresh_exchange (Some (guid selected))) evs.
Proof.
  intros Htok Hpages Hsel accounts.
  rewrite selectAccount_eq, Htok, Hpages in Hsel. fold accounts in Hsel.
  destruct (choose cb accounts w2) as [[[]|e|] w3] eqn:Hch;
    cbn in Hsel; try discriminate.
  injection Hsel as <-.
  apply choose_Return_true in Hch
    as (selected & Hhow & Hg & evs & Htr & Hex).
  exists selected. split; [exact Hhow|].
  unfold CloudAccount.getAccount, CloudAccount.getEmail. run. rewrite Hg.
  rewrite lookup_insert_ne, !lookup_insert_eq by done.
  split; [reflexivity|]. split; [reflexivity|].
  exists (EvEmit "changed" :: evs). rewrite Htr.
  split; [reflexivity | apply Exists_cons_tl, Hex].
Qed.

Lemma chosen_account_is_persisted_witness :
  exists selected,
    fst (CloudAccount.getAccount
           (snd (CloudAccount.selectAccount
                   (E := Scenario.accepting Scenario.three_pages) 3
                   Scenario.pick_second (Scenario.signed_in 1003600))))
      = Return (Some (guid selected)) /\
    In selected [Scenario.account "b"].
Proof.
  destruct (chosen_account_is_persisted
              (E := Scenario.accepting Scenario.three_pages) 3
              Scenario.pick_second (Scenario.signed_in 1003600)
              (Some "a0") _
              (Page.resources Scenario.page1 ++ Page.resources Scenario.page2
               ++ Page.resources Scenario.page3) _
              (snd (CloudAccount.selectAccount
                      (E := Scenario.accepting Scenario.three_pages) 3
                      Scenario.pick_second (Scenario.signed_in 1003600)))
              ltac:(vm_compute; reflexivity) ltac:(vm_compute; reflexivity)
              ltac:(vm_compute; reflexivity))
    as (selected & Hhow & Ha & _).
  exists selected. split; [exact Ha|].
  destruct Hhow as [Hone|[_ Hcb]]; [discriminate|].
  injection Hcb as <-. left. reflexivity.
Defined.

(** With the chooser of the extension, whatever the quick pick resolves to,
    a [selectAccount] that returns true has stored the id and the owner of
    one of the resources that were listed. *)
Theorem extension_selects_a_listed_account {E : Env} fuel showQuickPick w
  token w1 resources w2 w' :
  CloudAccount.getAccessToken false w = (Return token, w1) ->
  CloudAccount.selectAccount_pages fuel token ACCOUNTS_URL [] w1
    = (Return resources, w2) ->
  CloudAccount.selectAccount fuel
    (Extension.selectAccountCommon_cb showQuickPick) w = (Return true, w') ->
  exists resource,
    In resource resources /\
    stored_account w'
      = Some (Resource.guid (Resource.metadata resource)) /\
    stored_email w'
      = Some (Resource.owner_userid (Resource.entity resource)).
Proof.
  intros Htok Hpages Hsel.
  rewrite selectAccount_eq, Htok, Hpages in Hsel.
  destruct (choose _ _ w2) as [[[]|e|] w3] eqn:Hch;
    cbn in Hsel; try discriminate.
  injection Hsel as <-.
  apply choose_Return_true in Hch as (selected & Hhow & Hg & _).
  assert (Hin : In selected (map CloudAccount.account_of resources)).
  { destruct Hhow as [Heq|[_ Hcb]].
    - rewrite Heq. left. reflexivity.
    - unfold Extension.selectAccountCommon_cb in Hcb.
      destruct (showQuickPick _) as [[item|]|]; try discriminate.
      injection Hcb as Hnth. eapply nth_error_In, Hnth. }
  apply in_map_iff in Hin as (resource & <- & Hin).
  exists resource. split; [exact Hin|].
  unfold stored_account, stored_email. cbn [globalState log]. rewrite Hg.
  rewrite lookup_insert_ne, !lookup_insert_eq by done. split; reflexivity.
Qed.

Lemma extension_selects_a_listed_account_witness :
  exists resource,
    In resource
      (Page.resources Scenario.page1 ++ Page.resources Scenario.page2
       ++ Page.resources Scenario.page3) /\
    stored_account
      (snd (CloudAccount.selectAccount
              (E := Scenario.accepting Scenario.three_pages) 3
              (Extension.selectAccountCommon_cb Fixture.pick_third)
              (Scenario.signed_in 1003600)))
      = Some (Resource.guid (Resource.metadata resource)).
Proof.
  destruct (extension_selects_a_listed_account
              (E := Scenario.accepting Scenario.three_pages) 3
              Fixture.pick_third (Scenario.signed_in 1003600)
              (Some "a0") _
              (Page.resources Scenario.page1 ++ Page.resources Scenario.page2
               ++ Page.resources Scenario.page3) _
              (snd (CloudAccount.selectAccount
                      (E := Scenario.accepting Scenario.three_pages) 3
                      (Extension.selectAccountCommon_cb Fixture.pick_third)
                      (Scenario.signed_in 1003600)))
              ltac:(vm_compute; reflexivity) ltac:(vm_compute; reflexivity)
              ltac:(vm_compute; reflexivity))
    as (resource & Hin & Ha & _).
  exists resource. split; [exact Hin | exact Ha].
Defined.

Lemma getAccessToken_Throw {E : Env} accountRequired w e w' :
  reliable E ->
  CloudAccount.getAccessToken accountRequired w = (Throw e, w') ->
  globalState w' = globalState w \/ (e = NOT_LOGGED_IN /\ logged_out w').
Proof.
  intros HR. rewrite getAccessToken_eq, loggedIn_eq, HR.
  destruct (truthy _); [|intros [= <- <-]; left; reflexivity].
  destruct (accountRequired && negb _); [intros [= <- <-]; left; reflexivity|].
  destruct (CloudAccount.checkTokens _) as [[[]|e0|] w2] eqn:Hcheck;
    intros H; try discriminate.
  injection H as -> <-.
  right. rewrite checkTokens_eq in Hcheck.
  destruct (_ <? 60); [|discriminate].
  assert (Hno : @Throw unit e <> Return tt) by discriminate.
  destruct (refreshTokens_failure _ _ _ HR Hcheck Hno) as (He & Hout & _).
  injection He as ->. split; [reflexivity | exact Hout].
Qed.

(** Over a store that works, a [selectAccount] that throws has either left
    the stored account id and email as they were, or logged the session out
    with the "not logged in" error: a selection is never left half made. *)
Theorem failed_selection {E : Env} fuel cb w e w' :
  reliable E ->
  CloudAccount.selectAccount fuel cb w = (Throw e, w') ->
  (stored_account w' = stored_account w /\ stored_email w' = stored_email w)
  \/ (e = NOT_LOGGED_IN /\ logged_out w').
Proof.
  intros HR. rewrite selectAccount_eq.
  destruct (CloudAccount.getAccessToken false w) as [[token|e0|] w1] eqn:Htok;
    [| |discriminate].
  2:{ intros [= <- <-].
      destruct (getAccessToken_Throw _ _ _ _ HR Htok) as [Hg|[-> Hout]];
        [left | right; split; [reflexivity | exact Hout]].
      unfold stored_account, stored_email. cbn [globalState log].
      rewrite Hg. auto. }
  apply getAccessToken_Return in Htok as [Hg1 _].
  destruct (CloudAccount.selectAccount_pages _ _ _ _ _)
    as [[resources|e0|] w2] eqn:Hpages; [| |discriminate];
    apply selectAccount_pages_frame in Hpages as (_ & _ & Hg2 & _).
  2:{ intros [= <- <-]. left.
      unfold stored_account, stored_email. cbn [globalState log].
      rewrite Hg2, Hg1. auto. }
  destruct (choose cb _ w2) as [r3 w3] eqn:Hch.
  destruct r3 as [b|e3|]; cbn; intros Hsel; try discriminate.
  injection Hsel as -> <-. revert Hch.
  assert (Hp : forall selected w0 w4,
    persist selected w0 = (Throw e, w4) ->
    e = NOT_LOGGED_IN /\ logged_out (log (EvEmit "changed") w4)).
  { intros selected w0 w4 H.
    destruct (persist_outcome _ _ _ _ H) as [(He & _)|(_ & _ & Hrel)];
      [discriminate|].
    destruct (Hrel HR) as [He Hout]. injection He as ->. auto. }
  unfold choose.
  destruct (map CloudAccount.account_of resources) as [|a [|b l]] eqn:Hacc;
    try (intros H; right; eapply Hp, H);
    unfold bind, await; destruct (cb _) as [[selected|]|e0];
    try discriminate;
    try (intros H; right; eapply Hp, H);
    intros [= <- <-]; left;
    unfold stored_account, stored_email; cbn [globalState log];
    rewrite Hg2, Hg1; auto.
Qed.

Lemma failed_selection_witness :
  (stored_account
     (snd (CloudAccount.selectAccount
             (E := Scenario.rejecting Scenario.one_account) 3
             Scenario.cancel (Scenario.signed_in_no_account 1003600)))
   = stored_account (Scenario.signed_in_no_account 1003600) /\
   stored_email
     (snd (CloudAccount.selectAccount
             (E := Scenario.rejecting Scenario.one_account) 3
             Scenario.cancel (Scenario.signed_in_no_account 1003600)))
   = stored_email (Scenario.signed_in_no_account 1003600)) \/
  (NOT_LOGGED_IN = NOT_LOGGED_IN /\
   logged_out
     (snd (CloudAccount.selectAccount
             (E := Scenario.rejecting Scenario.one_account) 3
             Scenario.cancel (Scenario.signed_in_no_account 1003600)))).
Proof.
  apply (failed_selection (E := Scenario.rejecting Scenario.one_account) 3
           Scenario.cancel (Scenario.signed_in_no_account 1003600)
           NOT_LOGGED_IN).
  - intros tr op. reflexivity.
  - vm_compute. reflexivity.
Defined.

(** ** Where the refresh token is kept *)

(** The factory wraps keytar from the [node_modules.asar] path when it loads
    there, else from the [node_modules] path; when it loads at neither, the
    earlier [CloudAccountStore] constructor throws, and the factory makes a
    file store in [CHE_PROJECTS_ROOT] when that is set and not empty, else
    in the home directory.  The factory makes a keytar store exactly when
    that constructor succeeds, with the same module. *)
Theorem secure_store_choice {Keytar} (host : Host Keytar) :
  (forall keytar,
      require host (appRoot host +:+ "/node_modules.asar/keytar")
        = Some keytar ->
      SecureStoreFactory.getSecureStore host = KeytarSecureStore keytar) /\
  (forall keytar,
      require host (appRoot host +:+ "/node_modules.asar/keytar") = None ->
      require host (appRoot host +:+ "/node_modules/keytar") = Some keytar ->
      SecureStoreFactory.getSecureStore host = KeytarSecureStore keytar) /\
  (require host (appRoot host +:+ "/node_modules.asar/keytar") = None ->
   require host (appRoot host +:+ "/node_modules/keytar") = None ->
   CloudAccountStore_constructor host = inr "Failed to load keytar module" /\
   SecureStoreFactory.getSecureStore host
     = FileSystemSecureStore
         (path_join host
            (match CHE_PROJECTS_ROOT host with
             | Some (String c s) => String c s
             | _ => homeDir host
             end)
            ".vscode-ibmcloud-account.store")) /\
  (forall keytar,
      CloudAccountStore_constructor host = inl keytar <->
      SecureStoreFactory.getSecureStore host = KeytarSecureStore keytar).
Proof.
  unfold SecureStoreFactory.getSecureStore, SecureStoreFactory.getKeytar,
    CloudAccountStore_constructor, keytarPaths. cbn [first_loaded].
  split; [|split; [|split]].
  - intros keytar ->. reflexivity.
  - intros keytar -> ->. reflexivity.
  - intros -> ->. split; [reflexivity|].
    destruct (CHE_PROJECTS_ROOT host) as [[|c s]|]; reflexivity.
  - intros keytar.
    destruct (require host _) as [k1|]; [|destruct (require host _) as [k2|]];
      split; intros H; try discriminate; by simplify_eq.
Qed.

Lemma secure_store_choice_witness :
  CloudAccountStore_constructor Fixture.no_keytar
    = inr "Failed to load keytar module" /\
  SecureStoreFactory.getSecureStore Fixture.no_keytar
    = FileSystemSecureStore "/projects/.vscode-ibmcloud-account.store".
Proof.
  apply (proj1 (proj2 (proj2 (secure_store_choice Fixture.no_keytar))));
    reflexivity.
Defined.

(** ** The status bar *)




(** ** A fresh token is kept *)

(** Over a store that works, when [getAccessToken] has returned a token and
    sixty seconds or more are left on it at the next call, that call returns
    the same token and does nothing but look up the refresh token and
    notify. *)
Theorem token_is_cached {E : Env} accountRequired w token w' :
  reliable E ->
  CloudAccount.getAccessToken accountRequired w = (Return token, w') ->
  truthy (stored_refreshToken w') = true ->
  60 <= expiration w' - now (log GetRefreshToken w') ->
  CloudAccount.getAccessToken accountRequired w'
    = (Return token, log (EvEmit "changed") (log GetRefreshToken w')).
Proof.
  intros HR Hfirst Hrt Hfresh.
  assert (Hpre : accountRequired && negb (truthy (stored_account w')) = false
                 /\ token = accessToken w').
  { destruct (getAccessToken_Return _ _ _ _ Hfirst) as [Hg _].
    revert Hfirst. rewrite getAccessToken_eq, loggedIn_eq, HR.
    destruct (truthy (stored_refreshToken w)); [|discriminate].
    change (stored_account (log _ w)) with (stored_account w).
    assert (Ha : stored_account w' = stored_account w)
      by (unfold stored_account; rewrite Hg; reflexivity).
    rewrite Ha.
    destruct (accountRequired && negb _); [discriminate|].
    destruct (CloudAccount.checkTokens _) as [[[]|e|] w2];
      intros [= <- <-]; auto. }
  destruct Hpre as [Hpre ->].
  rewrite getAccessToken_eq, loggedIn_eq, HR, Hrt.
  change (stored_account (log _ w')) with (stored_account w').
  rewrite Hpre, checkTokens_eq.
  apply Z.ltb_ge in Hfresh. unfold GetRefreshToken in *.
  change (expiration (log _ w')) with (expiration w').
  rewrite Hfresh. reflexivity.
Qed.

Lemma token_is_cached_witness :
  fst (CloudAccount.getAccessToken
         (E := Scenario.accepting Scenario.three_pages) true
         (snd (CloudAccount.getAccessToken
                 (E := Scenario.accepting Scenario.three_pages) true
                 (Scenario.signed_in 1000030))))
    = Return (Some "a1").
Proof.
  rewrite (token_is_cached (E := Scenario.accepting Scenario.three_pages)
             true (Scenario.signed_in 1000030) (Some "a1")
             (snd (CloudAccount.getAccessToken
                     (E := Scenario.accepting Scenario.three_pages) true
                     (Scenario.signed_in 1000030)))
             ltac:(intros tr op; reflexivity)
             ltac:(vm_compute; reflexivity)
             ltac:(reflexivity)
             ltac:(vm_compute; discriminate)).
  reflexivity.
Defined.
